(** * DrTorch: wrappers and model selection

    A shallow embedding of [DrTorch/wrappers.py] and
    [DrTorch/model_selection.py].  Python dictionaries that are only looked
    up are finite maps; calls into code that lives outside the two files
    (the loss callables, the optimizer constructor, the dataloader builder,
    the model class and its [fit], the samplers, torch, numpy, wandb, pandas
    and joblib) are functions supplied by the caller of the embedding; every
    exception records whether it was raised by an operation of the two files
    themselves or inside one of those callees. *)

From stdpp Require Import base option list gmap strings pretty.
From Stdlib Require Import Ascii ZArith Lia.

Local Open Scope string_scope.
Local Open Scope list_scope.
Local Open Scope Z_scope.

(** ** Python values and exceptions *)

(** The values that occur in hyperparameter dictionaries and in result
    tables.  Objects of the DrTorch classes are represented by the attributes
    the code reads ([Criterion.name], [EarlyStopper.patience], [Metric.name])
    and by an id that tells objects apart under [==]: two objects compare
    equal exactly when they carry the same id (for a class without [__eq__],
    such as [Criterion], that is being the same object).  A float is
    represented by an exact whole number (clock readings are whole numbers of
    ticks), the rounding of float arithmetic is not modelled. *)
Inductive pyval : Type :=
  | VNone
  | VBool (b : bool)
  | VInt (z : Z)
  | VFloat (ticks : Z)
  | VStr (s : string)
  | VCriterion (id : N) (name : string)
  | VEarlyStopper (id : N) (patience : Z)
  | VMetrics (metrics : list (N * string))
  | VCallable (id : string)
  | VObject (id : N).

#[global] Instance pyval_eq_dec : EqDecision pyval.
Proof. solve_decision. Defined.

(** What [==] sees of a value: the number behind a bool, an int or a float
    ([True == 1 == 1.0]), the content of a string, the id of an object, the
    ids of the metrics of a list (lists compare elementwise). *)
Inductive eq_class : Type :=
  | KNone
  | KNumber (z : Z)
  | KStr (s : string)
  | KCriterion (id : N)
  | KEarlyStopper (id : N)
  | KMetrics (ids : list N)
  | KCallable (id : string)
  | KObject (id : N).

#[global] Instance eq_class_eq_dec : EqDecision eq_class.
Proof. solve_decision. Defined.

Definition class_of (v : pyval) : eq_class :=
  match v with
  | VNone => KNone
  | VBool b => KNumber (Z.b2z b)
  | VInt z => KNumber z
  | VFloat z => KNumber z
  | VStr s => KStr s
  | VCriterion id _ => KCriterion id
  | VEarlyStopper id _ => KEarlyStopper id
  | VMetrics metrics => KMetrics metrics.*1
  | VCallable id => KCallable id
  | VObject id => KObject id
  end.

(** [a == b] on values. *)
Definition py_eq (a b : pyval) : bool := bool_decide (class_of a = class_of b).

(** What [==] sees of a dictionary: its keys, and of each value what [==]
    sees of it. *)
Definition dict_class (d : gmap string pyval) : gmap string eq_class :=
  class_of <$> d.

(** [a == b] on dictionaries: the same keys, holding values that compare
    equal. *)
Definition dict_eq (a b : gmap string pyval) : bool :=
  bool_decide (dict_class a = dict_class b).

Inductive exn_class : Type :=
  | KeyError (key : string)
  | TypeError
  | AttributeError
  | IndexError
  | ValueError
  | RuntimeError
  | OtherError (tag : string).

(** The code outside the two files that can be entered by a call. *)
Inductive callee : Type :=
  | LossFunction
  | OptimizerConstructor
  | LabelContainer
  | DataLoaderBuilder
  | ModelClass
  | ModelFit
  | Sampler
  | Torch
  | Numpy
  | Wandb
  | Pandas
  | Joblib
  | Clock.

(** Where an exception was raised: by an operation written in the two files
    (a subscript, a [pop], an unpacking, a call of a non-callable) or inside a
    callee. *)
Inductive origin : Type :=
  | Own
  | From (c : callee).

#[global] Instance exn_class_eq_dec : EqDecision exn_class.
Proof. solve_decision. Defined.
#[global] Instance callee_eq_dec : EqDecision callee.
Proof. solve_decision. Defined.
#[global] Instance origin_eq_dec : EqDecision origin.
Proof. solve_decision. Defined.

Inductive outcome (A : Type) : Type :=
  | Ok (a : A)
  | Raise (o : origin) (e : exn_class).
Arguments Ok {A} a.
Arguments Raise {A} o e.

(** What a callee answers: a value or an exception of its own. *)
Inductive reply (A : Type) : Type :=
  | Returns (a : A)
  | Throws (e : exn_class).
Arguments Returns {A} a.
Arguments Throws {A} e.

Definition invoke {A} (c : callee) (r : reply A) : outcome A :=
  match r with
  | Returns a => Ok a
  | Throws e => Raise (From c) e
  end.

#[global] Instance outcome_ret : MRet outcome := λ A a, Ok a.
#[global] Instance outcome_bind : MBind outcome := λ A B f m,
  match m with
  | Ok a => f a
  | Raise o e => Raise o e
  end.

(** ** Python built-ins used by the two files *)

(** [s.split(sep)] for a one-character separator. *)
Fixpoint split_on (sep : Ascii.ascii) (s : string) : list string :=
  match s with
  | EmptyString => [EmptyString]
  | String c s' =>
      if Ascii.eqb c sep then EmptyString :: split_on sep s'
      else match split_on sep s' with
           | [] => [String c EmptyString]
           | w :: ws => String c w :: ws
           end
  end.

(** [l[i]] on a list, with Python's negative indices. *)
Definition py_index {A} (l : list A) (i : Z) : outcome A :=
  let n := Z.of_nat (length l) in
  let j := if i <? 0 then i + n else i in
  if (0 <=? j) && (j <? n) then
    match l !! Z.to_nat j with
    | Some x => Ok x
    | None => Raise Own IndexError
    end
  else Raise Own IndexError.

(** [d[k]] on a dictionary. *)
Definition getitem {A} (d : gmap string A) (k : string) : outcome A :=
  match d !! k with
  | Some v => Ok v
  | None => Raise Own (KeyError k)
  end.

(** [enumerate(l)]. *)
Definition enumerate {A} (l : list A) : list (nat * A) :=
  zip (seq 0 (length l)) l.

(** A [for] loop over a list whose body may raise, threading the variables
    the body assigns. *)
Fixpoint for_each {A S} (l : list A) (s : S) (body : A → S → outcome S)
    : outcome S :=
  match l with
  | [] => Ok s
  | x :: l' => s' ← body x s; for_each l' s' body
  end.

(** Unpacking a string into two targets, as [a, b = s] does: the string
    must have exactly two characters. *)
Definition unpack2 (s : string) : outcome (string * string) :=
  match s with
  | String a (String b EmptyString) =>
      Ok (String a EmptyString, String b EmptyString)
  | _ => Raise Own ValueError
  end.

(** Calling a [str] object. *)
Definition call_str {A} (f : string) : outcome A := Raise Own TypeError.

(** Truth value of a string. *)
Definition str_truthy (s : string) : bool :=
  match s with EmptyString => false | _ => true end.

(** ** wrappers.py *)

Module Wrappers.

Module Criterion.
Section Criterion.
(** Predicted labels, target labels and the loss value (tensors in the
    code). *)
Context {P T O : Type}.

(** The attributes set by [AbstractCriterion.__init__] and by
    [Criterion.__init__]. *)
Record t : Type := {
  name : string;
  reduction_function : option (O → reply O);
  loss_function : P → T → reply O;
}.

Definition init (name : string) (loss_function : P → T → reply O)
    (reduction_function : option (O → reply O)) : t :=
  {| name := name;
     reduction_function := reduction_function;
     loss_function := loss_function |}.

Definition str (self : t) : string := name self.

Definition call (self : t) (predicted_labels : P) (target_labels : T)
    : outcome O :=
  output ← invoke LossFunction
             (loss_function self predicted_labels target_labels);
  Ok output.

(** The loss followed by the reduction step, when there is one. *)
Definition loss_then_reduction (loss_function : P → T → reply O)
    (reduction_function : option (O → reply O))
    (predicted_labels : P) (target_labels : T) : outcome O :=
  output ← invoke LossFunction (loss_function predicted_labels target_labels);
  match reduction_function with
  | Some r => invoke LossFunction (r output)
  | None => Ok output
  end.
End Criterion.
Arguments t : clear implicits.
End Criterion.

Module MultyHeadCriterion.
Section MultyHeadCriterion.
(** One head's labels, and the loss value. *)
Context {V O : Type}.
(** [torch.stack], [torch.sum(_, dim=0)] and the product of the weights
    with a loss. *)
Context (torch_stack : list O → reply O) (torch_sum : O → reply O)
        (weights_times : list Z → O → reply O).

(** [loss_functions] is a dictionary: its items in insertion order. *)
Record t : Type := {
  name : string;
  reduction_function : option (O → reply O);
  loss_functions : list (string * (V → V → reply O));
  loss_weights : list Z;
}.

Definition init (name : string)
    (loss_functions : list (string * (V → V → reply O)))
    (loss_weights : list Z) (reduction_function : option (O → reply O)) : t :=
  {| name := name;
     reduction_function := reduction_function;
     loss_functions := loss_functions;
     loss_weights := loss_weights |}.

(** One turn of the loop.  Iterating a dictionary yields its keys, so the
    two loop targets are bound by unpacking a key. *)
Definition head_step (predicted_labels target_labels : string → reply V)
    (key : string) (losses : list O) : outcome (list O) :=
  '(head_key, current_head_loss) ← unpack2 key;
  p ← invoke LabelContainer (predicted_labels head_key);
  q ← invoke LabelContainer (target_labels head_key);
  l ← call_str current_head_loss;
  Ok (losses ++ [l]).

Definition call (self : t) (predicted_labels target_labels : string → reply V)
    : outcome O :=
  let loss_weights : list Z := [] in
  losses ← for_each ((loss_functions self).*1) []
             (head_step predicted_labels target_labels);
  terms ← for_each (zip loss_weights losses) []
            (λ '(weight, current_loss) acc,
               x ← invoke Torch (weights_times (MultyHeadCriterion.loss_weights self)
                                   current_loss);
               Ok (acc ++ [x]));
  stacked ← invoke Torch (torch_stack terms);
  loss ← invoke Torch (torch_sum stacked);
  Ok loss.
End MultyHeadCriterion.
Arguments t : clear implicits.
End MultyHeadCriterion.

Module OptimizerWrapper.
Section OptimizerWrapper.
(** The model parameters, and the optimizer that is built. *)
Context {N Opt : Type}.

(** A constructor: what [repr] shows for it and what calling it with the
    model parameters and keyword arguments does. *)
Record constructor : Type := {
  repr : string;
  construct : N → gmap string pyval → reply Opt;
}.

Record t : Type := {
  name : string;
  optimizer_constructor : constructor;
  optimizer_partial_params : gmap string pyval;
}.

Definition init (optimizer_constructor : constructor) (identifier : string)
    (optimizer_partial_params : option (gmap string pyval)) : outcome t :=
  quoted ← py_index (split_on "'"%char (repr optimizer_constructor)) 1;
  name ← py_index (split_on "."%char quoted) (-1);
  let name := if str_truthy identifier then name +:+ " " +:+ identifier
              else name in
  Ok {| name := name;
        optimizer_constructor := optimizer_constructor;
        optimizer_partial_params :=
          match optimizer_partial_params with
          | None => ∅
          | Some p => p
          end |}.

Definition str (self : t) : string := name self.

Definition get_optimizer (self : t) (net_params : N) : outcome Opt :=
  invoke OptimizerConstructor
    (construct (optimizer_constructor self) net_params
       (optimizer_partial_params self)).
End OptimizerWrapper.
Arguments constructor : clear implicits.
Arguments t : clear implicits.
End OptimizerWrapper.

End Wrappers.

(** ** model_selection.py *)

Module ModelSelection.

(** What [fit] returns: the histories of the training and of the validation
    pass, by criterion or metric name. *)
Record fit_result : Type := {
  train : gmap string (list pyval);
  val : gmap string (list pyval);
}.

(** A pandas table: its columns, all of the same length. *)
Record DataFrame : Type := {
  columns : gmap string (list pyval);
  nrows : nat;
}.

(** The calls that leave the file, in the order they are made. *)
Inductive event : Type :=
  | EvPrint (text : list string)
  | EvGetParams (param : string) (total : gmap string pyval)
  | EvCreate (data labels : pyval) (shuffle : bool) (device : string)
      (params : gmap string pyval)
  | EvManualSeed (seed : Z)
  | EvNumpySeed (seed : Z)
  | EvModel (model_class : pyval) (kwargs : gmap string pyval)
  | EvTo (net : pyval) (device : string)
  | EvWandbInit (config : gmap string pyval) (name : string)
      (params : gmap string string)
  | EvWandbWatch (net criterion : pyval)
  | EvTime
  | EvFit (net train_loader val_loader : pyval) (kwargs : gmap string pyval)
  | EvDump (df : DataFrame) (path : string)
  | EvSample (sampler : pyval).

(** The injected objects and the libraries, as functions on a state [X] of
    their own (random generators, clock, file system, network). *)
Record collaborators (X : Type) : Type := {
  (** [inspect.signature(dataloader_builder.create).parameters.keys()] *)
  create_parameters : list string;
  get_dataloader_params : string → gmap string pyval → X → X * reply pyval;
  create : pyval → pyval → bool → string → gmap string pyval → X → X * reply pyval;
  manual_seed : Z → X → X * reply ();
  numpy_seed : Z → X → X * reply ();
  (** calling the class object [VCallable id] with keyword arguments *)
  new_model : string → gmap string pyval → X → X * reply pyval;
  to_device : pyval → string → X → X * reply pyval;
  wandb_init : gmap string pyval → string → gmap string string → X → X * reply ();
  wandb_watch : pyval → pyval → X → X * reply ();
  time : X → X * reply Z;
  fit : pyval → pyval → pyval → gmap string pyval → X → X * reply fit_result;
  dump : DataFrame → string → X → X * reply ();
  (** calling the sampler [VCallable id] *)
  sample : string → X → X * reply pyval;
}.
Arguments create_parameters {X} _.
Arguments get_dataloader_params {X} _.
Arguments create {X} _.
Arguments manual_seed {X} _.
Arguments numpy_seed {X} _.
Arguments new_model {X} _.
Arguments to_device {X} _.
Arguments wandb_init {X} _.
Arguments wandb_watch {X} _.
Arguments time {X} _.
Arguments fit {X} _.
Arguments dump {X} _.
Arguments sample {X} _.

(** The state a run threads: the collaborators' state and the calls made. *)
Record world (X : Type) : Type := {
  ext : X;
  log : list event;
}.
Arguments ext {X} _.
Arguments log {X} _.
Arguments Build_world {X} _ _.

Definition M (X A : Type) : Type := world X → world X * outcome A.

#[global] Instance M_ret {X} : MRet (M X) := λ A a w, (w, Ok a).
#[global] Instance M_bind {X} : MBind (M X) := λ A B f m w,
  match m w with
  | (w', Ok a) => f a w'
  | (w', Raise o e) => (w', Raise o e)
  end.

Definition lift {X A} (m : outcome A) : M X A := λ w, (w, m).

(** A call of callee [c], recorded as [ev]. *)
Definition call {X A} (c : callee) (ev : event) (f : X → X * reply A) : M X A :=
  λ w, let '(x, r) := f (ext w) in
       ({| ext := x; log := log w ++ [ev] |}, invoke c r).

Definition print {X} (text : list string) : M X () :=
  λ w, ({| ext := ext w; log := log w ++ [EvPrint text] |}, Ok ()).

Fixpoint for_loop {X A S} (l : list A) (s : S) (body : A → S → M X S) : M X S :=
  match l with
  | [] => mret s
  | x :: l' => s' ← body x s; for_loop l' s' body
  end.

(** [pd.DataFrame(data=d)]: the columns must have one length. *)
Definition pd_DataFrame (d : gmap string (list pyval)) : outcome DataFrame :=
  match (length ∘ snd) <$> map_to_list d with
  | [] => Ok {| columns := d; nrows := 0 |}
  | n :: ns =>
      if forallb (Nat.eqb n) ns then Ok {| columns := d; nrows := n |}
      else Raise (From Pandas) ValueError
  end.

(** [d[k].append(x)], the argument evaluated after [d[k]]. *)
Definition append_to (d : gmap string (list pyval)) (k : string)
    (x : outcome pyval) : outcome (gmap string (list pyval)) :=
  l ← getitem d k;
  v ← x;
  Ok (<[k := l ++ [v]]> d).

(** [obj.name] and [obj.patience]. *)
Definition attr_name (v : pyval) : outcome string :=
  match v with
  | VCriterion _ n => Ok n
  | _ => Raise Own AttributeError
  end.

Definition attr_patience (v : pyval) : outcome Z :=
  match v with
  | VEarlyStopper _ p => Ok p
  | _ => Raise Own AttributeError
  end.

(** The names read by [for metric in training_hyperparameters.get('metrics', [])]
    with [metric.name] in the body. *)
Definition metric_names (training_hyperparameters : gmap string pyval)
    : outcome (list string) :=
  match training_hyperparameters !! "metrics" with
  | None => Ok []
  | Some (VMetrics metrics) => Ok metrics.*2
  | Some (VStr s) => if str_truthy s then Raise Own AttributeError else Ok []
  | Some _ => Raise Own TypeError
  end.

(** [itertools.product(a, b)]. *)
Definition product {A B} (a : list A) (b : list B) : list (A * B) :=
  flat_map (λ x, map (pair x) b) a.

(** [np.any] of a list of booleans. *)
Definition np_any (l : list bool) : bool := existsb id l.

(** The built-in [any] of a list of booleans. *)
Definition any (l : list bool) : bool := existsb id l.

(** The variables of [collect_results] that a turn of the loop over the seeds
    assigns. *)
Record seed_loop_vars : Type := {
  train_results : gmap string (list pyval);
  val_results : gmap string (list pyval);
  fitting_times : list pyval;
  run_idx : nat;
}.

Section Search.
Context {X : Type} (E : collaborators X).

(** Calling [model_hyperparameters['model_class']] with the remaining
    model hyperparameters as keyword arguments. *)
Definition call_model_class (model_class : pyval) (kwargs : gmap string pyval)
    : M X pyval :=
  match model_class with
  | VCallable id => call ModelClass (EvModel model_class kwargs) (new_model E id kwargs)
  | _ => lift (Raise Own TypeError)
  end.

(** [sampler()] *)
Definition call_sampler (sampler : pyval) : M X pyval :=
  match sampler with
  | VCallable id => call Sampler (EvSample sampler) (sample E id)
  | _ => lift (Raise Own TypeError)
  end.

(** A keyword given both by name and through [**kwargs]. *)
Definition check_kwargs {V} (named : list string) (kwargs : gmap string V)
    : outcome () :=
  if existsb (λ k, bool_decide (is_Some (kwargs !! k))) named
  then Raise Own TypeError else Ok ().

(** Lines 236-242: the keyword arguments of [dataloader_builder.create]. *)
Definition dataloader_params_of (total_hyperparameters : gmap string pyval)
    : M X (gmap string pyval) :=
  let dataloader_params := create_parameters E in
  let dataloader_params :=
    filter (λ element, element ∉ ["data"; "labels"; "shuffle"; "device"])
           dataloader_params in
  for_loop dataloader_params ∅ (λ param acc,
    v ← match total_hyperparameters !! param with
        | Some v => mret v
        | None => call DataLoaderBuilder (EvGetParams param total_hyperparameters)
                    (get_dataloader_params E param total_hyperparameters)
        end;
    mret (<[param := v]> acc)).

(** Lines 271-309: one turn of the loop over [test_iterator]. *)
Definition seed_step (seeds : option (list Z)) (device : string)
    (hyperparameters_key_to_save : list string)
    (wandb_params : option (gmap string string))
    (training_hyperparameters model_hyperparameters total_hyperparameters
       new_training_hyperparameters : gmap string pyval)
    (criterion_name : string) (metrics : list string) (history_idx : Z)
    (train_data_loader val_data_loader : pyval)
    (test_iteration : Z) (v : seed_loop_vars) : M X seed_loop_vars :=
  config_params ← lift
    (if wandb_params is Some _ then
       for_each hyperparameters_key_to_save (∅ : gmap string pyval) (λ key acc,
         x ← getitem total_hyperparameters key; Ok (<[key := x]> acc))
     else Ok ∅);
  config_params ←
    (if seeds is Some _ then
       call Torch (EvManualSeed test_iteration) (manual_seed E test_iteration);;
       call Numpy (EvNumpySeed test_iteration) (numpy_seed E test_iteration);;
       mret (if wandb_params is Some _
             then <["seed" := VInt test_iteration]> config_params
             else config_params)
     else mret config_params);
  lift (getitem model_hyperparameters "model_class");;
  let new_model_hyperparameters := delete "model_class" model_hyperparameters in
  model_class ← lift (getitem model_hyperparameters "model_class");
  net ← call_model_class model_class new_model_hyperparameters;
  net ← call ModelClass (EvTo net device) (to_device E net device);
  (if wandb_params is Some wandb_params then
     let name := "run_" +:+ pretty (run_idx v) in
     lift (check_kwargs ["config"; "name"] wandb_params);;
     call Wandb (EvWandbInit config_params name wandb_params)
       (wandb_init E config_params name wandb_params);;
     criterion ← lift (getitem total_hyperparameters "criterion");
     call Wandb (EvWandbWatch net criterion) (wandb_watch E net criterion)
   else mret ());;
  start_time ← call Clock EvTime (time E);
  lift (check_kwargs ["train_loader"; "val_loader"; "verbose"]
          new_training_hyperparameters);;
  result ← call ModelFit
    (EvFit net train_data_loader val_data_loader new_training_hyperparameters)
    (fit E net train_data_loader val_data_loader new_training_hyperparameters);
  end_time ← call Clock EvTime (time E);
  let fitting_times := fitting_times v ++ [VFloat (end_time - start_time)] in
  train_results ← lift (append_to (train_results v) criterion_name
    (h ← getitem (train result) criterion_name; py_index h history_idx));
  val_results ← lift (append_to (val_results v) criterion_name
    (h ← getitem (val result) criterion_name; py_index h history_idx));
  '(train_results, val_results) ← lift
    (for_each metrics (train_results, val_results) (λ metric '(tr, vr),
       tr ← append_to tr metric
              (h ← getitem (train result) metric; py_index h history_idx);
       vr ← append_to vr metric
              (h ← getitem (val result) metric; py_index h history_idx);
       Ok (tr, vr)));
  mret {| train_results := train_results;
          val_results := val_results;
          fitting_times := fitting_times;
          run_idx := S (run_idx v) |}.

(** Lines 314-330: one turn of the loop over [enumerate(seeds)]. *)
Definition row_step (save_loss_values : bool) (criterion_name : string)
    (metrics : list string) (v : seed_loop_vars)
    (i_seed : nat * Z) (dataframe_dict : gmap string (list pyval))
    : outcome (gmap string (list pyval)) :=
  let '(i, seed) := i_seed in
  dataframe_dict ← append_to dataframe_dict "seed" (Ok (VInt seed));
  dataframe_dict ← append_to dataframe_dict "time"
                     (py_index (fitting_times v) (Z.of_nat i));
  dataframe_dict ←
    (if save_loss_values then
       dataframe_dict ← append_to dataframe_dict "train_loss"
         (l ← getitem (train_results v) criterion_name; py_index l (Z.of_nat i));
       append_to dataframe_dict "val_loss"
         (l ← getitem (val_results v) criterion_name; py_index l (Z.of_nat i))
     else Ok dataframe_dict);
  for_each metrics dataframe_dict (λ metric dataframe_dict,
    let dataframe_dict :=
      if bool_decide (is_Some (dataframe_dict !! (metric +:+ "_train")))
      then dataframe_dict else <[metric +:+ "_train" := []]> dataframe_dict in
    dataframe_dict ← append_to dataframe_dict (metric +:+ "_train")
      (l ← getitem (train_results v) metric; py_index l (Z.of_nat i));
    let dataframe_dict :=
      if bool_decide (is_Some (dataframe_dict !! (metric +:+ "_val")))
      then dataframe_dict else <[metric +:+ "_val" := []]> dataframe_dict in
    append_to dataframe_dict (metric +:+ "_val")
      (l ← getitem (val_results v) metric; py_index l (Z.of_nat i))).

(** Lines 220-330: one turn of the loop over [iterator].  The assignments of
    lines 202-216, made once before the loop, only read the arguments; they
    are written here as the first bindings. *)
Definition combo_step (train_data val_data : pyval * pyval) (shuffle : bool)
    (device : string) (hyperparameters_key_to_save : list string)
    (seeds : option (list Z)) (save_loss_values : bool)
    (wandb_params : option (gmap string string))
    (item : nat * (gmap string pyval * gmap string pyval))
    (vars : gmap string (list pyval) * nat)
    : M X (gmap string (list pyval) * nat) :=
  let test_iterator := match seeds with Some s => s | None => [0] end in
  let '(train_input, train_labels) := train_data in
  let '(val_input, val_labels) := val_data in
  let wandb_flags :=
    if wandb_params is Some _ then ["interaction_with_wandb"] else [] in
  let '(n_run, (training_hyperparameters, model_hyperparameters)) := item in
  let '(dataframe_dict, run_idx) := vars in
  criterion ← lift (getitem training_hyperparameters "criterion");
  let early_stopper_exist :=
    match training_hyperparameters !! "early_stopper" with
    | None | Some VNone => false
    | Some _ => true
    end in
  history_idx ← lift
    (if early_stopper_exist then
       early_stopper ← getitem training_hyperparameters "early_stopper";
       patience ← attr_patience early_stopper;
       Ok (-1 - patience)
     else Ok (-1));
  (if bool_decide (is_Some wandb_params)
      && negb (any ((λ flag, bool_decide (is_Some (training_hyperparameters !! flag)))
                         <$> wandb_flags))
   then print ("Warning: Wandb connection started without logging anything.Maybe you want to add some training hyperparameters wandb related:"
               :: wandb_flags)
   else mret ());;
  let total_hyperparameters := model_hyperparameters ∪ training_hyperparameters in
  dataloader_params ← dataloader_params_of total_hyperparameters;
  train_data_loader ← call DataLoaderBuilder
    (EvCreate train_input train_labels shuffle device dataloader_params)
    (create E train_input train_labels shuffle device dataloader_params);
  val_data_loader ← call DataLoaderBuilder
    (EvCreate val_input val_labels false device dataloader_params)
    (create E val_input val_labels false device dataloader_params);
  lift (getitem training_hyperparameters "batch_size");;
  let new_training_hyperparameters := delete "batch_size" training_hyperparameters in
  criterion_name ← lift (attr_name criterion);
  metrics ← lift (metric_names training_hyperparameters);
  let results :=
    foldl (λ d metric, <[metric := []]> d) {[criterion_name := []]} metrics in
  v ← for_loop (enumerate test_iterator)
        {| train_results := results; val_results := results;
           fitting_times := []; run_idx := run_idx |}
        (λ '(idx, test_iteration),
           seed_step seeds device hyperparameters_key_to_save wandb_params
             training_hyperparameters model_hyperparameters total_hyperparameters
             new_training_hyperparameters criterion_name metrics history_idx
             train_data_loader val_data_loader test_iteration);
  dataframe_dict ← lift
    (for_each hyperparameters_key_to_save dataframe_dict (λ key dataframe_dict,
       append_to dataframe_dict key (getitem total_hyperparameters key)));
  seeds ← lift (match seeds with
                | Some seeds => Ok seeds
                | None => Raise Own TypeError
                end);
  dataframe_dict ← lift
    (for_each (enumerate seeds) dataframe_dict
       (row_step save_loss_values criterion_name metrics v));
  mret (dataframe_dict, ModelSelection.run_idx v).

(** Lines 206-211: the empty columns. *)
Definition empty_columns (hyperparameters_key_to_save : list string)
    (save_loss_values : bool) : gmap string (list pyval) :=
  let dataframe_dict :=
    foldl (λ d key, <[key := []]> d) ∅ hyperparameters_key_to_save in
  let dataframe_dict := <["time" := []]> dataframe_dict in
  let dataframe_dict := <["seed" := []]> dataframe_dict in
  if save_loss_values
  then <["val_loss" := []]> (<["train_loss" := []]> dataframe_dict)
  else dataframe_dict.

Definition collect_results (train_data val_data : pyval * pyval)
    (iterator : list (nat * (gmap string pyval * gmap string pyval)))
    (shuffle : bool) (device : string)
    (hyperparameters_key_to_save : list string) (path_to_results : string)
    (seeds : option (list Z)) (save_loss_values : bool)
    (wandb_params : option (gmap string string)) : M X DataFrame :=
  let dataframe_dict := empty_columns hyperparameters_key_to_save save_loss_values in
  '(dataframe_dict, _) ← for_loop iterator (dataframe_dict, 0%nat)
    (combo_step train_data val_data shuffle device hyperparameters_key_to_save
       seeds save_loss_values wandb_params);
  df ← lift (pd_DataFrame dataframe_dict);
  call Joblib (EvDump df path_to_results) (dump E df path_to_results);;
  mret df.

Definition grid_search_train_validation (train_data val_data : pyval * pyval)
    (shuffle : bool)
    (model_hyperparameters_to_test training_hyperparameters_to_test
       : list (gmap string pyval))
    (hyperparameters_key_to_save : list string) (device : string)
    (path_to_grid_search_results : string) (seeds : option (list Z))
    (save_loss_values : bool) (wandb_params : option (gmap string string))
    : M X DataFrame :=
  let iterator :=
    enumerate (product training_hyperparameters_to_test
                       model_hyperparameters_to_test) in
  collect_results train_data val_data iterator shuffle device
    hyperparameters_key_to_save path_to_grid_search_results seeds
    save_loss_values wandb_params.

(** Lines 142-147: one dictionary drawn from a dictionary of samplers, given
    by its items in insertion order. *)
Definition sample_dict (to_sample : list (string * pyval)) : M X (gmap string pyval) :=
  for_loop to_sample ∅ (λ '(key, sampler) d,
    x ← call_sampler sampler; mret (<[key := x]> d)).

(** Lines 139-155: the loop [while i < n_run].  A loop that is still running
    when [fuel] turns have been made gives [None]. *)
Fixpoint sampling_loop (fuel : nat)
    (model_hyperparameters_to_sample training_hyperparameters_to_sample
       : list (string * pyval))
    (n_run i : Z)
    (model_hyperparameters_to_test training_hyperparameters_to_test
       : list (gmap string pyval))
    (w : world X)
    : option (world X * outcome (list (gmap string pyval) * list (gmap string pyval))) :=
  if i <? n_run then
    match fuel with
    | O => None
    | S fuel =>
        match sample_dict model_hyperparameters_to_sample w with
        | (w, Raise o e) => Some (w, Raise o e)
        | (w, Ok model_d) =>
            match sample_dict training_hyperparameters_to_sample w with
            | (w, Raise o e) => Some (w, Raise o e)
            | (w, Ok training_d) =>
                let model_hyperparameters_already_present :=
                  np_any ((λ mc, dict_eq model_d mc)
                            <$> model_hyperparameters_to_test) in
                let training_hyperparameters_already_present :=
                  np_any ((λ tc, dict_eq training_d tc)
                            <$> training_hyperparameters_to_test) in
                if negb (model_hyperparameters_already_present
                         && training_hyperparameters_already_present)
                then sampling_loop fuel model_hyperparameters_to_sample
                       training_hyperparameters_to_sample n_run (i + 1)
                       (model_hyperparameters_to_test ++ [model_d])
                       (training_hyperparameters_to_test ++ [training_d]) w
                else sampling_loop fuel model_hyperparameters_to_sample
                       training_hyperparameters_to_sample n_run i
                       model_hyperparameters_to_test
                       training_hyperparameters_to_test w
            end
        end
    end
  else Some (w, Ok (model_hyperparameters_to_test, training_hyperparameters_to_test)).

Definition randomized_search_train_validation (fuel : nat)
    (train_data val_data : pyval * pyval) (shuffle : bool)
    (model_hyperparameters_to_sample training_hyperparameters_to_sample
       : list (string * pyval))
    (hyperparameters_key_to_save : list string) (n_run : Z) (device : string)
    (path_to_randomized_search_results : string) (seeds : option (list Z))
    (save_loss_values : bool) (wandb_params : option (gmap string string))
    (w : world X) : option (world X * outcome DataFrame) :=
  match sampling_loop fuel model_hyperparameters_to_sample
          training_hyperparameters_to_sample n_run 0 [] [] w with
  | None => None
  | Some (w, Raise o e) => Some (w, Raise o e)
  | Some (w, Ok (model_hyperparameters_to_test, training_hyperparameters_to_test)) =>
      let iterator :=
        enumerate (zip training_hyperparameters_to_test
                       model_hyperparameters_to_test) in
      Some (collect_results train_data val_data iterator shuffle device
              hyperparameters_key_to_save path_to_randomized_search_results
              seeds save_loss_values wandb_params w)
  end.

(** The pairs that the first [n] turns of the sampling loop draw, starting
    in [w], up to the first draw in which a sampler raises. *)
Fixpoint draws (n : nat)
    (model_hyperparameters_to_sample training_hyperparameters_to_sample
       : list (string * pyval))
    (w : world X) : list (gmap string pyval * gmap string pyval) :=
  match n with
  | O => []
  | S n =>
      match sample_dict model_hyperparameters_to_sample w with
      | (w, Ok model_d) =>
          match sample_dict training_hyperparameters_to_sample w with
          | (w, Ok training_d) =>
              (model_d, training_d)
                :: draws n model_hyperparameters_to_sample
                     training_hyperparameters_to_sample w
          | (_, Raise _ _) => []
          end
      | (_, Raise _ _) => []
      end
  end.
End Search.

(** ** Specifications

    A run satisfies [wp m Q R] when it either returns a value in [Q] or
    raises an exception in [R]; [owp] is the same for code that makes no
    call. *)
Definition owp {A} (m : outcome A) (Q : A → Prop) (R : origin → exn_class → Prop)
    : Prop :=
  match m with
  | Ok a => Q a
  | Raise o e => R o e
  end.

Definition wp {X A} (m : M X A) (Q : A → Prop) (R : origin → exn_class → Prop)
    : Prop :=
  ∀ w, owp (m w).2 Q R.

(** The exception is not the file's own, provided [P] holds. *)
Definition foreign_if (P : Prop) (o : origin) (e : exn_class) : Prop :=
  P → ∃ c, o = From c.

(** Length of column [c] of the table under construction. *)
Definition col_len (d : gmap string (list pyval)) (c : string) : nat :=
  length (default [] (d !! c)).

(** [c] is the train or validation column of one of the metrics. *)
Definition metric_col (metrics : list string) (c : string) : Prop :=
  ∃ metric, metric ∈ metrics ∧ (c = metric +:+ "_train" ∨ c = metric +:+ "_val").

(** The columns present before the first combination. *)
Definition base_col (hyperparameters_key_to_save : list string)
    (save_loss_values : bool) (c : string) : Prop :=
  c ∈ hyperparameters_key_to_save ∨ c = "time" ∨ c = "seed"
  ∨ (save_loss_values = true ∧ (c = "train_loss" ∨ c = "val_loss")).

(** How often [c] occurs among the keys to save. *)
Definition occurrences (c : string) (keys : list string) : nat :=
  length (filter (λ key, key = c) keys).

(** The table [d'] has the columns of [d] and those in [new], and its columns
    'time' and 'seed' have [delta] more entries than in [d]. *)
Definition grown (new : string → Prop) (delta : string → nat)
    (d d' : gmap string (list pyval)) : Prop :=
  (∀ c, is_Some (d' !! c) ↔ is_Some (d !! c) ∨ new c)
  ∧ (∀ c, c = "time" ∨ c = "seed" → col_len d' c = (col_len d c + delta c)%nat).

(** Every name has a list of at least [k] results. *)
Definition lens_ge (names : list string) (k : nat)
    (d : gmap string (list pyval)) : Prop :=
  ∀ name, name ∈ names → ∃ l, d !! name = Some l ∧ (k ≤ length l)%nat.

(** After [k] turns of the loop over the seeds: [k] fitting times and at least
    [k] results under every name. *)
Definition ready (names : list string) (k : nat) (v : seed_loop_vars) : Prop :=
  (k ≤ length (fitting_times v))%nat
  ∧ lens_ge names k (train_results v) ∧ lens_ge names k (val_results v).

(** The index into the histories that [collect_results] computes. *)
Definition history_index (training_hyperparameters : gmap string pyval) : Z :=
  match training_hyperparameters !! "early_stopper" with
  | Some (VEarlyStopper _ patience) => -1 - patience
  | _ => -1
  end.

(** A training dictionary that [collect_results] can marshal: a Criterion
    under 'criterion', a 'batch_size', under 'early_stopper' nothing, None or
    an EarlyStopper, under 'metrics' nothing or a list of metrics, and none of
    the keywords that the call of [fit] passes by name. *)
Definition wf_training (th : gmap string pyval) : Prop :=
  (∃ id name, th !! "criterion" = Some (VCriterion id name))
  ∧ is_Some (th !! "batch_size")
  ∧ (th !! "early_stopper" = None ∨ th !! "early_stopper" = Some VNone
     ∨ ∃ id patience, th !! "early_stopper" = Some (VEarlyStopper id patience))
  ∧ (∃ names, metric_names th = Ok names)
  ∧ th !! "train_loader" = None ∧ th !! "val_loader" = None
  ∧ th !! "verbose" = None.

(** A model dictionary with a class under 'model_class'. *)
Definition wf_model (mh : gmap string pyval) : Prop :=
  ∃ id, mh !! "model_class" = Some (VCallable id).

(** Every key to save is a key of one of the two dictionaries. *)
Definition keys_present (hyperparameters_key_to_save : list string)
    (th mh : gmap string pyval) : Prop :=
  ∀ key, key ∈ hyperparameters_key_to_save → is_Some ((mh ∪ th) !! key).

(** The wandb parameters do not repeat the keywords passed by name. *)
Definition wf_wandb (wandb_params : option (gmap string string)) : Prop :=
  ∀ p, wandb_params = Some p → p !! "config" = None ∧ p !! "name" = None.

(** The histories returned by [fit] hold the criterion and every metric, with
    an entry at the index that [collect_results] reads. *)
Definition history_ok (th : gmap string pyval) (r : fit_result) : Prop :=
  ∀ id cn names name,
    th !! "criterion" = Some (VCriterion id cn) → metric_names th = Ok names →
    name ∈ cn :: names →
    (∃ h x, train r !! name = Some h ∧ py_index h (history_index th) = Ok x)
    ∧ (∃ h x, val r !! name = Some h ∧ py_index h (history_index th) = Ok x).

(** What [collect_results] needs of a combination and of the [fit] it runs. *)
Definition wf_item {X} (E : collaborators X)
    (hyperparameters_key_to_save : list string)
    (item : nat * (gmap string pyval * gmap string pyval)) : Prop :=
  wf_training item.2.1 ∧ wf_model item.2.2
  ∧ keys_present hyperparameters_key_to_save item.2.1 item.2.2
  ∧ ∀ net tl vl x x' r,
      fit E net tl vl (delete "batch_size" item.2.1) x = (x', Returns r) →
      history_ok item.2.1 r.

(** The columns that every turn of the loop over the seeds appends to. *)
Definition columns_ready (save_loss_values : bool)
    (d : gmap string (list pyval)) : Prop :=
  is_Some (d !! "seed") ∧ is_Some (d !! "time")
  ∧ (save_loss_values = true →
     is_Some (d !! "train_loss") ∧ is_Some (d !! "val_loss")).

(** What one turn of the loop over the seeds needs to raise nothing of its
    own. *)
Definition seed_step_ok {X} (E : collaborators X) (keys : list string)
    (wandb_params : option (gmap string string))
    (mh total new_th : gmap string pyval) (cn : string) (names : list string)
    (hidx : Z) : Prop :=
  (∃ id, mh !! "model_class" = Some (VCallable id))
  ∧ (∀ key, key ∈ keys → is_Some (total !! key))
  ∧ wf_wandb wandb_params
  ∧ is_Some (total !! "criterion")
  ∧ (∀ key, key ∈ ["train_loader"; "val_loader"; "verbose"] → new_th !! key = None)
  ∧ (∀ net tl vl x x' r, fit E net tl vl new_th x = (x', Returns r) →
       ∀ name, name ∈ cn :: names →
         (∃ h y, train r !! name = Some h ∧ py_index h hidx = Ok y)
         ∧ (∃ h y, val r !! name = Some h ∧ py_index h hidx = Ok y)).

(** The table under construction after the combinations [done], with the
    seeds [ss]: its columns are the initial ones and, when there is a seed,
    the metric columns of the combinations done; 'time' and 'seed' hold, per
    combination, one entry per seed and one per occurrence among the keys to
    save. *)
Definition table_after (keys : list string) (save : bool) (ss : list Z)
    (done : list (nat * (gmap string pyval * gmap string pyval)))
    (dd : gmap string (list pyval)) : Prop :=
  (∀ c, is_Some (dd !! c)
        ↔ (base_col keys save c
           ∨ (ss ≠ [] ∧ ∃ item names, item ∈ done
                          ∧ metric_names item.2.1 = Ok names ∧ metric_col names c)))
  ∧ (∀ c, c = "time" ∨ c = "seed" →
          col_len dd c = (length done * (occurrences c keys + length ss))%nat).

(** Whether an event is a call of [fit]. *)
Definition is_fit (ev : event) : bool :=
  match ev with EvFit _ _ _ _ => true | _ => false end.

(** The number of calls of [fit] among the calls made. *)
Definition fits (l : list event) : nat := length (List.filter is_fit l).

(** A run that returns has called [fit] exactly [k] times. *)
Definition calls_fit {X A} (m : M X A) (k : nat) : Prop :=
  ∀ w, match m w with
       | (w', Ok _) => fits (log w') = (fits (log w) + k)%nat
       | (_, Raise _ _) => True
       end.

(** ** Concrete collaborators

    A clock that advances by one tick per reading and by five per [fit], and a
    tape of the values the samplers will draw. *)
Definition demo : collaborators (Z * list pyval) := {|
  create_parameters := ["data"; "labels"; "shuffle"; "device"; "batch_size"];
  get_dataloader_params := λ _ _ x, (x, Returns VNone);
  create := λ _ _ _ _ _ x, (x, Returns (VObject 1));
  manual_seed := λ _ x, (x, Returns ());
  numpy_seed := λ _ x, (x, Returns ());
  new_model := λ _ _ x, (x, Returns (VObject 2));
  to_device := λ net _ x, (x, Returns net);
  wandb_init := λ _ _ _ x, (x, Returns ());
  wandb_watch := λ _ _ x, (x, Returns ());
  time := λ x, ((x.1 + 1, x.2), Returns x.1);
  fit := λ _ _ _ _ x,
    ((x.1 + 5, x.2),
     Returns {| train := {["loss" := [VFloat 30; VFloat 20]; "acc" := [VFloat 70; VFloat 80]]};
                val := {["loss" := [VFloat 35; VFloat 25]; "acc" := [VFloat 60; VFloat 75]]} |});
  dump := λ _ _ x, (x, Returns ());
  sample := λ _ x,
    match x.2 with
    | v :: tape => ((x.1, tape), Returns v)
    | [] => (x, Throws (OtherError "tape"))
    end;
|}.

Definition demo_world (tape : list pyval) : world (Z * list pyval) :=
  {| ext := (0, tape); log := [] |}.

Definition demo_training : gmap string pyval :=
  {["criterion" := VCriterion 1 "loss"; "batch_size" := VInt 32; "lr" := VInt 1]}.

Definition demo_model : gmap string pyval :=
  {["model_class" := VCallable "Net"; "hidden" := VInt 8]}.

Definition demo_train_data : pyval * pyval := (VObject 10, VObject 11).
Definition demo_val_data : pyval * pyval := (VObject 12, VObject 13).

(** [collect_results] on one combination, saving the keys [keys]. *)
Definition demo_run (training model : gmap string pyval) (keys : list string)
    (seeds : option (list Z)) : world (Z * list pyval) * outcome DataFrame :=
  collect_results demo demo_train_data demo_val_data
    (enumerate [(training, model)]) true "cpu" keys "results.pkl" seeds false
    None (demo_world []).

(** The columns that the loop of [collect_results] leaves on one
    combination. *)
Definition demo_columns (training model : gmap string pyval) (keys : list string)
    (seeds : option (list Z)) : outcome (gmap string (list pyval) * nat) :=
  (for_loop (enumerate [(training, model)]) (empty_columns keys false, 0%nat)
     (combo_step demo demo_train_data demo_val_data true "cpu" keys seeds false
        None) (demo_world [])).2.

(** A training dictionary without 'batch_size'. *)
Definition training_without_batch_size : gmap string pyval :=
  {["criterion" := VCriterion 1 "loss"; "lr" := VInt 1]}.

(** A model whose hyperparameters are called 'time' and 'seed'. *)
Definition model_with_reserved_names : gmap string pyval :=
  {["model_class" := VCallable "Net"; "time" := VInt 3; "seed" := VInt 9]}.

(** A serializer that fails. *)
Definition failing_dump : collaborators (Z * list pyval) := {|
  create_parameters := create_parameters demo;
  get_dataloader_params := get_dataloader_params demo;
  create := create demo;
  manual_seed := manual_seed demo;
  numpy_seed := numpy_seed demo;
  new_model := new_model demo;
  to_device := to_device demo;
  wandb_init := wandb_init demo;
  wandb_watch := wandb_watch demo;
  time := time demo;
  fit := fit demo;
  dump := λ _ _ x, (x, Throws (OtherError "disk full"));
  sample := sample demo;
|}.

(** Samplers that return the same value at every call. *)
Definition constant_samplers : collaborators (Z * list pyval) := {|
  create_parameters := create_parameters demo;
  get_dataloader_params := get_dataloader_params demo;
  create := create demo;
  manual_seed := manual_seed demo;
  numpy_seed := numpy_seed demo;
  new_model := new_model demo;
  to_device := to_device demo;
  wandb_init := wandb_init demo;
  wandb_watch := wandb_watch demo;
  time := time demo;
  fit := fit demo;
  dump := dump demo;
  sample := λ _ x, (x, Returns (VInt 0));
|}.

Definition model_samplers : list (string * pyval) := [("hidden", VCallable "choose_hidden")].
Definition training_samplers : list (string * pyval) := [("lr", VCallable "choose_lr")].

(** The values drawn by four turns of the sampling loop: hidden 8 with lr 1,
    hidden 16 with lr 2, hidden 8 with lr 2, hidden 32 with lr 3. *)
Definition four_draws : list pyval :=
  [VInt 8; VInt 1; VInt 16; VInt 2; VInt 8; VInt 2; VInt 32; VInt 3].

End ModelSelection.

(** ** Concrete wrappers *)

Import Wrappers.

(** A criterion on integers: the loss is the difference, the reduction
    doubles it. *)
Definition difference_loss (p t : Z) : reply Z := Returns (p - t).
Definition doubling (x : Z) : reply Z := Returns (2 * x).

Definition adam : OptimizerWrapper.constructor (list Z) (list Z * gmap string pyval) := {|
  OptimizerWrapper.repr := "<class 'torch.optim.adam.Adam'>";
  OptimizerWrapper.construct := λ net_params kwargs, Returns (net_params, kwargs);
|}.

Definition two_heads : MultyHeadCriterion.t Z Z :=
  MultyHeadCriterion.init "heads"
    [("ab", difference_loss); ("emotion", difference_loss)] [1; 1] None.


(** ** Further specifications *)

Import ModelSelection.

(** The table that [collect_results] builds when no combination is
    iterated: the initial columns, all empty. *)
Definition empty_table (hyperparameters_key_to_save : list string)
    (save_loss_values : bool) : DataFrame :=
  {| columns := empty_columns hyperparameters_key_to_save save_loss_values;
     nrows := 0 |}.

(** The end of [collect_results] on the table [df]: the dump, and [df] as the
    result when the dump returns. *)
Definition dump_and_return {X} (E : collaborators X) (df : DataFrame)
    (path : string) (w : world X) : world X * outcome DataFrame :=
  ({| ext := (dump E df path (ext w)).1; log := log w ++ [EvDump df path] |},
   match (dump E df path (ext w)).2 with
   | Returns _ => Ok df
   | Throws e => Raise (From Joblib) e
   end).

(** A column name that is neither one of the four fixed columns nor the name
    of a metric column. *)
Definition plain_col (c : string) : Prop :=
  c ≠ "time" ∧ c ≠ "seed" ∧ c ≠ "train_loss" ∧ c ≠ "val_loss"
  ∧ ∀ m, c ≠ m +:+ "_train" ∧ c ≠ m +:+ "_val".

(** The plain columns of [d'] are those of [d]. *)
Definition same_plain (d d' : gmap string (list pyval)) : Prop :=
  ∀ c, plain_col c → d' !! c = d !! c.

(** Whether an event is a call of [joblib.dump], of
    [dataloader_builder.create], of a model class. *)
Definition is_dump (ev : event) : bool :=
  match ev with EvDump _ _ => true | _ => false end.

Definition is_create (ev : event) : bool :=
  match ev with EvCreate _ _ _ _ _ => true | _ => false end.

Definition is_model (ev : event) : bool :=
  match ev with EvModel _ _ => true | _ => false end.

(** A run, whether it returns or raises, makes no call selected by [p]. *)
Definition quiet {X A} (p : event → bool) (m : M X A) : Prop :=
  ∀ w, List.filter p (log (m w).1) = List.filter p (log w).

(** A run that returns has made exactly [k] calls selected by [p]. *)
Definition calls {X A} (p : event → bool) (m : M X A) (k : nat) : Prop :=
  ∀ w, match m w with
       | (w', Ok _) =>
           length (List.filter p (log w')) = (length (List.filter p (log w)) + k)%nat
       | (_, Raise _ _) => True
       end.

(** Whether the character [c] occurs in [s]. *)
Fixpoint occurs (c : Ascii.ascii) (s : string) : bool :=
  match s with
  | EmptyString => false
  | String a s' => Ascii.eqb a c || occurs c s'
  end.

(** Whether an event is a call of [torch.manual_seed] or [np.random.seed]. *)
Definition is_seeding (ev : event) : bool :=
  match ev with EvManualSeed _ | EvNumpySeed _ => true | _ => false end.

(** Whether an event is a call of wandb or the warning about it. *)
Definition is_wandb (ev : event) : bool :=
  match ev with
  | EvWandbInit _ _ _ | EvWandbWatch _ _ | EvPrint _ => true
  | _ => false
  end.

(** A run that returns has made exactly the calls [l] among those selected
    by [p], in this order. *)
Definition emits {X A} (p : event → bool) (m : M X A) (l : list event) : Prop :=
  ∀ w, match m w with
       | (w', Ok _) => List.filter p (log w') = List.filter p (log w) ++ l
       | (_, Raise _ _) => True
       end.

(** The seeding calls for the seeds [ss]: each seed is given to torch, then
    to numpy. *)
Definition seeding_of (ss : list Z) : list event :=
  flat_map (λ seed, [EvManualSeed seed; EvNumpySeed seed]) ss.






(** The three entry points of the search: [collect_results] on an iterator,
    the grid search on two lists of dictionaries, the randomized search on
    two dictionaries of samplers. *)
Inductive search : Type :=
  | CollectResults (iterator : list (nat * (gmap string pyval * gmap string pyval)))
  | GridSearch
      (model_hyperparameters_to_test training_hyperparameters_to_test
         : list (gmap string pyval))
  | RandomizedSearch (fuel : nat)
      (model_hyperparameters_to_sample training_hyperparameters_to_sample
         : list (string * pyval))
      (n_run : Z).

Definition run_search {X} (E : collaborators X) (s : search)
    (train_data val_data : pyval * pyval) (shuffle : bool) (device : string)
    (hyperparameters_key_to_save : list string) (path : string)
    (seeds : option (list Z)) (save_loss_values : bool)
    (wandb_params : option (gmap string string)) (w : world X)
    : option (world X * outcome DataFrame) :=
  match s with
  | CollectResults iterator =>
      Some (collect_results E train_data val_data iterator shuffle device
              hyperparameters_key_to_save path seeds save_loss_values
              wandb_params w)
  | GridSearch model_hyperparameters_to_test training_hyperparameters_to_test =>
      Some (grid_search_train_validation E train_data val_data shuffle
              model_hyperparameters_to_test training_hyperparameters_to_test
              hyperparameters_key_to_save device path seeds save_loss_values
              wandb_params w)
  | RandomizedSearch fuel model_hyperparameters_to_sample
      training_hyperparameters_to_sample n_run =>
      randomized_search_train_validation E fuel train_data val_data shuffle
        model_hyperparameters_to_sample training_hyperparameters_to_sample
        hyperparameters_key_to_save n_run device path seeds save_loss_values
        wandb_params w
  end.

(** A sampler that can be called. *)
Definition callable (v : pyval) : Prop := ∃ id, v = VCallable id.

(** What a search needs to raise nothing of its own: well-formed
    combinations, whether given, taken from the grid, or accepted by the
    sampling loop, whose samplers must be callable. *)
Definition wf_search {X} (E : collaborators X)
    (hyperparameters_key_to_save : list string) (s : search) (w : world X)
    : Prop :=
  match s with
  | CollectResults iterator =>
      Forall (wf_item E hyperparameters_key_to_save) iterator
  | GridSearch model_hyperparameters_to_test training_hyperparameters_to_test =>
      Forall (wf_item E hyperparameters_key_to_save)
        (enumerate (product training_hyperparameters_to_test
                            model_hyperparameters_to_test))
  | RandomizedSearch fuel model_hyperparameters_to_sample
      training_hyperparameters_to_sample n_run =>
      Forall (λ p, callable p.2)
        (model_hyperparameters_to_sample ++ training_hyperparameters_to_sample)
      ∧ ∀ w' model_hyperparameters_to_test training_hyperparameters_to_test,
          sampling_loop E fuel model_hyperparameters_to_sample
            training_hyperparameters_to_sample n_run 0 [] [] w
          = Some (w', Ok (model_hyperparameters_to_test,
                          training_hyperparameters_to_test)) →
          Forall (wf_item E hyperparameters_key_to_save)
            (enumerate (zip training_hyperparameters_to_test
                            model_hyperparameters_to_test))
  end.
(** * Properties of wrappers.py *)

(** C4, as stated, fails: with a reduction function, the call still returns
    the bare loss, here 2, and not the reduced loss 4. *)
Lemma criterion_call_skips_reduction :
  Criterion.call (Criterion.init "loss" difference_loss (Some doubling)) 5 3 = Ok 2
  ∧ Criterion.loss_then_reduction difference_loss (Some doubling) 5 3 = Ok 4
  ∧ Criterion.call (Criterion.init "loss" difference_loss (Some doubling)) 5 3
    ≠ Criterion.loss_then_reduction difference_loss (Some doubling) 5 3.
Proof. repeat split; vm_compute; congruence. Qed.

(** C4, amended: a call of a Criterion built from loss function [L] returns
    [L(predicted, target)] unchanged, whether or not a reduction function was
    given; the reduction function is only kept in the attribute
    [reduction_function]. *)
Theorem criterion_call_returns_loss {P T O : Type} (name : string)
    (L : P → T → reply O) (R : option (O → reply O)) (predicted : P) (target : T) :
  Criterion.call (Criterion.init name L R) predicted target
    = invoke LossFunction (L predicted target)
  ∧ Criterion.reduction_function (Criterion.init name L R) = R.
Proof.
  split; [|reflexivity].
  unfold Criterion.call; simpl.
  destruct (L predicted target); reflexivity.
Qed.

(** C7: a wrapper built from constructor [C] and partial keyword arguments
    [P] builds the optimizer as [C(N, **P)], with the empty dictionary when no
    arguments were given; building the wrapper calls nothing. *)
Theorem get_optimizer_calls_constructor {N Opt : Type}
    (C : OptimizerWrapper.constructor N Opt) (identifier : string)
    (P : option (gmap string pyval)) (w : OptimizerWrapper.t N Opt) (net_params : N) :
  OptimizerWrapper.init C identifier P = Ok w →
  OptimizerWrapper.get_optimizer w net_params
    = invoke OptimizerConstructor
        (OptimizerWrapper.construct C net_params (default ∅ P))
  ∧ OptimizerWrapper.optimizer_constructor w = C
  ∧ OptimizerWrapper.optimizer_partial_params w = default ∅ P.
Proof.
  unfold OptimizerWrapper.init. intros Hinit.
  destruct (py_index (split_on "'" (OptimizerWrapper.repr C)) 1) as [quoted|];
    simpl in Hinit; [|discriminate].
  destruct (py_index (split_on "." quoted) (-1)) as [base|];
    simpl in Hinit; [|discriminate].
  injection Hinit as <-.
  unfold OptimizerWrapper.get_optimizer; simpl.
  destruct P; auto.
Qed.

Lemma get_optimizer_calls_constructor_witness :
  OptimizerWrapper.get_optimizer
    {| OptimizerWrapper.name := "Adam fast";
       OptimizerWrapper.optimizer_constructor := adam;
       OptimizerWrapper.optimizer_partial_params := {["lr" := VInt 1]} |} [4; 2]
    = Ok ([4; 2], {["lr" := VInt 1]}).
Proof.
  exact (proj1 (get_optimizer_calls_constructor adam "fast"
                  (Some {["lr" := VInt 1]}) _ [4; 2] eq_refl)).
Defined.

(** C10: with a non-empty [loss_functions] dictionary, every call of a
    MultyHeadCriterion raises and returns no loss. *)
Theorem multy_head_call_raises {V O : Type}
    (torch_stack : list O → reply O) (torch_sum : O → reply O)
    (weights_times : list Z → O → reply O)
    (self : MultyHeadCriterion.t V O)
    (predicted_labels target_labels : string → reply V) :
  MultyHeadCriterion.loss_functions self ≠ [] →
  ∃ o e, MultyHeadCriterion.call torch_stack torch_sum weights_times self
           predicted_labels target_labels = Raise o e
         ∧ ∀ loss, MultyHeadCriterion.call torch_stack torch_sum weights_times self
                     predicted_labels target_labels ≠ Ok loss.
Proof.
  intros Hne. unfold MultyHeadCriterion.call.
  destruct (MultyHeadCriterion.loss_functions self) as [|[key f] rest]; [done|].
  assert (∃ o e, MultyHeadCriterion.head_step (O:=O) predicted_labels
                   target_labels key [] = Raise o e) as (o & e & Hstep).
  { unfold MultyHeadCriterion.head_step.
    destruct (unpack2 key) as [[head_key current_head_loss]|o e]; simpl; [|eauto].
    destruct (predicted_labels head_key); simpl; [|eauto].
    destruct (target_labels head_key); simpl; eauto. }
  exists o, e. simpl. rewrite Hstep. simpl. split; [done|congruence].
Qed.

Lemma multy_head_call_raises_witness :
  ∃ o e, MultyHeadCriterion.call (λ _, Returns 0) Returns (λ _ x, Returns x)
           two_heads (λ _, Returns 1) (λ _, Returns 2) = Raise o e
         ∧ ∀ loss, MultyHeadCriterion.call (λ _, Returns 0) Returns (λ _ x, Returns x)
                     two_heads (λ _, Returns 1) (λ _, Returns 2) ≠ Ok loss.
Proof.
  apply (multy_head_call_raises (λ _, Returns 0) Returns (λ _ x, Returns x)
           two_heads (λ _, Returns 1) (λ _, Returns 2)).
  vm_compute. discriminate.
Defined.

(** * Properties of model_selection.py *)

Import ModelSelection.

(** ** Enumeration of the grid *)

Lemma enumerate_lookup {A} (l : list A) (k n : nat) (x : A) :
  enumerate l !! k = Some (n, x) ↔ n = k ∧ l !! k = Some x.
Proof.
  unfold enumerate. rewrite lookup_zip_with_Some. split.
  - intros (n' & x' & [= -> ->] & Hn & Hx). split; [|done].
    apply lookup_seq in Hn. lia.
  - intros [-> Hx]. exists k, x. split_and!; [done| |done].
    apply lookup_seq. split; [lia|]. by eapply lookup_lt_Some.
Qed.

Lemma enumerate_length {A} (l : list A) : length (enumerate l) = length l.
Proof. unfold enumerate. rewrite length_zip_with, length_seq. lia. Qed.




(** ** The sampling loop of the randomized search *)

(** [np.any([d == c for c in l])] holds when [d] equals, under [==], a
    dictionary of [l]. *)
Lemma np_any_dict_eq (d : gmap string pyval) (l : list (gmap string pyval)) :
  np_any ((λ c, dict_eq d c) <$> l) = true ↔ dict_class d ∈ dict_class <$> l.
Proof.
  unfold np_any. induction l as [|c l IH]; simpl.
  - split; [done|]. by intros ?%elem_of_nil.
  - rewrite orb_true_iff, IH, elem_of_cons. unfold id, dict_eq.
    by rewrite bool_decide_eq_true.
Qed.

(** When the loop ends without an exception, it has accepted [n_run]
    combinations. *)
Lemma sampling_loop_accepts {X} (E : collaborators X) fuel ms ts n_run :
  ∀ (i : Z) (Ms Ts : list (gmap string pyval)) w w' Ms' Ts',
    Z.of_nat (length Ms) = i → Z.of_nat (length Ts) = i → i ≤ n_run →
    sampling_loop E fuel ms ts n_run i Ms Ts w = Some (w', Ok (Ms', Ts')) →
    Z.of_nat (length Ms') = n_run ∧ Z.of_nat (length Ts') = n_run.
Proof.
  induction fuel as [|fuel IH]; intros i Ms Ts w w' Ms' Ts' HMs HTs Hle; simpl;
    destruct (Z.ltb_spec i n_run) as [Hlt|Hge]; try done;
    try (intros [= <- <- <-]; lia).
  destruct (sample_dict E ms w) as [w1 [model_d|]]; [|done].
  destruct (sample_dict E ts w1) as [w2 [training_d|]]; [|done].
  case_match; apply IH; rewrite ?length_app; simpl; lia.
Qed.

(** A draw is refused only when its model dictionary equals an accepted
    model dictionary and its training dictionary equals an accepted training
    dictionary; so the first occurrence of a model dictionary, or of a
    training dictionary, is always accepted. *)
Lemma fresh_values_bound {A} `{EqDecision A} (x : A) (seen l : list A) :
  (length (remove_dups (filter (λ y, y ∉ seen) (x :: l)))
   ≤ S (length (remove_dups (filter (λ y, y ∉ seen ++ [x]) l))))%nat.
Proof.
  change (S (length ?k)) with (length (x :: k)).
  apply submseteq_length, NoDup_submseteq; [apply NoDup_remove_dups|].
  intros y [Hseen Hy]%elem_of_remove_dups%list_elem_of_filter.
  destruct (decide (y = x)) as [->|Hne]; [left|right].
  apply elem_of_remove_dups, list_elem_of_filter.
  apply elem_of_cons in Hy as [?|Hy]; [done|]. split; [|done].
  rewrite elem_of_app, list_elem_of_singleton. tauto.
Qed.

Lemma sampling_loop_ends_models {X} (E : collaborators X) ms ts n_run (N : nat) :
  ∀ (i : Z) (Ms Ts : list (gmap string pyval)) w,
    n_run - i
      ≤ Z.of_nat (length (remove_dups
                            (filter (λ d, d ∉ dict_class <$> Ms)
                               (dict_class <$> (draws E N ms ts w).*1)))) →
    is_Some (sampling_loop E N ms ts n_run i Ms Ts w).
Proof.
  induction N as [|N IH]; intros i Ms Ts w Hn; simpl in *;
    destruct (Z.ltb_spec i n_run) as [Hlt|Hge]; try done; try lia.
  destruct (sample_dict E ms w) as [w1 [model_d|]]; [|done].
  destruct (sample_dict E ts w1) as [w2 [training_d|]]; [|done].
  rewrite !fmap_cons in Hn. cbn [fst] in Hn.
  case_match eqn:Hacc; apply IH.
  - pose proof (fresh_values_bound (dict_class model_d) (dict_class <$> Ms)
                  (dict_class <$> (draws E N ms ts w2).*1)).
    rewrite fmap_app. simpl. lia.
  - apply negb_false_iff, andb_true_iff in Hacc as [HM _].
    apply np_any_dict_eq in HM.
    rewrite filter_cons_False in Hn by (intros ?; done). done.
Qed.

Lemma sampling_loop_ends_trainings {X} (E : collaborators X) ms ts n_run (N : nat) :
  ∀ (i : Z) (Ms Ts : list (gmap string pyval)) w,
    n_run - i
      ≤ Z.of_nat (length (remove_dups
                            (filter (λ d, d ∉ dict_class <$> Ts)
                               (dict_class <$> (draws E N ms ts w).*2)))) →
    is_Some (sampling_loop E N ms ts n_run i Ms Ts w).
Proof.
  induction N as [|N IH]; intros i Ms Ts w Hn; simpl in *;
    destruct (Z.ltb_spec i n_run) as [Hlt|Hge]; try done; try lia.
  destruct (sample_dict E ms w) as [w1 [model_d|]]; [|done].
  destruct (sample_dict E ts w1) as [w2 [training_d|]]; [|done].
  rewrite !fmap_cons in Hn. cbn [snd] in Hn.
  case_match eqn:Hacc; apply IH.
  - pose proof (fresh_values_bound (dict_class training_d) (dict_class <$> Ts)
                  (dict_class <$> (draws E N ms ts w2).*2)).
    rewrite fmap_app. simpl. lia.
  - apply negb_false_iff, andb_true_iff in Hacc as [_ HT].
    apply np_any_dict_eq in HT.
    rewrite filter_cons_False in Hn by (intros ?; done). done.
Qed.

Lemma filter_not_in_nil {A} `{EqDecision A} (l : list A) : filter (λ y, y ∉ []) l = l.
Proof.
  induction l as [|x l IH]; [done|].
  rewrite filter_cons_True by apply not_elem_of_nil. by rewrite IH.
Qed.

Lemma constant_sample_dict (key id : string) (w : world (Z * list pyval)) :
  ∃ w', sample_dict constant_samplers [(key, VCallable id)] w
        = (w', Ok (<[key := VInt 0]> ∅)).
Proof. eexists. reflexivity. Qed.

(** C9, as stated, fails: with samplers that return the same value at every
    call and [n_run = 2] the loop accepts the first draw, refuses every later
    one and is still running after any number of turns. *)
Lemma constant_samplers_never_finish :
  1 ≤ 2
  ∧ ∀ fuel, sampling_loop constant_samplers fuel model_samplers training_samplers
              2 0 [] [] (demo_world []) = None.
Proof.
  split; [lia|].
  assert (∀ fuel w, sampling_loop constant_samplers fuel model_samplers
                      training_samplers 2 1
                      [<["hidden" := VInt 0]> ∅] [<["lr" := VInt 0]> ∅] w = None)
    as Hstuck.
  { induction fuel as [|fuel IH]; intros w; [done|].
    cbn [sampling_loop]. unfold model_samplers, training_samplers in *.
    destruct (constant_sample_dict "hidden" "choose_hidden" w) as [w1 ->].
    destruct (constant_sample_dict "lr" "choose_lr" w1) as [w2 ->].
    change (1 <? 2) with true. cbn [np_any fmap list_fmap existsb id].
    unfold dict_eq. rewrite !bool_decide_eq_true_2 by done. apply IH. }
  intros [|fuel]; [done|].
  cbn [sampling_loop]. unfold model_samplers, training_samplers in *.
  destruct (constant_sample_dict "hidden" "choose_hidden" (demo_world [])) as [w1 ->].
  destruct (constant_sample_dict "lr" "choose_lr" w1) as [w2 ->].
  apply Hstuck.
Qed.

(** C9, amended: the loop ends within [N] turns whenever the first [N] draws
    hold [n_run] model dictionaries that are different under [==], or [n_run]
    training dictionaries that are different under [==]. *)
Theorem sampling_loop_terminates {X} (E : collaborators X)
    (ms ts : list (string * pyval)) (n_run : Z) (N : nat) (w : world X) :
  n_run ≤ Z.of_nat (length (remove_dups
                              (dict_class <$> (draws E N ms ts w).*1)))
  ∨ n_run ≤ Z.of_nat (length (remove_dups
                                (dict_class <$> (draws E N ms ts w).*2))) →
  ∃ r, sampling_loop E N ms ts n_run 0 [] [] w = Some r.
Proof.
  intros [Hm|Ht].
  - apply sampling_loop_ends_models. rewrite fmap_nil, filter_not_in_nil. lia.
  - apply sampling_loop_ends_trainings. rewrite fmap_nil, filter_not_in_nil. lia.
Qed.

Lemma sampling_loop_terminates_witness :
  ∃ r, sampling_loop demo 4 model_samplers training_samplers 3 0 [] []
         (demo_world four_draws) = Some r.
Proof.
  apply (sampling_loop_terminates demo model_samplers training_samplers 3 4
           (demo_world four_draws)).
  left. vm_compute. discriminate.
Defined.

(** C2 fails on the draws hidden 8 with lr 1, hidden 16 with lr 2, hidden 8
    with lr 2, hidden 32 with lr 3 and [n_run = 3]: the third pair equals no
    accepted pair, and still it is not among the three accepted
    combinations. *)
Theorem sampling_refuses_new_pair :
  draws demo 4 model_samplers training_samplers (demo_world four_draws)
    = [({["hidden" := VInt 8]}, {["lr" := VInt 1]});
       ({["hidden" := VInt 16]}, {["lr" := VInt 2]});
       ({["hidden" := VInt 8]}, {["lr" := VInt 2]});
       ({["hidden" := VInt 32]}, {["lr" := VInt 3]})]
  ∧ snd <$> sampling_loop demo 4 model_samplers training_samplers 3 0 [] []
              (demo_world four_draws)
    = Some (Ok ([{["hidden" := VInt 8]}; {["hidden" := VInt 16]};
                 {["hidden" := VInt 32]}],
                [{["lr" := VInt 1]}; {["lr" := VInt 2]}; {["lr" := VInt 3]}])).
Proof. split; vm_compute; reflexivity. Qed.

(** ** The result table *)

(** C1 fails on one combination with the seeds 0 and 1 and the saved key
    'lr': a model is fitted for each seed, the column 'lr' gets one entry and
    the columns 'time' and 'seed' two, and building the table raises. *)
Theorem two_seeds_make_ragged_table :
  (demo_run demo_training demo_model ["lr"] (Some [0; 1])).2
    = Raise (From Pandas) ValueError
  ∧ length (List.filter is_fit
              (log (demo_run demo_training demo_model ["lr"] (Some [0; 1])).1))
    = 2%nat
  ∧ demo_columns demo_training demo_model ["lr"] (Some [0; 1])
    = Ok ({["lr" := [VInt 1]; "time" := [VFloat 6; VFloat 6];
           "seed" := [VInt 0; VInt 1]]}, 2%nat).
Proof. split_and!; vm_compute; reflexivity. Qed.

Lemma pd_DataFrame_columns (d : gmap string (list pyval)) (df : DataFrame) :
  pd_DataFrame d = Ok df → columns df = d.
Proof.
  unfold pd_DataFrame. intros H. repeat case_match; by simplify_eq/=.
Qed.

(** C6: when [collect_results] returns, the table it returns is the one built
    from the columns that the loop filled, and the last thing the run did was
    to dump that table to [path_to_results]. *)
Theorem collect_results_returns_dumped_table {X} (E : collaborators X)
    train_data val_data iterator shuffle device keys path seeds save_loss_values
    wandb_params (w w' : world X) (df : DataFrame) :
  collect_results E train_data val_data iterator shuffle device keys path seeds
    save_loss_values wandb_params w = (w', Ok df) →
  ∃ w1 dataframe_dict run_idx,
    for_loop iterator (empty_columns keys save_loss_values, 0%nat)
      (combo_step E train_data val_data shuffle device keys seeds
         save_loss_values wandb_params) w = (w1, Ok (dataframe_dict, run_idx))
    ∧ pd_DataFrame dataframe_dict = Ok df
    ∧ columns df = dataframe_dict
    ∧ dump E df path (ext w1) = (ext w', Returns ())
    ∧ log w' = log w1 ++ [EvDump df path].
Proof.
  unfold collect_results, mbind, M_bind, lift, call, mret, M_ret.
  destruct (for_loop _ _ _ w) as [w1 [[dd n]|]]; [|done].
  destruct (pd_DataFrame dd) as [df'|] eqn:Hdf; [|done].
  destruct (dump E df' path (ext w1)) as [x [[]|]] eqn:Hdump; simpl; [|done].
  intros [= <- <-]. exists w1, dd, n. simpl.
  split_and!; try done. by apply pd_DataFrame_columns.
Qed.

Lemma collect_results_returns_dumped_table_witness :
  ∃ w1 dataframe_dict run_idx,
    for_loop (enumerate [(demo_training, demo_model)])
      (empty_columns ["lr"] false, 0%nat)
      (combo_step demo demo_train_data demo_val_data true "cpu" ["lr"]
         (Some [7]) false None) (demo_world []) = (w1, Ok (dataframe_dict, run_idx))
    ∧ pd_DataFrame dataframe_dict
      = Ok {| columns := {["lr" := [VInt 1]; "time" := [VFloat 6];
                           "seed" := [VInt 7]]};
              nrows := 1 |}
    ∧ columns {| columns := {["lr" := [VInt 1]; "time" := [VFloat 6];
                               "seed" := [VInt 7]]};
                 nrows := 1 |} = dataframe_dict
    ∧ dump demo {| columns := {["lr" := [VInt 1]; "time" := [VFloat 6];
                                 "seed" := [VInt 7]]};
                   nrows := 1 |} "results.pkl" (ext w1)
      = (ext (demo_run demo_training demo_model ["lr"] (Some [7])).1, Returns ())
    ∧ log (demo_run demo_training demo_model ["lr"] (Some [7])).1
      = log w1 ++ [EvDump {| columns := {["lr" := [VInt 1]; "time" := [VFloat 6];
                                           "seed" := [VInt 7]]};
                             nrows := 1 |} "results.pkl"].
Proof.
  apply (collect_results_returns_dumped_table demo demo_train_data demo_val_data
           (enumerate [(demo_training, demo_model)]) true "cpu" ["lr"]
           "results.pkl" (Some [7]) false None (demo_world [])).
  vm_compute. reflexivity.
Defined.

(** ** Reasoning about runs *)

Lemma owp_bind {A B} (m : outcome A) (f : A → outcome B) Q R :
  owp m (λ a, owp (f a) Q R) R → owp (m ≫= f) Q R.
Proof. by destruct m. Qed.

Lemma owp_mono {A} (m : outcome A) (Q Q' : A → Prop) (R R' : origin → exn_class → Prop) :
  owp m Q R → (∀ a, Q a → Q' a) → (∀ o e, R o e → R' o e) → owp m Q' R'.
Proof. destruct m; simpl; auto. Qed.

Lemma owp_getitem {A} (d : gmap string A) (k : string) Q R :
  (∀ v, d !! k = Some v → Q v) → (d !! k = None → R Own (KeyError k)) →
  owp (getitem d k) Q R.
Proof. unfold getitem. destruct (d !! k); simpl; auto. Qed.

Lemma owp_for_each {A S} (I : list A → S → Prop) (l : list A) (s : S)
    (body : A → S → outcome S) R :
  I [] s →
  (∀ done x rest s, l = done ++ x :: rest → I done s →
     owp (body x s) (I (done ++ [x])) R) →
  owp (for_each l s body) (I l) R.
Proof.
  intros Hs Hbody.
  cut (∀ rest done s, l = done ++ rest → I done s →
         owp (for_each rest s body) (I l) R).
  { intros H. by apply (H l []). }
  induction rest as [|x rest IH]; intros done s' Hl Hdone; simpl.
  - by rewrite Hl, app_nil_r.
  - apply owp_bind. eapply owp_mono; [by eapply Hbody| |done].
    intros s'' Hs''. apply (IH (done ++ [x])); [|done].
    by rewrite <-app_assoc.
Qed.

Lemma wp_ret {X A} (a : A) (Q : A → Prop) R : Q a → wp (X:=X) (mret a) Q R.
Proof. intros H w. done. Qed.

Lemma wp_bind {X A B} (m : M X A) (f : A → M X B) Q R :
  wp m (λ a, wp (f a) Q R) R → wp (m ≫= f) Q R.
Proof.
  intros H w. specialize (H w). unfold mbind, M_bind.
  destruct (m w) as [w' [a|o e]]; simpl in *; [apply H|done].
Qed.

Lemma wp_mono {X A} (m : M X A) (Q Q' : A → Prop) (R R' : origin → exn_class → Prop) :
  wp m Q R → (∀ a, Q a → Q' a) → (∀ o e, R o e → R' o e) → wp m Q' R'.
Proof. intros H HQ HR w. eapply owp_mono; eauto. Qed.

Lemma wp_lift {X A} (m : outcome A) Q R : owp m Q R → wp (X:=X) (lift m) Q R.
Proof. intros H w. done. Qed.

Lemma wp_call {X A} (c : callee) (ev : event) (f : X → X * reply A) Q R :
  (∀ x x' a, f x = (x', Returns a) → Q a) →
  (∀ e, R (From c) e) →
  wp (call c ev f) Q R.
Proof.
  intros HQ HR w. unfold call.
  destruct (f (ext w)) as [x' [a|e]] eqn:Hf; simpl; eauto.
Qed.

Lemma wp_print {X} (text : list string) (Q : () → Prop) R :
  Q () → wp (X:=X) (print text) Q R.
Proof. intros H w. done. Qed.

Lemma wp_for_loop {X A S} (I : list A → S → Prop) (l : list A) (s : S)
    (body : A → S → M X S) R :
  I [] s →
  (∀ done x rest s, l = done ++ x :: rest → I done s →
     wp (body x s) (I (done ++ [x])) R) →
  wp (for_loop l s body) (I l) R.
Proof.
  intros Hs Hbody.
  cut (∀ rest done s, l = done ++ rest → I done s →
         wp (for_loop rest s body) (I l) R).
  { intros H. by apply (H l []). }
  induction rest as [|x rest IH]; intros done s' Hl Hdone; simpl.
  - apply wp_ret. by rewrite Hl, app_nil_r.
  - apply wp_bind. eapply wp_mono; [by eapply Hbody| |done].
    intros s'' Hs''. apply (IH (done ++ [x])); [|done].
    by rewrite <-app_assoc.
Qed.

Lemma foreign_from (P : Prop) (c : callee) (e : exn_class) : foreign_if P (From c) e.
Proof. intros _. by exists c. Qed.

(** ** Columns *)

Lemma append_train_not_reserved (m : string) :
  m +:+ "_train" ≠ "time" ∧ m +:+ "_train" ≠ "seed"
  ∧ m +:+ "_val" ≠ "time" ∧ m +:+ "_val" ≠ "seed".
Proof.
  destruct m as [|a [|b [|c [|d [|e m]]]]]; split_and!; discriminate.
Qed.

Lemma col_len_insert (d : gmap string (list pyval)) (k c : string) (l : list pyval) :
  col_len (<[k := l]> d) c = if decide (c = k) then length l else col_len d c.
Proof.
  unfold col_len. case_decide as Hc.
  - subst. by rewrite lookup_insert_eq.
  - by rewrite lookup_insert_ne.
Qed.

Lemma grown_refl (d : gmap string (list pyval)) :
  grown (λ _, False) (λ _, 0%nat) d d.
Proof. split; intros c; [tauto|lia]. Qed.

Lemma grown_trans (N1 N2 N : string → Prop) (δ1 δ2 δ : string → nat)
    (d d1 d2 : gmap string (list pyval)) :
  grown N1 δ1 d d1 → grown N2 δ2 d1 d2 →
  (∀ c, is_Some (d !! c) ∨ N c ↔ (is_Some (d !! c) ∨ N1 c) ∨ N2 c) →
  (∀ c, c = "time" ∨ c = "seed" → δ c = (δ1 c + δ2 c)%nat) →
  grown N δ d d2.
Proof.
  intros [Hd1 Hl1] [Hd2 Hl2] HN Hδ. split; intros c.
  - rewrite Hd2, Hd1, HN. done.
  - intros Hc. rewrite Hl2, Hl1, Hδ by done. lia.
Qed.

Lemma grown_append (d : gmap string (list pyval)) (k : string) l v :
  d !! k = Some l →
  grown (λ _, False) (λ c, if decide (c = k) then 1%nat else 0%nat) d
    (<[k := l ++ [v]]> d).
Proof.
  intros Hk. split; intros c.
  - rewrite lookup_insert. case_decide; subst; [|tauto].
    rewrite Hk. split; eauto.
  - intros _. rewrite col_len_insert. case_decide; [|lia].
    subst. unfold col_len. rewrite Hk, length_app. simpl. lia.
Qed.

Lemma grown_ensure (d : gmap string (list pyval)) (k : string) :
  k ≠ "time" → k ≠ "seed" →
  grown (λ c, c = k) (λ _, 0%nat) d
    (if bool_decide (is_Some (d !! k)) then d else <[k := []]> d).
Proof.
  intros Ht Hs. case_bool_decide as Hk; split; intros c.
  - split; [tauto|]. intros [?| ->]; done.
  - lia.
  - rewrite lookup_insert. case_decide; subst; [split; eauto|].
    split; [tauto|]. intros [?|?]; done.
  - intros Hc. rewrite col_len_insert. case_decide; [|lia].
    destruct Hc; congruence.
Qed.

Lemma owp_append_to (d : gmap string (list pyval)) (k : string) (x : outcome pyval)
    (Q : gmap string (list pyval) → Prop) R :
  (is_Some (d !! k) →
   owp x (λ _, ∀ d', grown (λ _, False)
                       (λ c, if decide (c = k) then 1%nat else 0%nat) d d' → Q d') R) →
  (d !! k = None → R Own (KeyError k)) →
  owp (append_to d k x) Q R.
Proof.
  intros HQ HR. unfold append_to. apply owp_bind, owp_getitem; [|done].
  intros l Hl. apply owp_bind. eapply owp_mono; [apply HQ; eauto| |done].
  intros v Hv. apply Hv. by apply grown_append.
Qed.

Lemma owp_py_index {A} (l : list A) (i : nat) (Q : A → Prop) R :
  (∀ x, l !! i = Some x → Q x) →
  ((length l ≤ i)%nat → R Own IndexError) →
  owp (py_index l (Z.of_nat i)) Q R.
Proof.
  intros HQ HR. unfold py_index.
  destruct (Z.ltb_spec (Z.of_nat i) 0) as [?|_]; [lia|].
  destruct (Z.leb_spec 0 (Z.of_nat i)) as [_|?]; [|lia].
  rewrite Nat2Z.id.
  destruct (Z.ltb_spec (Z.of_nat i) (Z.of_nat (length l))) as [Hlt|Hge]; simpl.
  - destruct (l !! i) as [x|] eqn:Hx; simpl; [by apply HQ|].
    apply lookup_ge_None in Hx. lia.
  - apply HR. lia.
Qed.

(** Reading entry [i] of the results under [name]. *)
Lemma owp_result_at (d : gmap string (list pyval)) (name : string) (i : nat)
    (names : list string) (P : Prop) :
  (P → lens_ge names (S i) d ∧ name ∈ names) →
  owp (l ← getitem d name; py_index l (Z.of_nat i)) (λ _, True) (foreign_if P).
Proof.
  intros HP. apply owp_bind, owp_getitem.
  - intros l Hl. apply owp_py_index; [done|].
    intros Hlen HPp. destruct (HP HPp) as [Hge Hin].
    destruct (Hge name Hin) as (l' & Hl' & ?). simplify_eq. lia.
  - intros Hnone HPp. destruct (HP HPp) as [Hge Hin].
    destruct (Hge name Hin) as (l' & Hl' & ?). simplify_eq.
Qed.

Lemma metric_col_snoc (done : list string) (m c : string) :
  metric_col (done ++ [m]) c
  ↔ metric_col done c ∨ c = m +:+ "_train" ∨ c = m +:+ "_val".
Proof.
  unfold metric_col. split.
  - intros (m' & [Hin| ->%list_elem_of_singleton]%elem_of_app & Hc); eauto.
  - intros [(m' & Hin & Hc)|Hc].
    + exists m'. rewrite elem_of_app. eauto.
    + exists m. rewrite elem_of_app, list_elem_of_singleton. eauto.
Qed.

(** The loop over the metrics in [row_step]. *)
Lemma row_metrics_spec (names all : list string) (v : seed_loop_vars) (i : nat)
    (dd : gmap string (list pyval)) (P : Prop) :
  (P → ready all (S i) v ∧ ∀ m, m ∈ names → m ∈ all) →
  owp (for_each names dd (λ metric dataframe_dict,
         let dataframe_dict :=
           if bool_decide (is_Some (dataframe_dict !! (metric +:+ "_train")))
           then dataframe_dict else <[metric +:+ "_train" := []]> dataframe_dict in
         dataframe_dict ← append_to dataframe_dict (metric +:+ "_train")
           (l ← getitem (train_results v) metric; py_index l (Z.of_nat i));
         let dataframe_dict :=
           if bool_decide (is_Some (dataframe_dict !! (metric +:+ "_val")))
           then dataframe_dict else <[metric +:+ "_val" := []]> dataframe_dict in
         append_to dataframe_dict (metric +:+ "_val")
           (l ← getitem (val_results v) metric; py_index l (Z.of_nat i))))
      (grown (metric_col names) (λ _, 0%nat) dd) (foreign_if P).
Proof.
  intros HP.
  apply (owp_for_each (λ done d, grown (metric_col done) (λ _, 0%nat) dd d)).
  { split; intros c; [|lia]. split; [tauto|].
    intros [?|(m & []%elem_of_nil & _)]; done. }
  intros done m rest d Hnames Hd. cbv zeta.
  destruct (append_train_not_reserved m) as (Ht1 & Hs1 & Ht2 & Hs2).
  pose proof (grown_ensure d (m +:+ "_train") Ht1 Hs1) as He1.
  set (d1 := if bool_decide (is_Some (d !! (m +:+ "_train"))) then d else _) in *.
  assert (m ∈ names) as Hm.
  { rewrite Hnames, elem_of_app, elem_of_cons. auto. }
  apply owp_bind, owp_append_to.
  2: { intros Hn. apply proj1 in He1. specialize (He1 (m +:+ "_train")).
       rewrite Hn in He1. destruct He1 as [_ He1].
       destruct He1 as [? [=]]. by right. }
  intros _. eapply owp_mono;
    [apply (owp_result_at _ m i all P); intros Pp; destruct (HP Pp) as [(_ & ? & _) ?]; auto
    | |done].
  intros _ _ d2 Hg2.
  pose proof (grown_ensure d2 (m +:+ "_val") Ht2 Hs2) as He2.
  set (d3 := if bool_decide (is_Some (d2 !! (m +:+ "_val"))) then d2 else _) in *.
  apply owp_append_to.
  2: { intros Hn. apply proj1 in He2. specialize (He2 (m +:+ "_val")).
       rewrite Hn in He2. destruct He2 as [_ He2].
       destruct He2 as [? [=]]. by right. }
  intros _. eapply owp_mono;
    [apply (owp_result_at _ m i all P); intros Pp; destruct (HP Pp) as [(_ & _ & ?) ?]; auto
    | |done].
  intros _ _ d4 Hg4.
  destruct Hd as [Hd Hdl], He1 as [He1 He1l], Hg2 as [Hg2 Hg2l],
    He2 as [He2 He2l], Hg4 as [Hg4 Hg4l].
  split; intros c.
  - rewrite Hg4, He2, Hg2, He1, Hd, metric_col_snoc. tauto.
  - intros Hc. rewrite Hg4l, He2l, Hg2l, He1l, Hdl by done.
    repeat case_decide; destruct Hc; congruence || lia.
Qed.

Lemma row_step_spec (save : bool) (cn : string) (names : list string)
    (v : seed_loop_vars) (i : nat) (seed : Z) (dd : gmap string (list pyval))
    (P : Prop) :
  (P → columns_ready save dd ∧ ready (cn :: names) (S i) v) →
  owp (row_step save cn names v (i, seed) dd)
      (grown (metric_col names) (λ _, 1%nat) dd) (foreign_if P).
Proof.
  intros HP. unfold row_step.
  apply owp_bind, owp_append_to.
  2: { intros Hn Pp. destruct (HP Pp) as [(Hs & _) _].
       rewrite Hn in Hs. by destruct Hs. }
  intros _. simpl. intros d1 [Hg1 Hg1l].
  apply owp_bind, owp_append_to.
  2: { intros Hn Pp. destruct (HP Pp) as [(_ & Ht & _) _].
       apply (or_introl (B:=False)), Hg1 in Ht. rewrite Hn in Ht. by destruct Ht. }
  intros _. apply owp_py_index.
  2: { intros Hlen Pp. destruct (HP Pp) as [_ (Hft & _)]. lia. }
  intros x _ d2 [Hg2 Hg2l].
  apply owp_bind.
  apply (owp_mono _ (grown (λ _, False) (λ _, 0%nat) d2) _ (foreign_if P));
    [| |done].
  { destruct save; [|apply grown_refl].
    apply owp_bind, owp_append_to.
    2: { intros Hn Pp. destruct (HP Pp) as [(_ & _ & Hl) _].
         destruct (Hl eq_refl) as [Htl _].
         apply (or_introl (B:=False)), Hg1, (or_introl (B:=False)), Hg2 in Htl.
         rewrite Hn in Htl. by destruct Htl. }
    intros _. eapply owp_mono;
      [apply (owp_result_at _ cn i (cn :: names) P); intros Pp;
       destruct (HP Pp) as [_ (_ & ? & _)]; split; [done|left]
      | |done].
    intros _ _ d3 [Hg3 Hg3l].
    apply owp_append_to.
    2: { intros Hn Pp. destruct (HP Pp) as [(_ & _ & Hl) _].
         destruct (Hl eq_refl) as [_ Hvl].
         apply (or_introl (B:=False)), Hg1, (or_introl (B:=False)), Hg2,
           (or_introl (B:=False)), Hg3 in Hvl.
         rewrite Hn in Hvl. by destruct Hvl. }
    intros _. eapply owp_mono;
      [apply (owp_result_at _ cn i (cn :: names) P); intros Pp;
       destruct (HP Pp) as [_ (_ & _ & ?)]; split; [done|left]
      | |done].
    intros _ _ d4 [Hg4 Hg4l]. split; intros c.
    - rewrite Hg4, Hg3. tauto.
    - intros Hc. rewrite Hg4l, Hg3l by done.
      repeat case_decide; destruct Hc; congruence || lia. }
  intros d3 [Hg3 Hg3l].
  eapply owp_mono;
    [apply (row_metrics_spec names (cn :: names) v i d3 P); intros Pp;
     destruct (HP Pp) as [_ ?]; split; [done|by right]
    | |done].
  intros d4 [Hg4 Hg4l]. split; intros c.
  - rewrite Hg4, Hg3, Hg2, Hg1. tauto.
  - intros Hc. rewrite Hg4l, Hg3l, Hg2l, Hg1l by done.
    repeat case_decide; destruct Hc; congruence || lia.
Qed.

Lemma lens_ge_le (names : list string) (k k' : nat) d :
  lens_ge names k d → (k' ≤ k)%nat → lens_ge names k' d.
Proof.
  intros H Hle name Hin. destruct (H name Hin) as (l & ? & ?).
  exists l. split; [done|lia].
Qed.

Lemma ready_le (names : list string) (k k' : nat) v :
  ready names k v → (k' ≤ k)%nat → ready names k' v.
Proof.
  intros (? & ? & ?) Hle. split_and!; [lia|by eapply lens_ge_le..].
Qed.

Lemma columns_ready_grown save N δ d d' :
  grown N δ d d' → columns_ready save d → columns_ready save d'.
Proof.
  intros [Hg _] (Hs & Ht & Hl). split_and!; [apply Hg; auto..|].
  intros Hsave. destruct (Hl Hsave). split; apply Hg; auto.
Qed.

(** Lines 314-330: the loop over [enumerate(seeds)]. *)
Lemma rows_spec (save : bool) (cn : string) (names : list string)
    (v : seed_loop_vars) (ss : list Z) (dd : gmap string (list pyval)) (P : Prop) :
  (P → columns_ready save dd ∧ ready (cn :: names) (length ss) v) →
  owp (for_each (enumerate ss) dd (row_step save cn names v))
      (grown (λ c, ss ≠ [] ∧ metric_col names c) (λ _, length ss) dd)
      (foreign_if P).
Proof.
  intros HP.
  eapply owp_mono;
    [apply (owp_for_each
              (λ done d, grown (λ c, done ≠ [] ∧ metric_col names c)
                           (λ _, length done) dd d))| |done].
  - split; intros c; [|simpl; lia]. split; [tauto|]. intros [?|[? _]]; done.
  - intros done [i seed] rest d Hss Hd.
    assert (i = length done ∧ (S i ≤ length ss)%nat) as [-> Hi].
    { assert (enumerate ss !! length done = Some (i, seed)) as Hl.
      { rewrite Hss. by apply list_lookup_middle. }
      apply enumerate_lookup in Hl as [-> Hl].
      split; [done|]. apply lookup_lt_Some in Hl. lia. }
    eapply owp_mono;
      [apply (row_step_spec save cn names v (length done) seed d P); intros Pp;
       destruct (HP Pp); split; [by eapply columns_ready_grown|by eapply ready_le]
      | |done].
    intros d' Hd'. eapply grown_trans; [exact Hd|exact Hd'|..].
    + intros c. split.
      * intros [?|[_ ?]]; auto.
      * intros [[?|[_ ?]]|?]; auto; right; (split; [by destruct done|done]).
    + intros c _. rewrite length_app. simpl. done.
  - intros d. rewrite enumerate_length.
    intros [Hg Hl]. split; intros c; [|apply Hl].
    rewrite Hg.
    assert (enumerate ss ≠ [] ↔ ss ≠ []) as ->; [|done].
    destruct ss; unfold enumerate; simpl; [tauto|split; done].
Qed.

Lemma occurrences_snoc (c k : string) (done : list string) :
  occurrences c (done ++ [k])
  = (occurrences c done + if decide (c = k) then 1 else 0)%nat.
Proof.
  unfold occurrences. rewrite filter_app, length_app. f_equal.
  rewrite filter_cons, filter_nil. repeat case_decide; simplify_eq; done.
Qed.

(** Lines 311-312: the loop over the keys to save. *)
Lemma keys_spec (keys : list string) (total : gmap string pyval)
    (dd : gmap string (list pyval)) (P : Prop) :
  (P → ∀ key, key ∈ keys → is_Some (dd !! key) ∧ is_Some (total !! key)) →
  owp (for_each keys dd (λ key d, append_to d key (getitem total key)))
      (grown (λ _, False) (λ c, occurrences c keys) dd) (foreign_if P).
Proof.
  intros HP.
  apply (owp_for_each
           (λ done d, grown (λ _, False) (λ c, occurrences c done) dd d)).
  { apply grown_refl. }
  intros done key rest d Hkeys Hd.
  assert (key ∈ keys) as Hin.
  { rewrite Hkeys, elem_of_app, elem_of_cons. auto. }
  apply owp_append_to.
  2: { intros Hn Pp. destruct (HP Pp key Hin) as [Hk _].
       apply (or_introl (B:=False)), Hd in Hk. rewrite Hn in Hk.
       by destruct Hk. }
  intros _. apply owp_getitem.
  2: { intros Hn Pp. destruct (HP Pp key Hin) as [_ Hk].
       rewrite Hn in Hk. by destruct Hk. }
  intros x _ d' Hd'. eapply grown_trans; [exact Hd|exact Hd'|tauto|].
  intros c _. apply occurrences_snoc.
Qed.

(** ** The loop over the seeds *)

Lemma owp_append_raw (d : gmap string (list pyval)) (k : string) (x : outcome pyval)
    (Q : gmap string (list pyval) → Prop) R :
  (∀ l, d !! k = Some l → owp x (λ v, Q (<[k := l ++ [v]]> d)) R) →
  (d !! k = None → R Own (KeyError k)) →
  owp (append_to d k x) Q R.
Proof.
  intros HQ HR. unfold append_to. apply owp_bind, owp_getitem; [|done].
  intros l Hl. apply owp_bind. eapply owp_mono; [by apply HQ| |done]. done.
Qed.

Lemma lens_ge_insert (names : list string) (n : nat) d (k : string) l v :
  lens_ge names n d → d !! k = Some l → lens_ge names n (<[k := l ++ [v]]> d).
Proof.
  intros H Hk name Hin. destruct (H name Hin) as (l' & Hl' & Hn).
  destruct (decide (name = k)) as [->|Hne].
  - rewrite lookup_insert_eq. simplify_eq. eexists. split; [done|].
    rewrite length_app. lia.
  - rewrite lookup_insert_ne by done. eauto.
Qed.

Lemma lens_ge_insert_next (names : list string) (n : nat) d (k : string) l v :
  lens_ge names (S n) d → d !! k = Some l → (n ≤ length l)%nat →
  lens_ge (names ++ [k]) (S n) (<[k := l ++ [v]]> d).
Proof.
  intros H Hk Hn name [Hin| ->%list_elem_of_singleton]%elem_of_app.
  - by apply (lens_ge_insert names (S n) d k l v).
  - rewrite lookup_insert_eq. eexists. split; [done|].
    rewrite length_app. simpl. lia.
Qed.

(** Reading the history that [fit] returned. *)
Lemma owp_history (d : gmap string (list pyval)) (name : string) (idx : Z)
    (P : Prop) :
  (P → ∃ h y, d !! name = Some h ∧ py_index h idx = Ok y) →
  owp (h ← getitem d name; py_index h idx) (λ _, True) (foreign_if P).
Proof.
  intros HP. destruct (_ ≫= _) as [y|o e] eqn:Hx; simpl; [done|].
  intros Pp. destruct (HP Pp) as (h & y & Hh & Hy).
  unfold getitem in Hx. rewrite Hh in Hx. simpl in Hx. congruence.
Qed.

Lemma check_kwargs_spec {V} (named : list string) (kwargs : gmap string V)
    (P : Prop) :
  (P → ∀ k, k ∈ named → kwargs !! k = None) →
  owp (check_kwargs named kwargs) (λ _, True) (foreign_if P).
Proof.
  intros HP. unfold check_kwargs.
  destruct (existsb _ named) eqn:Hex; simpl; [|done].
  intros Pp. apply existsb_exists in Hex as (k & Hin & Hk).
  apply bool_decide_eq_true in Hk. rewrite (HP Pp k) in Hk; [by destruct Hk|].
  by apply list_elem_of_In.
Qed.

(** Lines 302-307: the results of one fit are appended under the criterion
    and under every metric. *)
Lemma record_results_spec (history : gmap string (list pyval)) (cn : string)
    (names : list string) (hidx : Z) (k : nat)
    (results : gmap string (list pyval)) (P : Prop) :
  (P → ∀ name, name ∈ cn :: names →
         ∃ h y, history !! name = Some h ∧ py_index h hidx = Ok y) →
  lens_ge (cn :: names) k results →
  owp (append_to results cn (h ← getitem history cn; py_index h hidx))
      (λ results, lens_ge (cn :: names) k results ∧ lens_ge [cn] (S k) results)
      (foreign_if P).
Proof.
  intros HP Hres.
  destruct (Hres cn) as (l & Hl & Hn); [left|].
  apply owp_append_raw; [|congruence].
  intros l' Hl'. assert (l' = l) as -> by congruence.
  eapply owp_mono; [apply (owp_history _ _ _ P)| |done].
  { intros Pp. apply (HP Pp). left. }
  intros v _. split; [by apply lens_ge_insert|].
  apply (lens_ge_insert_next [] k results cn l v); [|done..].
  by intros ? ?%elem_of_nil.
Qed.

Lemma record_metrics_spec (r : fit_result) (cn : string) (names : list string)
    (hidx : Z) (k : nat) (tr vr : gmap string (list pyval)) (P : Prop) :
  (P → ∀ name, name ∈ cn :: names →
         (∃ h y, train r !! name = Some h ∧ py_index h hidx = Ok y)
         ∧ (∃ h y, val r !! name = Some h ∧ py_index h hidx = Ok y)) →
  lens_ge (cn :: names) k tr → lens_ge [cn] (S k) tr →
  lens_ge (cn :: names) k vr → lens_ge [cn] (S k) vr →
  owp (for_each names (tr, vr) (λ metric '(tr, vr),
         tr ← append_to tr metric
                (h ← getitem (train r) metric; py_index h hidx);
         vr ← append_to vr metric
                (h ← getitem (val r) metric; py_index h hidx);
         Ok (tr, vr)))
      (λ s, lens_ge (cn :: names) (S k) s.1 ∧ lens_ge (cn :: names) (S k) s.2)
      (foreign_if P).
Proof.
  intros HP Htr Htr1 Hvr Hvr1.
  eapply owp_mono;
    [apply (owp_for_each
              (λ done s,
                 (lens_ge (cn :: names) k s.1 ∧ lens_ge (cn :: done) (S k) s.1)
                 ∧ (lens_ge (cn :: names) k s.2 ∧ lens_ge (cn :: done) (S k) s.2)))
    | |done]; [by split_and!| |by intros s [[_ ?] [_ ?]]].
  intros done m rest [tr' vr'] Hnames [[Ht Ht1] [Hv Hv1]]. simpl in *.
  assert (m ∈ cn :: names) as Hm.
  { rewrite Hnames, elem_of_cons, elem_of_app, elem_of_cons. auto. }
  destruct (Ht m Hm) as (lt & Hlt & Hnt), (Hv m Hm) as (lv & Hlv & Hnv).
  apply owp_bind, owp_append_raw; [|congruence].
  intros l' Hl'. assert (l' = lt) as -> by congruence.
  eapply owp_mono; [apply (owp_history _ _ _ P)| |done].
  { intros Pp. by apply (HP Pp). }
  intros x _.
  apply owp_bind, owp_append_raw; [|congruence].
  intros l' Hl''. assert (l' = lv) as -> by congruence.
  eapply owp_mono; [apply (owp_history _ _ _ P)| |done].
  { intros Pp. by apply (HP Pp). }
  intros y _. simpl. split; split.
  - by apply lens_ge_insert.
  - by apply (lens_ge_insert_next (cn :: done)).
  - by apply lens_ge_insert.
  - by apply (lens_ge_insert_next (cn :: done)).
Qed.

Lemma seed_step_spec {X} (E : collaborators X) seeds device keys wandb_params
    th mh total new_th cn names hidx tl vl ti (v : seed_loop_vars) (k : nat)
    (P : Prop) :
  (P → seed_step_ok E keys wandb_params mh total new_th cn names hidx) →
  ready (cn :: names) k v →
  wp (seed_step E seeds device keys wandb_params th mh total new_th cn names
        hidx tl vl ti v)
     (ready (cn :: names) (S k)) (foreign_if P).
Proof.
  intros HP (Hft & Htr & Hvr). unfold seed_step.
  apply wp_bind, wp_lift.
  eapply (owp_mono _ (λ _, True)); [| |done].
  { destruct wandb_params; [|done].
    apply (owp_for_each (λ _ _, True)); [done|].
    intros done key rest acc Hkeys _. apply owp_bind, owp_getitem; [done|].
    intros Hn Pp. destruct (HP Pp) as (_ & Hk & _).
    destruct (Hk key) as [? ?]; [|congruence].
    rewrite Hkeys, elem_of_app, elem_of_cons. auto. }
  intros config_params _.
  apply wp_bind. eapply (wp_mono _ (λ _, True)); [| |done].
  { destruct seeds; [|by apply wp_ret].
    apply wp_bind, wp_call; [|apply foreign_from]. intros _ _ _ _.
    apply wp_bind, wp_call; [|apply foreign_from]. intros _ _ _ _.
    by apply wp_ret. }
  intros config_params' _.
  apply wp_bind, wp_lift, owp_getitem.
  2: { intros Hn Pp. destruct (HP Pp) as ((id & ?) & _). congruence. }
  intros _ _.
  apply wp_bind, wp_lift, owp_getitem.
  2: { intros Hn Pp. destruct (HP Pp) as ((id & ?) & _). congruence. }
  intros model_class Hmc.
  apply wp_bind. eapply (wp_mono _ (λ _, True)); [| |done].
  { destruct model_class; simpl;
      try (apply wp_lift; intros Pp; destruct (HP Pp) as ((id' & ?) & _);
           congruence).
    apply wp_call; [done|apply foreign_from]. }
  intros net0 _.
  apply wp_bind, wp_call; [|apply foreign_from]. intros _ _ net _.
  apply wp_bind. eapply (wp_mono _ (λ _, True)); [| |done].
  { destruct wandb_params as [wandb|]; [|by apply wp_ret].
    apply wp_bind, wp_lift.
    eapply owp_mono; [apply (check_kwargs_spec _ _ P)| |done].
    { intros Pp. destruct (HP Pp) as (_ & _ & Hw & _).
      destruct (Hw wandb eq_refl) as [Hc Hn].
      intros key [->|[->|[]%elem_of_nil]%elem_of_cons]%elem_of_cons; done. }
    intros _ _. apply wp_bind, wp_call; [|apply foreign_from]. intros _ _ _ _.
    apply wp_bind, wp_lift, owp_getitem.
    2: { intros Hn Pp. destruct (HP Pp) as (_ & _ & _ & [? ?] & _). congruence. }
    intros criterion _. apply wp_call; [done|apply foreign_from]. }
  intros _ _.
  apply wp_bind, wp_call; [|apply foreign_from]. intros _ _ start_time _.
  apply wp_bind, wp_lift.
  eapply owp_mono; [apply (check_kwargs_spec _ _ P)| |done].
  { intros Pp. by destruct (HP Pp) as (_ & _ & _ & _ & ? & _). }
  intros _ _.
  apply wp_bind, wp_call; [|apply foreign_from]. intros x x' result Hfit.
  assert (P → ∀ name, name ∈ cn :: names →
            (∃ h y, train result !! name = Some h ∧ py_index h hidx = Ok y)
            ∧ (∃ h y, val result !! name = Some h ∧ py_index h hidx = Ok y))
    as Hhist.
  { intros Pp. destruct (HP Pp) as (_ & _ & _ & _ & _ & Hf). by eapply Hf. }
  apply wp_bind, wp_call; [|apply foreign_from]. intros _ _ end_time _.
  apply wp_bind, wp_lift.
  eapply owp_mono;
    [apply (record_results_spec (train result) cn names hidx k _ P)| |done];
    [by intros Pp name Hin; apply (Hhist Pp)|done|].
  intros tr [Htr' Htr1].
  apply wp_bind, wp_lift.
  eapply owp_mono;
    [apply (record_results_spec (val result) cn names hidx k _ P)| |done];
    [by intros Pp name Hin; apply (Hhist Pp)|done|].
  intros vr [Hvr' Hvr1].
  apply wp_bind, wp_lift.
  eapply owp_mono;
    [by apply (record_metrics_spec result cn names hidx k tr vr P)| |done].
  intros [tr' vr'] [Ht Hv]. apply wp_ret. split_and!; simpl; [|done..].
  rewrite length_app. simpl. lia.
Qed.

(** ** One combination *)

Lemma dataloader_params_spec {X} (E : collaborators X) total (P : Prop) :
  wp (dataloader_params_of E total) (λ _, True) (foreign_if P).
Proof.
  unfold dataloader_params_of.
  apply (wp_for_loop (λ _ _, True)); [done|].
  intros done param rest acc _ _. apply wp_bind.
  destruct (total !! param).
  - apply wp_ret. by apply wp_ret.
  - apply wp_call; [|apply foreign_from]. intros _ _ v _. by apply wp_ret.
Qed.

Lemma empty_results_lookup (names : list string) (d : gmap string (list pyval))
    (name : string) :
  name ∈ names ∨ is_Some (d !! name) →
  is_Some (foldl (λ d metric, <[metric := []]> d) d names !! name).
Proof.
  revert d. induction names as [|m names IH]; intros d; simpl.
  - intros [[]%elem_of_nil|?]. done.
  - intros [[->|?]%elem_of_cons|?]; apply IH; auto; right.
    + by rewrite lookup_insert_eq.
    + rewrite lookup_insert. case_decide; eauto.
Qed.

Lemma history_idx_spec (th : gmap string pyval) (P : Prop) :
  (P → wf_training th) →
  owp (if match th !! "early_stopper" with
          | None | Some VNone => false
          | Some _ => true
          end
       then early_stopper ← getitem th "early_stopper";
            patience ← attr_patience early_stopper;
            Ok (-1 - patience)
       else Ok (-1))
      (λ hidx, hidx = history_index th) (foreign_if P).
Proof.
  intros HP. unfold history_index, getitem.
  destruct (th !! "early_stopper") as [[]|] eqn:Hes; simpl; try done;
    intros Pp; destruct (HP Pp) as (_ & _ & [?|[?|(? & ? & ?)]] & _); congruence.
Qed.

Lemma seed_loop_spec {X} (E : collaborators X) seeds device keys wandb_params
    th mh total new_th cn names hidx tl vl (test_iterator : list Z)
    (v : seed_loop_vars) (P : Prop) :
  (P → seed_step_ok E keys wandb_params mh total new_th cn names hidx) →
  ready (cn :: names) 0 v →
  wp (for_loop (enumerate test_iterator) v
        (λ '(idx, test_iteration),
           seed_step E seeds device keys wandb_params th mh total new_th cn
             names hidx tl vl test_iteration))
     (ready (cn :: names) (length test_iterator)) (foreign_if P).
Proof.
  intros HP Hv.
  eapply wp_mono;
    [apply (wp_for_loop (λ done v, ready (cn :: names) (length done) v))| |done].
  - done.
  - intros done [idx ti] rest v' _ Hv'.
    eapply wp_mono; [by apply (seed_step_spec E)| |done].
    intros v''. rewrite length_app. simpl. by rewrite Nat.add_1_r.
  - intros v'. by rewrite enumerate_length.
Qed.

Ltac use_wf HP Pp :=
  destruct (HP Pp) as ((Hth & Hmh & Hkeys & Hfit) & Hw & Hdd);
  destruct Hth as ((cid' & cn' & Hc) & [bs Hb] & He & [names' Hm] & Htl & Hvl & Hvb);
  simpl in *.

Lemma combo_step_spec {X} (E : collaborators X) train_data val_data shuffle
    device keys (ss : list Z) save wandb_params item
    (dd : gmap string (list pyval)) (n : nat) (P : Prop) :
  (P → wf_item E keys item ∧ wf_wandb wandb_params
       ∧ ∀ c, base_col keys save c → is_Some (dd !! c)) →
  wp (combo_step E train_data val_data shuffle device keys (Some ss) save
        wandb_params item (dd, n))
     (λ s, ∃ names, metric_names item.2.1 = Ok names
                    ∧ grown (λ c, ss ≠ [] ∧ metric_col names c)
                        (λ c, occurrences c keys + length ss)%nat dd s.1)
     (foreign_if P).
Proof.
  intros HP. destruct train_data as [train_input train_labels],
    val_data as [val_input val_labels], item as [n_run [th mh]].
  unfold combo_step. simpl in HP |- *.
  apply wp_bind, wp_lift, owp_getitem.
  2: { intros Hn Pp. use_wf HP Pp. congruence. }
  intros criterion Hcrit.
  apply wp_bind, wp_lift.
  eapply owp_mono; [apply (history_idx_spec th P)| |done].
  { intros Pp. by destruct (HP Pp) as ((? & _) & _). }
  intros hidx ->.
  apply wp_bind. eapply (wp_mono _ (λ _, True)); [| |done].
  { case_match; [by apply wp_print|by apply wp_ret]. }
  intros _ _.
  apply wp_bind. eapply wp_mono; [apply (dataloader_params_spec E _ P)| |done].
  intros dataloader_params _.
  apply wp_bind, wp_call; [|apply foreign_from]. intros _ _ train_data_loader _.
  apply wp_bind, wp_call; [|apply foreign_from]. intros _ _ val_data_loader _.
  apply wp_bind, wp_lift, owp_getitem.
  2: { intros Hn Pp. use_wf HP Pp. congruence. }
  intros _ _.
  apply wp_bind, wp_lift.
  destruct (attr_name criterion) as [cn|] eqn:Hcn; simpl.
  2: { intros Pp. use_wf HP Pp. destruct criterion; simplify_eq. }
  assert (∃ cid, criterion = VCriterion cid cn) as [cid ->]
    by (destruct criterion; simplify_eq/=; eauto).
  apply wp_bind, wp_lift.
  destruct (metric_names th) as [names|] eqn:Hnames; simpl.
  2: { intros Pp. use_wf HP Pp. congruence. }
  set (results := foldl _ _ names).
  assert (lens_ge (cn :: names) 0 results) as Hres.
  { intros name Hin. destruct (empty_results_lookup names {[cn := []]} name) as [l Hl].
    - apply elem_of_cons in Hin as [->|?]; [right|by left].
      by rewrite lookup_singleton_eq.
    - exists l. split; [done|lia]. }
  apply wp_bind.
  eapply wp_mono;
    [apply (seed_loop_spec E (Some ss) device keys wandb_params th mh (mh ∪ th)
              (delete "batch_size" th) cn names (history_index th)
              train_data_loader val_data_loader ss _ P)| |done].
  { intros Pp. use_wf HP Pp. split_and!; try done.
    - apply lookup_union_is_Some. right. by eexists.
    - intros key Hkey. apply lookup_delete_None. right.
      repeat (apply elem_of_cons in Hkey as [->|Hkey]; [done|]).
      by apply elem_of_nil in Hkey.
    - intros net tl vl x x' r Hr name Hin.
      by apply (Hfit net tl vl x x' r Hr cid cn names name). }
  { split_and!; simpl; [lia|done..]. }
  intros v Hv.
  apply wp_bind, wp_lift.
  eapply owp_mono; [apply (keys_spec keys (mh ∪ th) dd P)| |done].
  { intros Pp key Hin. use_wf HP Pp.
    split; [apply Hdd; by left|by apply Hkeys]. }
  intros dd1 Hdd1.
  apply wp_bind, wp_lift. simpl.
  apply wp_bind, wp_lift.
  eapply owp_mono; [apply (rows_spec save cn names v ss dd1 P)| |done].
  { intros Pp. destruct (HP Pp) as (_ & _ & Hdd). split; [|done].
    eapply columns_ready_grown; [exact Hdd1|].
    unfold base_col in Hdd. split_and!; [apply Hdd; auto..|].
    intros ->. split; apply Hdd; do 3 right; auto. }
  intros dd2 Hdd2. apply wp_ret. exists names. split; [done|]. simpl.
  eapply grown_trans; [exact Hdd1|exact Hdd2|tauto|done].
Qed.

(** ** The whole table *)

Lemma insert_empty_col (d : gmap string (list pyval)) (S : string → Prop)
    (k : string) :
  (∀ c l, d !! c = Some l ↔ (S c ∧ l = [])) →
  ∀ c l, <[k := []]> d !! c = Some l ↔ ((c = k ∨ S c) ∧ l = []).
Proof.
  intros H c l. rewrite lookup_insert. case_decide; subst.
  - split; [intros [= <-]; auto|intros [_ ->]; done].
  - rewrite H. split; intros [? ?]; (split; [|done]); [auto|].
    by destruct H1 as [->|?].
Qed.

Lemma empty_keys_lookup (keys : list string) (d : gmap string (list pyval))
    (S : string → Prop) :
  (∀ c l, d !! c = Some l ↔ (S c ∧ l = [])) →
  ∀ c l, foldl (λ d key, <[key := []]> d) d keys !! c = Some l
         ↔ ((c ∈ keys ∨ S c) ∧ l = []).
Proof.
  revert d S. induction keys as [|k keys IH]; intros d S Hd c l; simpl.
  - rewrite Hd, elem_of_nil. tauto.
  - rewrite (IH _ _ (insert_empty_col d S k Hd)), elem_of_cons. tauto.
Qed.

Lemma empty_columns_lookup (keys : list string) (save : bool) (c : string)
    (l : list pyval) :
  empty_columns keys save !! c = Some l ↔ (base_col keys save c ∧ l = []).
Proof.
  assert (∀ c l, (∅ : gmap string (list pyval)) !! c = Some l ↔ (False ∧ l = []))
    as H0 by (intros; rewrite lookup_empty; split; [done|tauto]).
  pose proof (empty_keys_lookup keys _ _ H0) as H1.
  pose proof (insert_empty_col _ _ "time" H1) as H2.
  pose proof (insert_empty_col _ _ "seed" H2) as H3.
  unfold empty_columns, base_col. destruct save.
  - pose proof (insert_empty_col _ _ "train_loss" H3) as H4.
    pose proof (insert_empty_col _ _ "val_loss" H4) as H5.
    rewrite H5. intuition congruence.
  - rewrite H3. intuition congruence.
Qed.

Lemma table_after_nil (keys : list string) (save : bool) (ss : list Z) :
  table_after keys save ss [] (empty_columns keys save).
Proof.
  split; intros c.
  - split.
    + intros [l [? _]%empty_columns_lookup]. by left.
    + intros [?|(_ & item & _ & []%elem_of_nil & _)].
      exists []. by apply empty_columns_lookup.
  - intros _. unfold col_len. simpl.
    destruct (empty_columns keys save !! c) as [l|] eqn:Hl; [|done].
    by apply empty_columns_lookup in Hl as [_ ->].
Qed.

Lemma table_after_snoc keys save ss done item names dd dd' :
  table_after keys save ss done dd →
  metric_names item.2.1 = Ok names →
  grown (λ c, ss ≠ [] ∧ metric_col names c)
    (λ c, occurrences c keys + length ss)%nat dd dd' →
  table_after keys save ss (done ++ [item]) dd'.
Proof.
  intros [Hd Hl] Hnames [Hg Hgl]. split; intros c.
  - rewrite Hg, Hd. split.
    + intros [[?|(? & item' & names' & ? & ? & ?)]|[? ?]]; [by left|right..].
      * split; [done|]. exists item', names'. rewrite elem_of_app. auto.
      * split; [done|]. exists item, names.
        rewrite elem_of_app, list_elem_of_singleton. auto.
    + intros [?|(? & item' & names' & [?| ->%list_elem_of_singleton]%elem_of_app
                 & Hn & ?)]; [by left; left|..].
      * left; right. split; [done|]. by exists item', names'.
      * right. split; [done|]. congruence.
  - intros Hc. rewrite Hgl, Hl, length_app by done. simpl. lia.
Qed.

(** Lines 220-330: the loop over the combinations. *)
Lemma combo_loop_spec {X} (E : collaborators X) train_data val_data shuffle
    device keys (ss : list Z) save wandb_params iterator :
  wp (for_loop iterator (empty_columns keys save, 0%nat)
        (combo_step E train_data val_data shuffle device keys (Some ss) save
           wandb_params))
     (λ s, table_after keys save ss iterator s.1)
     (foreign_if (Forall (wf_item E keys) iterator ∧ wf_wandb wandb_params)).
Proof.
  apply (wp_for_loop (λ done s, table_after keys save ss done s.1)).
  { apply table_after_nil. }
  intros done item rest [dd n] Hit Hdd. simpl in Hdd.
  eapply wp_mono; [apply (combo_step_spec E)| |done].
  - intros [Hwf Hw]. split_and!; [|done|].
    + rewrite Forall_forall in Hwf. apply Hwf.
      rewrite Hit, elem_of_app, elem_of_cons. auto.
    + intros c Hc. apply Hdd. by left.
  - intros [dd' n'] (names & Hnames & Hg). by eapply table_after_snoc.
Qed.

Lemma pd_DataFrame_spec (d : gmap string (list pyval)) (df : DataFrame) :
  pd_DataFrame d = Ok df →
  columns df = d ∧ ∀ c l, d !! c = Some l → length l = nrows df.
Proof.
  unfold pd_DataFrame. intros H.
  destruct ((length ∘ snd) <$> map_to_list d) as [|n ns] eqn:Hlens.
  - injection H as <-. split; [done|]. intros c l Hl.
    apply fmap_nil_inv, map_to_list_empty_iff in Hlens. subst.
    by rewrite lookup_empty in Hl.
  - destruct (forallb (Nat.eqb n) ns) eqn:Hall; [|done].
    injection H as <-. split; [done|]. simpl. intros c l Hl.
    apply elem_of_map_to_list in Hl.
    apply (list_elem_of_fmap_2 (length ∘ snd)) in Hl. rewrite Hlens in Hl.
    apply elem_of_cons in Hl as [?|Hl]; [done|]. simpl in *.
    rewrite forallb_forall in Hall. apply list_elem_of_In, Hall in Hl.
    by apply Nat.eqb_eq in Hl.
Qed.

Lemma collect_results_spec {X} (E : collaborators X) train_data val_data
    iterator shuffle device keys path (ss : list Z) save wandb_params :
  wp (collect_results E train_data val_data iterator shuffle device keys path
        (Some ss) save wandb_params)
     (λ df, ∃ dd, table_after keys save ss iterator dd ∧ pd_DataFrame dd = Ok df)
     (foreign_if (Forall (wf_item E keys) iterator ∧ wf_wandb wandb_params)).
Proof.
  unfold collect_results. apply wp_bind.
  eapply wp_mono; [apply (combo_loop_spec E)| |done].
  intros [dd n] Hdd. simpl in Hdd.
  apply wp_bind, wp_lift.
  destruct (pd_DataFrame dd) as [df|] eqn:Hdf; simpl.
  2: { unfold pd_DataFrame in Hdf. repeat case_match; simplify_eq.
       apply foreign_from. }
  apply wp_bind, wp_call; [|apply foreign_from]. intros _ _ _ _.
  apply wp_ret. eauto.
Qed.

Lemma occurrences_absent (c : string) (keys : list string) :
  c ∉ keys → occurrences c keys = 0%nat.
Proof.
  unfold occurrences. induction keys as [|k keys IH]; [done|].
  intros [Hne Hin]%not_elem_of_cons.
  rewrite filter_cons_False by congruence. auto.
Qed.

(** C5, as stated, fails: with collaborators that never raise, a training
    dictionary without 'batch_size' makes [collect_results] raise a KeyError
    of its own, at [new_training_hyperparameters.pop('batch_size')]. *)
Lemma missing_batch_size_raises_own_error :
  (demo_run training_without_batch_size demo_model ["lr"] (Some [7])).2
  = Raise Own (KeyError "batch_size").
Proof. vm_compute. reflexivity. Qed.

Lemma sample_dict_spec {X} (E : collaborators X) (l : list (string * pyval)) :
  Forall (λ p, callable p.2) l →
  wp (sample_dict E l) (λ _, True) (foreign_if True).
Proof.
  intros Hl. unfold sample_dict.
  apply (wp_for_loop (λ _ _, True)); [done|].
  intros done [key sampler] rest d -> _.
  apply Forall_app in Hl as [_ [[id Hs] _]%Forall_cons]. simpl in Hs. subst.
  apply wp_bind, wp_call; [|apply foreign_from]. intros _ _ v _. by apply wp_ret.
Qed.

(** With samplers that can be called, an exception that ends the sampling
    loop was raised inside a sampler. *)
Lemma sampling_loop_raises_foreign {X} (E : collaborators X) fuel ms ts n_run :
  Forall (λ p, callable p.2) ms → Forall (λ p, callable p.2) ts →
  ∀ (i : Z) (Ms Ts : list (gmap string pyval)) w w' o e,
    sampling_loop E fuel ms ts n_run i Ms Ts w = Some (w', Raise o e) →
    ∃ c, o = From c.
Proof.
  intros Hms Hts.
  induction fuel as [|fuel IH]; intros i Ms Ts w w' o e; simpl;
    destruct (i <? n_run); try done.
  pose proof (sample_dict_spec E ms Hms w) as Hm.
  destruct (sample_dict E ms w) as [w1 [model_d|o1 e1]]; simpl in Hm.
  2: { intros [= _ <- _]. by apply Hm. }
  pose proof (sample_dict_spec E ts Hts w1) as Ht.
  destruct (sample_dict E ts w1) as [w2 [training_d|o2 e2]]; simpl in Ht.
  2: { intros [= _ <- _]. by apply Ht. }
  case_match; apply IH.
Qed.

(** C5, amended: when [seeds] is a list, every training dictionary holds a
    Criterion under 'criterion', a 'batch_size', a well-formed 'early_stopper'
    and 'metrics' and none of the keywords of [fit], every model dictionary
    holds a class under 'model_class', the keys to save are keys of the
    combination, the wandb parameters do not repeat 'config' or 'name', the
    histories that [fit] returns hold the criterion and the metrics at the
    index read, and the samplers of a randomized search can be called, then
    every exception that escapes [collect_results], the grid search or the
    randomized search, other than the one with which pandas refuses the
    table, was raised inside one of the other callees. *)
Theorem search_raises_only_foreign {X} (E : collaborators X) (s : search)
    train_data val_data shuffle device keys path (ss : list Z)
    save_loss_values wandb_params (w w' : world X) (o : origin) (e : exn_class) :
  wf_search E keys s w → wf_wandb wandb_params →
  run_search E s train_data val_data shuffle device keys path (Some ss)
    save_loss_values wandb_params w = Some (w', Raise o e) →
  o ≠ From Pandas →
  ∃ c, c ≠ Pandas ∧ o = From c.
Proof.
  intros Hwf Hw Hrun Hpandas.
  cut (∃ c, o = From c).
  { intros [c ->]. exists c. split; [|done]. by intros ->. }
  assert (∀ iterator w0,
            Forall (wf_item E keys) iterator →
            collect_results E train_data val_data iterator shuffle device keys
              path (Some ss) save_loss_values wandb_params w0 = (w', Raise o e) →
            ∃ c, o = From c) as Hcollect.
  { intros iterator w0 Hit Hr.
    pose proof (collect_results_spec E train_data val_data iterator shuffle
                  device keys path ss save_loss_values wandb_params w0) as H.
    rewrite Hr in H. by apply H. }
  destruct s as [iterator|M T|fuel ms ts n_run]; simpl in Hwf, Hrun.
  - injection Hrun as Hrun. by apply (Hcollect iterator w).
  - injection Hrun as Hrun. by apply (Hcollect (enumerate (product T M)) w).
  - destruct Hwf as [[Hms Hts]%Forall_app Hacc].
    unfold randomized_search_train_validation in Hrun.
    destruct (sampling_loop E fuel ms ts n_run 0 [] [] w)
      as [[w1 [[Ms Ts]|o1 e1]]|] eqn:Hloop; [| |done].
    + injection Hrun as Hrun.
      apply (Hcollect (enumerate (zip Ts Ms)) w1); [|done].
      by apply (Hacc w1).
    + injection Hrun as _ <- _.
      by apply (sampling_loop_raises_foreign E fuel ms ts n_run Hms Hts
                  0 [] [] w w1 o1 e1).
Qed.

Lemma demo_item_wf (E : collaborators (Z * list pyval)) :
  fit E = fit demo →
  wf_item E ["lr"] (0%nat, (demo_training, demo_model)).
Proof.
  intros Hfit. split_and!; simpl.
  - split_and!; try (vm_compute; reflexivity).
    + by exists 1%N, "loss".
    + by exists (VInt 32).
    + by left.
    + by exists [].
  - by exists "Net".
  - intros key [->|[]%elem_of_nil]%elem_of_cons. eexists. vm_compute. reflexivity.
  - intros net tl vl x x' r Hr cid cn names name Hcn Hnames Hin.
    rewrite Hfit in Hr. injection Hr as _ <-.
    injection Hcn as <- <-. injection Hnames as <-.
    apply elem_of_cons in Hin as [->|[]%elem_of_nil].
    split; eexists _, _; split; vm_compute; reflexivity.
Qed.

Lemma search_raises_only_foreign_witness :
  ∃ c, c ≠ Pandas ∧ From Joblib = From c.
Proof.
  apply (search_raises_only_foreign failing_dump
           (RandomizedSearch 2
              [("model_class", VCallable "net"); ("hidden", VCallable "choose_hidden")]
              [("criterion", VCallable "choose_criterion");
               ("batch_size", VCallable "choose_batch_size");
               ("lr", VCallable "choose_lr")]
              1)
           demo_train_data demo_val_data true "cpu" ["lr"] "results.pkl" [7]
           false None
           (demo_world [VCallable "Net"; VInt 8; VCriterion 1 "loss"; VInt 32; VInt 1])
           (default (demo_world [], Raise Own TypeError)
              (randomized_search_train_validation failing_dump 2 demo_train_data
                 demo_val_data true
                 [("model_class", VCallable "net"); ("hidden", VCallable "choose_hidden")]
                 [("criterion", VCallable "choose_criterion");
                  ("batch_size", VCallable "choose_batch_size");
                  ("lr", VCallable "choose_lr")]
                 ["lr"] 1 "cpu" "results.pkl" (Some [7]) false None
                 (demo_world [VCallable "Net"; VInt 8; VCriterion 1 "loss";
                              VInt 32; VInt 1]))).1
           (From Joblib) (OtherError "disk full")).
  - split.
    + repeat constructor; by eexists.
    + intros w1 Ms Ts Hrun.
      assert (Ms = [demo_model] ∧ Ts = [demo_training]) as [-> ->].
      { vm_compute in Hrun. injection Hrun as _ <- <-.
        split; vm_compute; reflexivity. }
      change (enumerate (zip [demo_training] [demo_model]))
        with [(0%nat, (demo_training, demo_model))].
      constructor; [|constructor]. by apply demo_item_wf.
  - intros p [=].
  - vm_compute. reflexivity.
  - discriminate.
Defined.

(** C8, as stated, fails: with the keys to save 'time' and 'seed', one
    combination and one seed, both columns get two entries and the table has
    two rows. *)
Lemma reserved_keys_double_the_rows :
  (demo_run demo_training model_with_reserved_names ["time"; "seed"] (Some [7])).2
  = Ok {| columns := {["time" := [VInt 3; VFloat 6]; "seed" := [VInt 9; VInt 7]]};
          nrows := 2 |}
  ∧ length (enumerate [(demo_training, model_with_reserved_names)]) = 1%nat.
Proof. split; vm_compute; reflexivity. Qed.

(** C8, amended: for a seeds list of length one and keys to save that do not
    contain both 'time' and 'seed', whenever [collect_results] returns, the
    table has one row per combination, all its columns have that length, and
    its columns are the keys to save, 'time', 'seed', 'train_loss' and
    'val_loss' when the losses are saved, and the train and validation column
    of every metric of every combination. *)
Theorem single_seed_table {X} (E : collaborators X) train_data val_data
    iterator shuffle device keys path (ss : list Z) save_loss_values
    wandb_params (w w' : world X) (df : DataFrame) :
  length ss = 1%nat →
  ¬ ("time" ∈ keys ∧ "seed" ∈ keys) →
  collect_results E train_data val_data iterator shuffle device keys path
    (Some ss) save_loss_values wandb_params w = (w', Ok df) →
  nrows df = length iterator
  ∧ (∀ c l, columns df !! c = Some l → length l = nrows df)
  ∧ (∀ c, is_Some (columns df !! c)
          ↔ (base_col keys save_loss_values c
             ∨ ∃ item names, item ∈ iterator
                 ∧ metric_names item.2.1 = Ok names ∧ metric_col names c)).
Proof.
  intros Hss Hkeys Hrun.
  pose proof (collect_results_spec E train_data val_data iterator shuffle
                device keys path ss save_loss_values wandb_params w) as H.
  rewrite Hrun in H. destruct H as (dd & [Hdom Hlen] & Hdf).
  apply pd_DataFrame_spec in Hdf as [Hcols Hrows]. rewrite Hcols.
  split_and!; [|done|].
  - assert (∃ c, (c = "time" ∨ c = "seed") ∧ c ∉ keys) as (c & Hc & Hin).
    { destruct (decide ("time" ∈ keys)); [exists "seed"|exists "time"]; tauto. }
    destruct (proj2 (Hdom c)) as [l Hl].
    { left. unfold base_col. destruct Hc; auto. }
    rewrite <-(Hrows c l Hl). specialize (Hlen c Hc).
    unfold col_len in Hlen. rewrite Hl in Hlen. simpl in Hlen.
    rewrite Hlen, occurrences_absent, Hss by done. lia.
  - intros c. rewrite Hdom. split.
    + intros [?|[_ ?]]; auto.
    + intros [?|?]; auto. right. split; [|done]. by destruct ss.
Qed.

Lemma single_seed_table_witness :
  nrows {| columns := {["lr" := [VInt 1]; "time" := [VFloat 6];
                        "seed" := [VInt 7]]};
           nrows := 1 |}
    = length (enumerate [(demo_training, demo_model)])
  ∧ (∀ c l, columns {| columns := {["lr" := [VInt 1]; "time" := [VFloat 6];
                                    "seed" := [VInt 7]]};
                       nrows := 1 |} !! c = Some l →
            length l = nrows {| columns := {["lr" := [VInt 1]; "time" := [VFloat 6];
                                             "seed" := [VInt 7]]};
                                nrows := 1 |})
  ∧ (∀ c, is_Some (columns {| columns := {["lr" := [VInt 1]; "time" := [VFloat 6];
                                          "seed" := [VInt 7]]};
                             nrows := 1 |} !! c)
          ↔ (base_col ["lr"] false c
             ∨ ∃ item names, item ∈ enumerate [(demo_training, demo_model)]
                 ∧ metric_names item.2.1 = Ok names ∧ metric_col names c)).
Proof.
  apply (single_seed_table demo demo_train_data demo_val_data
           (enumerate [(demo_training, demo_model)]) true "cpu" ["lr"]
           "results.pkl" [7] false None (demo_world [])
           (demo_run demo_training demo_model ["lr"] (Some [7])).1).
  - reflexivity.
  - intros [H _]. apply elem_of_cons in H as [?|?%elem_of_nil]; done.
  - vm_compute. reflexivity.
Defined.

(** ** Counting the calls of [fit] *)

Lemma calls_fit_ret {X A} (a : A) : calls_fit (X:=X) (mret a) 0.
Proof. intros w. simpl. lia. Qed.

Lemma calls_fit_lift {X A} (m : outcome A) : calls_fit (X:=X) (lift m) 0.
Proof. intros w. unfold lift. destruct m; [lia|done]. Qed.

Lemma calls_fit_print {X} (text : list string) : calls_fit (X:=X) (print text) 0.
Proof.
  intros w. unfold print, fits. simpl.
  rewrite List.filter_app, length_app. simpl. lia.
Qed.

Lemma calls_fit_call {X A} (c : callee) (ev : event) (f : X → X * reply A) :
  calls_fit (call c ev f) (if is_fit ev then 1 else 0).
Proof.
  intros w. unfold call. destruct (f (ext w)) as [x [a|e]]; simpl; [|done].
  unfold fits. rewrite List.filter_app, length_app. simpl.
  by destruct (is_fit ev).
Qed.

Lemma calls_fit_other {X A} (c : callee) (ev : event) (f : X → X * reply A) :
  is_fit ev = false → calls_fit (call c ev f) 0.
Proof. intros Hev. pose proof (calls_fit_call c ev f) as H. by rewrite Hev in H. Qed.

Lemma calls_fit_bind {X A B} (m : M X A) (f : A → M X B) (k1 k2 : nat) :
  calls_fit m k1 → (∀ a, calls_fit (f a) k2) → calls_fit (m ≫= f) (k1 + k2).
Proof.
  intros Hm Hf w. specialize (Hm w). unfold mbind, M_bind.
  destruct (m w) as [w1 [a|]]; [|done].
  specialize (Hf a w1). destruct (f a w1) as [w2 [b|]]; [lia|done].
Qed.

Lemma calls_fit_then {X A B} (m : M X A) (f : A → M X B) (k : nat) :
  calls_fit m 0 → (∀ a, calls_fit (f a) k) → calls_fit (m ≫= f) k.
Proof. intros Hm Hf. by apply (calls_fit_bind m f 0 k). Qed.

Lemma calls_fit_for_loop {X A S} (l : list A) (s : S) (body : A → S → M X S)
    (k : nat) :
  (∀ x s, calls_fit (body x s) k) →
  calls_fit (for_loop l s body) (length l * k).
Proof.
  intros Hbody. revert s. induction l as [|x l IH]; intros s; simpl.
  - apply calls_fit_ret.
  - apply calls_fit_bind; [apply Hbody|intros s'; apply IH].
Qed.

(** A step that does not call [fit]. *)
Ltac no_fit :=
  first [ apply calls_fit_ret | apply calls_fit_lift | apply calls_fit_print
        | by apply calls_fit_other ].

Lemma seed_step_fits {X} (E : collaborators X) seeds device keys wandb_params
    th mh total new_th cn names hidx tl vl ti (v : seed_loop_vars) :
  calls_fit (seed_step E seeds device keys wandb_params th mh total new_th cn
               names hidx tl vl ti v) 1.
Proof.
  unfold seed_step, call_model_class.
  apply calls_fit_then; [no_fit|intros config_params].
  apply calls_fit_then; [|intros config_params'].
  { destruct seeds; [|no_fit].
    apply calls_fit_then; [no_fit|intros _].
    apply calls_fit_then; [no_fit|intros _]. no_fit. }
  apply calls_fit_then; [no_fit|intros _].
  apply calls_fit_then; [no_fit|intros model_class].
  apply calls_fit_then; [destruct model_class; no_fit|intros net0].
  apply calls_fit_then; [no_fit|intros net].
  apply calls_fit_then; [|intros _].
  { destruct wandb_params; [|no_fit].
    apply calls_fit_then; [no_fit|intros _].
    apply calls_fit_then; [no_fit|intros _].
    apply calls_fit_then; [no_fit|intros criterion]. no_fit. }
  apply calls_fit_then; [no_fit|intros start_time].
  apply calls_fit_then; [no_fit|intros _].
  apply (calls_fit_bind _ _ 1 0); [apply calls_fit_call|intros result].
  apply calls_fit_then; [no_fit|intros end_time].
  apply calls_fit_then; [no_fit|intros tr].
  apply calls_fit_then; [no_fit|intros vr].
  apply calls_fit_then; [no_fit|intros [tr' vr']]. no_fit.
Qed.

Lemma dataloader_params_fits {X} (E : collaborators X) total :
  calls_fit (dataloader_params_of E total) 0.
Proof.
  unfold dataloader_params_of.
  match goal with
  | |- calls_fit (for_loop ?l _ _) _ =>
      replace 0%nat with (length l * 0)%nat by lia
  end.
  apply calls_fit_for_loop. intros param acc.
  apply calls_fit_then; [destruct (total !! param); no_fit|intros v]. no_fit.
Qed.

Lemma combo_step_fits {X} (E : collaborators X) train_data val_data shuffle
    device keys (ss : list Z) save wandb_params item vars :
  calls_fit (combo_step E train_data val_data shuffle device keys (Some ss) save
               wandb_params item vars) (length ss).
Proof.
  destruct train_data as [train_input train_labels],
    val_data as [val_input val_labels], item as [n_run [th mh]], vars as [dd n].
  unfold combo_step.
  apply calls_fit_then; [no_fit|intros criterion].
  apply calls_fit_then; [no_fit|intros hidx].
  apply calls_fit_then; [case_match; no_fit|intros _].
  apply calls_fit_then; [apply dataloader_params_fits|intros dataloader_params].
  apply calls_fit_then; [no_fit|intros train_data_loader].
  apply calls_fit_then; [no_fit|intros val_data_loader].
  apply calls_fit_then; [no_fit|intros _].
  apply calls_fit_then; [no_fit|intros cn].
  apply calls_fit_then; [no_fit|intros names].
  replace (length ss) with (length (enumerate ss) * 1 + 0)%nat
    by (rewrite enumerate_length; lia).
  apply calls_fit_bind; [|intros v].
  { apply calls_fit_for_loop. intros [idx ti] v. apply seed_step_fits. }
  apply calls_fit_then; [no_fit|intros dd1].
  apply calls_fit_then; [no_fit|intros seeds].
  apply calls_fit_then; [no_fit|intros dd2]. no_fit.
Qed.

(** A run of [collect_results] that returns has fitted one model for each
    combination and seed. *)
Lemma collect_results_fits {X} (E : collaborators X) train_data val_data
    iterator shuffle device keys path (ss : list Z) save wandb_params :
  calls_fit (collect_results E train_data val_data iterator shuffle device keys
               path (Some ss) save wandb_params) (length iterator * length ss).
Proof.
  unfold collect_results.
  replace (length iterator * length ss)%nat
    with (length iterator * length ss + 0)%nat by lia.
  apply calls_fit_bind; [|intros [dd n]].
  { apply calls_fit_for_loop. intros item vars. apply combo_step_fits. }
  apply calls_fit_then; [no_fit|intros df].
  apply calls_fit_then; [no_fit|intros _]. no_fit.
Qed.

(** * Further properties of the randomized search *)

(** X1: when the sampling loop ends without an exception, it has accepted
    [n_run] combinations, none when [n_run] is negative. *)
Theorem sampling_accepts_n_run {X} (E : collaborators X) fuel ms ts (n_run : Z)
    (w w' : world X) (Ms Ts : list (gmap string pyval)) :
  sampling_loop E fuel ms ts n_run 0 [] [] w = Some (w', Ok (Ms, Ts)) →
  length Ms = Z.to_nat n_run ∧ length Ts = Z.to_nat n_run.
Proof.
  intros Hrun. destruct (Z.le_gt_cases 0 n_run) as [Hpos|Hneg].
  - destruct (sampling_loop_accepts E fuel ms ts n_run 0 [] [] w w' Ms Ts)
      as [HM HT]; try done. lia.
  - assert ((0 <? n_run) = false) as Hlt by lia.
    destruct fuel; simpl in Hrun; rewrite Hlt in Hrun;
      injection Hrun as <- <- <-; simpl; lia.
Qed.

Lemma sampling_accepts_n_run_witness :
  length [({["hidden" := VInt 8]} : gmap string pyval); {["hidden" := VInt 16]};
          {["hidden" := VInt 32]}] = Z.to_nat 3
  ∧ length [({["lr" := VInt 1]} : gmap string pyval); {["lr" := VInt 2]};
            {["lr" := VInt 3]}] = Z.to_nat 3.
Proof.
  apply (sampling_accepts_n_run demo 4 model_samplers training_samplers 3
           (demo_world four_draws)
           (default (demo_world [], Ok ([], []))
              (sampling_loop demo 4 model_samplers training_samplers 3 0 [] []
                 (demo_world four_draws))).1).
  vm_compute. reflexivity.
Defined.

Lemma sampling_loop_distinct {X} (E : collaborators X) fuel ms ts n_run :
  ∀ (i : Z) (Ms Ts : list (gmap string pyval)) w w' Ms' Ts',
    length Ms = length Ts →
    NoDup (zip (dict_class <$> Ts) (dict_class <$> Ms)) →
    sampling_loop E fuel ms ts n_run i Ms Ts w = Some (w', Ok (Ms', Ts')) →
    length Ms' = length Ts'
    ∧ NoDup (zip (dict_class <$> Ts') (dict_class <$> Ms')).
Proof.
  induction fuel as [|fuel IH]; intros i Ms Ts w w' Ms' Ts' Hlen Hnd; simpl;
    destruct (i <? n_run); try done; try (by intros [= <- <- <-]).
  destruct (sample_dict E ms w) as [w1 [model_d|]]; [|done].
  destruct (sample_dict E ts w1) as [w2 [training_d|]]; [|done].
  case_match eqn:Hacc; [|by apply IH].
  apply IH.
  - rewrite !length_app. simpl. lia.
  - rewrite !fmap_app, zip_with_app by (by rewrite !length_fmap). simpl.
    apply NoDup_app. split_and!; [done| |apply NoDup_singleton].
    intros [t m] Hin [= -> ->]%list_elem_of_singleton.
    apply negb_true_iff, andb_false_iff in Hacc.
    apply elem_of_zip_l in Hin as Ht. apply elem_of_zip_r in Hin as Hm.
    destruct Hacc as [Hacc|Hacc];
      apply not_true_iff_false in Hacc; apply Hacc, np_any_dict_eq; done.
Qed.

(** X2: no two of the combinations that the randomized search hands to
    [collect_results] are equal under [==]: either their training
    dictionaries differ or their model dictionaries do. *)
Theorem sampling_accepts_distinct {X} (E : collaborators X) fuel ms ts (n_run : Z)
    (w w' : world X) (Ms Ts : list (gmap string pyval)) (i j : nat)
    (t t' m m' : gmap string pyval) :
  sampling_loop E fuel ms ts n_run 0 [] [] w = Some (w', Ok (Ms, Ts)) →
  i ≠ j →
  Ts !! i = Some t → Ms !! i = Some m →
  Ts !! j = Some t' → Ms !! j = Some m' →
  dict_eq t t' && dict_eq m m' = false.
Proof.
  intros Hrun Hij Hti Hmi Htj Hmj.
  pose proof (sampling_loop_distinct E fuel ms ts n_run 0 [] [] w w' Ms Ts
                eq_refl (NoDup_nil_2 (A:=_)) Hrun) as [_ Hnd].
  apply not_true_iff_false. intros [Ht Hm]%andb_true_iff.
  unfold dict_eq in Ht, Hm. apply bool_decide_eq_true in Ht, Hm.
  apply Hij.
  apply (NoDup_lookup _ i j (dict_class t, dict_class m) Hnd).
  - apply lookup_zip_with_Some. exists (dict_class t), (dict_class m).
    by rewrite !list_lookup_fmap, Hti, Hmi.
  - apply lookup_zip_with_Some. exists (dict_class t'), (dict_class m').
    rewrite !list_lookup_fmap, Htj, Hmj. by rewrite Ht, Hm.
Qed.

Lemma sampling_accepts_distinct_witness :
  dict_eq {["lr" := VCriterion 1 "loss"]} {["lr" := VCriterion 2 "loss"]}
  && dict_eq {["hidden" := VInt 8]} {["hidden" := VInt 8]} = false.
Proof.
  apply (sampling_accepts_distinct demo 2 model_samplers training_samplers 2
           (demo_world [VInt 8; VCriterion 1 "loss"; VInt 8; VCriterion 2 "loss"])
           (default (demo_world [], Ok ([], []))
              (sampling_loop demo 2 model_samplers training_samplers 2 0 [] []
                 (demo_world [VInt 8; VCriterion 1 "loss"; VInt 8;
                              VCriterion 2 "loss"]))).1
           [{["hidden" := VInt 8]}; {["hidden" := VInt 8]}]
           [{["lr" := VCriterion 1 "loss"]}; {["lr" := VCriterion 2 "loss"]}]
           0%nat 1%nat).
  - vm_compute. reflexivity.
  - done.
  - reflexivity.
  - reflexivity.
  - reflexivity.
  - reflexivity.
Defined.

Lemma sampling_loop_drawn {X} (E : collaborators X) fuel ms ts n_run :
  ∀ (i : Z) (Ms Ts : list (gmap string pyval)) w w' Ms' Ts',
    length Ms = length Ts →
    sampling_loop E fuel ms ts n_run i Ms Ts w = Some (w', Ok (Ms', Ts')) →
    ∃ l, zip Ms' Ts' = zip Ms Ts ++ l ∧ sublist l (draws E fuel ms ts w).
Proof.
  induction fuel as [|fuel IH]; intros i Ms Ts w w' Ms' Ts' Hlen; simpl;
    destruct (i <? n_run); try done;
    try (intros [= <- <- <-]; exists []; rewrite app_nil_r; split;
         [done|apply sublist_nil_l]).
  destruct (sample_dict E ms w) as [w1 [model_d|]]; [|done].
  destruct (sample_dict E ts w1) as [w2 [training_d|]]; [|done].
  case_match eqn:Hacc; intros Hrun.
  - apply IH in Hrun as (l & Hl & Hsub); [|rewrite !length_app; simpl; lia].
    exists ((model_d, training_d) :: l). split; [|by apply sublist_skip].
    rewrite Hl, zip_with_app by done. by rewrite <-app_assoc.
  - apply IH in Hrun as (l & Hl & Hsub); [|done].
    exists l. split; [done|by apply sublist_cons].
Qed.

(** X3: the accepted combinations are draws of the samplers, in the order in
    which they were drawn. *)
Theorem sampling_accepts_draws {X} (E : collaborators X) fuel ms ts (n_run : Z)
    (w w' : world X) (Ms Ts : list (gmap string pyval)) :
  sampling_loop E fuel ms ts n_run 0 [] [] w = Some (w', Ok (Ms, Ts)) →
  sublist (zip Ms Ts) (draws E fuel ms ts w).
Proof.
  intros Hrun.
  destruct (sampling_loop_drawn E fuel ms ts n_run 0 [] [] w w' Ms Ts)
    as (l & Hl & Hsub); [done..|].
  by rewrite Hl.
Qed.

Lemma sampling_accepts_draws_witness :
  sublist (zip [({["hidden" := VInt 8]} : gmap string pyval); {["hidden" := VInt 16]};
                {["hidden" := VInt 32]}]
               [({["lr" := VInt 1]} : gmap string pyval); {["lr" := VInt 2]};
                {["lr" := VInt 3]}])
          (draws demo 4 model_samplers training_samplers (demo_world four_draws)).
Proof.
  apply (sampling_accepts_draws demo 4 model_samplers training_samplers 3
           (demo_world four_draws)
           (default (demo_world [], Ok ([], []))
              (sampling_loop demo 4 model_samplers training_samplers 3 0 [] []
                 (demo_world four_draws))).1).
  vm_compute. reflexivity.
Defined.

(** X4: with [n_run] at most 0 the loop draws nothing and accepts nothing;
    with [n_run] at most 1 it ends after at most one turn, whatever the
    samplers return. *)
Theorem sampling_short_runs {X} (E : collaborators X) ms ts (n_run : Z)
    (w : world X) :
  (n_run ≤ 0 → ∀ fuel, sampling_loop E fuel ms ts n_run 0 [] [] w
                        = Some (w, Ok ([], [])))
  ∧ (n_run ≤ 1 → ∃ r, sampling_loop E 1 ms ts n_run 0 [] [] w = Some r).
Proof.
  split.
  - intros Hn fuel. assert ((0 <? n_run) = false) as Hlt by lia.
    destruct fuel; simpl; by rewrite Hlt.
  - intros Hn. simpl. destruct (0 <? n_run); [|eauto].
    destruct (sample_dict E ms w) as [w1 [model_d|]]; [|eauto].
    destruct (sample_dict E ts w1) as [w2 [training_d|]]; [|eauto].
    simpl. assert ((0 + 1 <? n_run) = false) as -> by lia. eauto.
Qed.

Lemma sample_loop_keys {X} (E : collaborators X) (l : list (string * pyval)) :
  ∀ (acc d : gmap string pyval) (w w' : world X),
    for_loop l acc (λ '(key, sampler) d,
      x ← call_sampler E sampler; mret (<[key := x]> d)) w = (w', Ok d) →
    (∀ k, is_Some (d !! k) ↔ (is_Some (acc !! k) ∨ k ∈ l.*1))
    ∧ log w' = log w ++ (EvSample <$> l.*2).
Proof.
  induction l as [|[key sampler] l IH]; intros acc d w w'; simpl.
  - intros [= <- <-]. rewrite app_nil_r. split; [|done].
    intros k. rewrite elem_of_nil. tauto.
  - unfold mbind at 1, M_bind at 1. unfold mbind at 1, M_bind at 1.
    destruct sampler; simpl; try done.
    unfold call. destruct (sample E id (ext w)) as [x [v|e]]; simpl; [|done].
    intros [Hd Hlog]%IH. simpl in Hlog. split.
    + intros k. rewrite Hd, lookup_insert, elem_of_cons.
      case_decide; subst; [split; eauto|]. split; intros [?|?]; auto.
      destruct H0; [congruence|auto].
    + by rewrite Hlog, <-app_assoc.
Qed.

(** X5: a dictionary drawn from a dictionary of samplers has the keys of the
    sampler dictionary, and drawing it calls every sampler once, in the order
    of the dictionary. *)
Theorem sample_dict_keys {X} (E : collaborators X) (to_sample : list (string * pyval))
    (d : gmap string pyval) (w w' : world X) :
  sample_dict E to_sample w = (w', Ok d) →
  (∀ k, is_Some (d !! k) ↔ k ∈ to_sample.*1)
  ∧ log w' = log w ++ (EvSample <$> to_sample.*2).
Proof.
  intros [Hd Hlog]%sample_loop_keys. split; [|done].
  intros k. rewrite Hd, lookup_empty. split; [intros [[? [=]]|?]; done|auto].
Qed.

Lemma sample_dict_keys_witness :
  (∀ k, is_Some (({["hidden" := VInt 8]} : gmap string pyval) !! k)
        ↔ k ∈ model_samplers.*1)
  ∧ log (sample_dict demo model_samplers (demo_world four_draws)).1
    = log (demo_world four_draws) ++ (EvSample <$> model_samplers.*2).
Proof.
  apply (sample_dict_keys demo model_samplers _ (demo_world four_draws)).
  vm_compute. reflexivity.
Defined.

(** * Further properties of [collect_results] *)

Lemma pd_DataFrame_no_rows (d : gmap string (list pyval)) :
  (∀ c l, d !! c = Some l → l = []) →
  pd_DataFrame d = Ok {| columns := d; nrows := 0 |}.
Proof.
  intros Hd. unfold pd_DataFrame.
  assert (Forall (λ n, n = 0%nat) ((length ∘ snd) <$> map_to_list d)) as Hall.
  { apply Forall_fmap, Forall_forall. intros [c l] Hin.
    apply elem_of_map_to_list in Hin. by rewrite (Hd c l Hin). }
  destruct ((length ∘ snd) <$> map_to_list d) as [|n ns]; [done|].
  apply Forall_cons in Hall as [-> Hns].
  assert (forallb (Nat.eqb 0) ns = true) as ->; [|done].
  apply forallb_forall. intros n Hn. rewrite Forall_forall in Hns.
  apply list_elem_of_In, Hns in Hn. by subst.
Qed.

Lemma collect_results_nil {X} (E : collaborators X) train_data
    val_data shuffle device keys path seeds save_loss_values wandb_params
    (w : world X) :
  collect_results E train_data val_data [] shuffle device keys path seeds
    save_loss_values wandb_params w
  = dump_and_return E (empty_table keys save_loss_values) path w.
Proof.
  unfold collect_results, dump_and_return, empty_table. simpl.
  unfold mbind, M_bind, mret, M_ret, lift, call. simpl.
  rewrite pd_DataFrame_no_rows.
  - destruct (dump E _ path (ext w)) as [x [[]|e]]; reflexivity.
  - intros c l Hl. by apply empty_columns_lookup in Hl as [_ ->].
Qed.

Lemma product_nil_r {A B} (a : list A) : product a ([] : list B) = [].
Proof. unfold product. by induction a. Qed.

(** X6: when there is no combination, nothing is built or fitted, and the
    table of the initial columns with no row is dumped and returned, whatever
    [seeds] is: for [collect_results] on an empty iterator, for a grid search
    in which one of the two lists is empty, and for a randomized search with
    [n_run] at most 0, which draws nothing. *)
Theorem no_combination_empty_table {X} (E : collaborators X) train_data val_data
    shuffle device keys path seeds save_loss_values wandb_params (w : world X) :
  collect_results E train_data val_data [] shuffle device keys path seeds
      save_loss_values wandb_params w
    = dump_and_return E (empty_table keys save_loss_values) path w
  ∧ (∀ M T : list (gmap string pyval), M = [] ∨ T = [] →
       grid_search_train_validation E train_data val_data shuffle M T keys
         device path seeds save_loss_values wandb_params w
       = dump_and_return E (empty_table keys save_loss_values) path w)
  ∧ (∀ fuel ms ts (n_run : Z), n_run ≤ 0 →
       randomized_search_train_validation E fuel train_data val_data shuffle ms
         ts keys n_run device path seeds save_loss_values wandb_params w
       = Some (dump_and_return E (empty_table keys save_loss_values) path w)).
Proof.
  split_and!.
  - apply collect_results_nil.
  - intros M T Hempty. unfold grid_search_train_validation.
    assert (product T M = []) as ->.
    { destruct Hempty as [-> | ->]; [apply product_nil_r|done]. }
    apply collect_results_nil.
  - intros fuel ms ts n_run Hn. unfold randomized_search_train_validation.
    assert (sampling_loop E fuel ms ts n_run 0 [] [] w = Some (w, Ok ([], [])))
      as ->.
    { assert ((0 <? n_run) = false) as Hlt by lia.
      destruct fuel; simpl; by rewrite Hlt. }
    f_equal. apply collect_results_nil.
Qed.

Lemma wp_then_any {X A B} (m : M X A) (f : A → M X B) (Q : B → Prop) :
  (∀ a, wp (f a) Q (λ _ _, True)) → wp (m ≫= f) Q (λ _ _, True).
Proof.
  intros Hf w. unfold mbind, M_bind.
  destruct (m w) as [w1 [a|]]; simpl; [apply Hf|done].
Qed.

Lemma combo_step_without_seeds {X} (E : collaborators X) train_data val_data
    shuffle device keys save wandb_params item vars :
  wp (combo_step E train_data val_data shuffle device keys None save
        wandb_params item vars) (λ _, False) (λ _ _, True).
Proof.
  destruct train_data as [train_input train_labels],
    val_data as [val_input val_labels], item as [n_run [th mh]], vars as [dd n].
  unfold combo_step.
  do 11 (apply wp_then_any; intros ?).
  apply wp_bind, wp_lift. done.
Qed.

(** X7: with [seeds] left at None and at least one combination,
    [collect_results] raises and returns no table: line 202 replaces the
    missing list by [range(1)], line 314 iterates [seeds] itself. *)
Theorem collect_results_without_seeds {X} (E : collaborators X) train_data
    val_data iterator shuffle device keys path save_loss_values wandb_params
    (w : world X) :
  iterator ≠ [] →
  ∃ o e, (collect_results E train_data val_data iterator shuffle device keys
            path None save_loss_values wandb_params w).2 = Raise o e.
Proof.
  intros Hne. destruct iterator as [|item rest]; [done|].
  assert (wp (collect_results E train_data val_data (item :: rest) shuffle
                device keys path None save_loss_values wandb_params)
             (λ _, False) (λ _ _, True)) as H.
  { unfold collect_results. simpl. apply wp_bind, wp_bind.
    eapply wp_mono; [apply combo_step_without_seeds|done|done]. }
  specialize (H w). destruct (collect_results _ _ _ _ _ _ _ _ _ _ _ w) as [w' [df|o e]];
    simpl in *; [done|eauto].
Qed.

Lemma collect_results_without_seeds_witness :
  ∃ o e, (collect_results demo demo_train_data demo_val_data
            (enumerate [(demo_training, demo_model)]) true "cpu" ["lr"]
            "results.pkl" None false None (demo_world [])).2 = Raise o e.
Proof.
  apply (collect_results_without_seeds demo demo_train_data demo_val_data
           (enumerate [(demo_training, demo_model)]) true "cpu" ["lr"]
           "results.pkl" false None (demo_world [])).
  discriminate.
Defined.

(** ** The columns of the saved keys *)

Lemma metric_cols_not_plain (m : string) :
  ¬ plain_col (m +:+ "_train") ∧ ¬ plain_col (m +:+ "_val").
Proof.
  split; intros (_ & _ & _ & _ & H); destruct (H m) as [? ?]; done.
Qed.

Lemma same_plain_insert (d d' : gmap string (list pyval)) (k : string) l :
  ¬ plain_col k → same_plain d d' → same_plain d (<[k := l]> d').
Proof.
  intros Hk Hd c Hc. rewrite lookup_insert_ne; [by apply Hd|].
  by intros ->.
Qed.

Lemma owp_append_keep (d0 d : gmap string (list pyval)) (k : string)
    (x : outcome pyval) :
  ¬ plain_col k → same_plain d0 d →
  owp (append_to d k x) (same_plain d0) (λ _ _, True).
Proof.
  intros Hk Hd. apply owp_append_raw; [|done].
  intros l _. destruct x; simpl; [|done]. by apply same_plain_insert.
Qed.

Lemma row_step_keeps (save : bool) (cn : string) (names : list string)
    (v : seed_loop_vars) (item : nat * Z) (d0 dd : gmap string (list pyval)) :
  same_plain d0 dd →
  owp (row_step save cn names v item dd) (same_plain d0) (λ _ _, True).
Proof.
  intros Hdd. destruct item as [i seed]. unfold row_step.
  assert (¬ plain_col "seed" ∧ ¬ plain_col "time" ∧ ¬ plain_col "train_loss"
          ∧ ¬ plain_col "val_loss") as (Hs & Ht & Htl & Hvl).
  { split_and!; intros (? & ? & ? & ? & _); done. }
  apply owp_bind. eapply owp_mono; [by apply owp_append_keep|simpl|done].
  intros d1 Hd1.
  apply owp_bind. eapply owp_mono; [by apply owp_append_keep|simpl|done].
  intros d2 Hd2.
  apply owp_bind. apply (owp_mono _ (same_plain d0) _ (λ _ _, True)); [| |done].
  { destruct save; [|done].
    apply owp_bind. eapply owp_mono; [by apply owp_append_keep|simpl|done].
    intros d3 Hd3. by apply owp_append_keep. }
  intros d3 Hd3.
  eapply owp_mono; [apply (owp_for_each (λ _ d, same_plain d0 d))| |done];
    [done| |done].
  intros done m rest d _ Hd. cbv zeta.
  destruct (metric_cols_not_plain m) as [Hmt Hmv].
  assert (∀ k d', ¬ plain_col k → same_plain d0 d' →
            same_plain d0 (if bool_decide (is_Some (d' !! k)) then d'
                           else <[k := []]> d')) as Hens.
  { intros k d' Hk Hd'. case_bool_decide; [done|by apply same_plain_insert]. }
  apply owp_bind. eapply owp_mono; [apply owp_append_keep; auto|simpl|done].
  intros d4 Hd4. apply owp_append_keep; auto.
Qed.

Lemma rows_keep (save : bool) (cn : string) (names : list string)
    (v : seed_loop_vars) (ss : list Z) (dd : gmap string (list pyval)) :
  owp (for_each (enumerate ss) dd (row_step save cn names v)) (same_plain dd)
      (λ _ _, True).
Proof.
  eapply owp_mono; [apply (owp_for_each (λ _ d, same_plain dd d))| |done];
    [done| |done].
  intros done item rest d _ Hd. by apply row_step_keeps.
Qed.

(** Lines 311-312 append to the column of a key, once for each time the key
    occurs, the value of the key in the merged dictionary. *)
Lemma keys_content (keys : list string) (total : gmap string pyval)
    (dd : gmap string (list pyval)) :
  owp (for_each keys dd (λ key d, append_to d key (getitem total key)))
      (λ dd', ∀ c l, dd !! c = Some l →
                ∃ vs, dd' !! c = Some (l ++ vs)
                      ∧ length vs = occurrences c keys
                      ∧ ∀ v, v ∈ vs → total !! c = Some v)
      (λ _ _, True).
Proof.
  apply (owp_for_each
           (λ done d, ∀ c l, dd !! c = Some l →
              ∃ vs, d !! c = Some (l ++ vs) ∧ length vs = occurrences c done
                    ∧ ∀ v, v ∈ vs → total !! c = Some v)).
  { intros c l Hl. exists []. rewrite app_nil_r. split_and!; [done..|].
    by intros v ?%elem_of_nil. }
  intros done key rest d _ Hd.
  apply owp_append_raw; [|done]. intros lk Hlk.
  apply owp_getitem; [|done]. intros x Hx c l Hl.
  destruct (Hd c l Hl) as (vs & Hvs & Hlen & Hval).
  rewrite occurrences_snoc. destruct (decide (c = key)) as [->|Hne].
  - rewrite lookup_insert_eq. assert (lk = l ++ vs) as -> by congruence.
    exists (vs ++ [x]). rewrite app_assoc, length_app. simpl.
    split_and!; [done|lia|].
    intros v [?| ->%list_elem_of_singleton]%elem_of_app; auto.
  - rewrite lookup_insert_ne by done. exists vs. split_and!; [done|lia|done].
Qed.

Lemma combo_step_content {X} (E : collaborators X) train_data val_data shuffle
    device keys (ss : list Z) save wandb_params n_run th mh
    (dd : gmap string (list pyval)) (n : nat) :
  wp (combo_step E train_data val_data shuffle device keys (Some ss) save
        wandb_params (n_run, (th, mh)) (dd, n))
     (λ s, ∀ c l, plain_col c → dd !! c = Some l →
             ∃ vs, s.1 !! c = Some (l ++ vs)
                   ∧ length vs = occurrences c keys
                   ∧ ∀ v, v ∈ vs → (mh ∪ th) !! c = Some v)
     (λ _ _, True).
Proof.
  destruct train_data as [train_input train_labels],
    val_data as [val_input val_labels].
  unfold combo_step.
  do 10 (apply wp_then_any; intros ?).
  apply wp_bind, wp_lift.
  eapply owp_mono; [apply keys_content| |done]. intros dd1 Hdd1.
  apply wp_bind, wp_lift. simpl.
  apply wp_bind, wp_lift.
  eapply owp_mono; [apply rows_keep| |done]. intros dd2 Hdd2.
  apply wp_ret. simpl. intros c l Hc Hl.
  destruct (Hdd1 c l Hl) as (vs & Hvs & ? & ?).
  exists vs. by rewrite (Hdd2 c Hc).
Qed.

Lemma occurrences_once (c : string) (keys : list string) :
  NoDup keys → c ∈ keys → occurrences c keys = 1%nat.
Proof.
  unfold occurrences. induction keys as [|k keys IH]; intros Hnd Hin.
  - by apply elem_of_nil in Hin.
  - apply NoDup_cons in Hnd as [Hk Hnd].
    apply elem_of_cons in Hin as [->|Hin].
    + rewrite filter_cons_True by done. simpl. f_equal.
      apply (occurrences_absent k keys Hk).
    + rewrite filter_cons_False; [by apply IH|]. intros ->. done.
Qed.

Lemma combo_loop_content {X} (E : collaborators X) train_data val_data shuffle
    device keys (ss : list Z) save wandb_params iterator (c : string) :
  plain_col c → NoDup keys → c ∈ keys →
  wp (for_loop iterator (empty_columns keys save, 0%nat)
        (combo_step E train_data val_data shuffle device keys (Some ss) save
           wandb_params))
     (λ s, ∃ col, s.1 !! c = Some col
                  ∧ Forall2 (λ item v, (item.2.2 ∪ item.2.1) !! c = Some v)
                      iterator col)
     (λ _ _, True).
Proof.
  intros Hc Hnd Hin.
  apply (wp_for_loop
           (λ done s, ∃ col, s.1 !! c = Some col
              ∧ Forall2 (λ item v, (item.2.2 ∪ item.2.1) !! c = Some v)
                  done col)).
  { exists []. split; [|constructor]. apply empty_columns_lookup.
    split; [by left|done]. }
  intros done [n_run [th mh]] rest [dd n] _ (col & Hcol & Hall). simpl in *.
  eapply wp_mono; [apply (combo_step_content E)| |done].
  intros [dd' n'] Hdd'. simpl in *.
  destruct (Hdd' c col Hc Hcol) as (vs & Hvs & Hlen & Hval).
  rewrite (occurrences_once c keys Hnd Hin) in Hlen.
  destruct vs as [|v [|? ?]]; simplify_eq/=.
  exists (col ++ [v]). split; [done|].
  apply Forall2_app; [done|]. constructor; [|constructor].
  simpl. apply Hval. by left.
Qed.

(** X8: in a table that [collect_results] returns, the column of a saved key
    (one that occurs once among the keys to save and is not the name of a
    fixed or metric column) holds, for each combination in order, the value
    of the key in [{**training_hyperparameters, **model_hyperparameters}]:
    the model's value when both dictionaries have the key. *)
Theorem saved_key_column {X} (E : collaborators X) train_data val_data iterator
    shuffle device keys path (ss : list Z) save_loss_values wandb_params
    (w w' : world X) (df : DataFrame) (c : string) :
  plain_col c → NoDup keys → c ∈ keys →
  collect_results E train_data val_data iterator shuffle device keys path
    (Some ss) save_loss_values wandb_params w = (w', Ok df) →
  ∃ col, columns df !! c = Some col
         ∧ Forall2 (λ item v, (item.2.2 ∪ item.2.1) !! c = Some v) iterator col.
Proof.
  intros Hc Hnd Hin Hrun.
  assert (wp (collect_results E train_data val_data iterator shuffle device
                keys path (Some ss) save_loss_values wandb_params)
             (λ df, ∃ col, columns df !! c = Some col
                ∧ Forall2 (λ item v, (item.2.2 ∪ item.2.1) !! c = Some v)
                    iterator col) (λ _ _, True)) as H.
  { unfold collect_results. apply wp_bind.
    eapply wp_mono; [by apply (combo_loop_content E)| |done].
    intros [dd n] (col & Hcol & Hall). simpl in Hcol.
    apply wp_bind, wp_lift.
    destruct (pd_DataFrame dd) as [df'|] eqn:Hdf; simpl; [|done].
    apply pd_DataFrame_columns in Hdf.
    apply wp_then_any. intros _. apply wp_ret. exists col. by rewrite Hdf. }
  specialize (H w). by rewrite Hrun in H.
Qed.

Lemma plain_lr : plain_col "lr".
Proof.
  split_and!; try discriminate.
  intros m. destruct m as [|a [|b [|c m]]]; split; discriminate.
Qed.

Lemma saved_key_column_witness :
  ∃ col, columns {| columns := {["lr" := [VInt 1]; "time" := [VFloat 6];
                                 "seed" := [VInt 7]]};
                    nrows := 1 |} !! "lr" = Some col
         ∧ Forall2 (λ item v, (item.2.2 ∪ item.2.1) !! "lr" = Some v)
             (enumerate [(demo_training, demo_model)]) col.
Proof.
  apply (saved_key_column demo demo_train_data demo_val_data
           (enumerate [(demo_training, demo_model)]) true "cpu" ["lr"]
           "results.pkl" [7] false None (demo_world [])
           (demo_run demo_training demo_model ["lr"] (Some [7])).1).
  - apply plain_lr.
  - apply NoDup_singleton.
  - by left.
  - vm_compute. reflexivity.
Defined.

(** X9: with two or more seeds, at least one combination and a saved key
    (one that occurs once among the keys to save and is not the name of a
    fixed or metric column), [collect_results] never returns a table: the
    column of the key gets one entry per combination, the column 'time' at
    least one per combination and seed. *)
Theorem several_seeds_never_return {X} (E : collaborators X) train_data val_data
    iterator shuffle device keys path (ss : list Z) save_loss_values
    wandb_params (w : world X) (c : string) :
  (2 ≤ length ss)%nat → iterator ≠ [] →
  plain_col c → NoDup keys → c ∈ keys →
  ∃ o e, (collect_results E train_data val_data iterator shuffle device keys
            path (Some ss) save_loss_values wandb_params w).2 = Raise o e.
Proof.
  intros Hss Hit Hc Hnd Hin.
  destruct (collect_results _ _ _ _ _ _ _ _ _ _ _ w) as [w' [df|o e]] eqn:Hrun;
    simpl; [exfalso|eauto].
  pose proof (collect_results_spec E train_data val_data iterator shuffle
                device keys path ss save_loss_values wandb_params w) as H.
  rewrite Hrun in H. destruct H as (dd & [Hdom Hlen] & Hdf).
  apply pd_DataFrame_spec in Hdf as [Hcols Hrows].
  assert (wp (for_loop iterator (empty_columns keys save_loss_values, 0%nat)
                (combo_step E train_data val_data shuffle device keys (Some ss)
                   save_loss_values wandb_params))
             (λ s, ∃ col, s.1 !! c = Some col
                ∧ Forall2 (λ item v, (item.2.2 ∪ item.2.1) !! c = Some v)
                    iterator col) (λ _ _, True)) as Hcontent
    by (by apply (combo_loop_content E)).
  specialize (Hcontent w). unfold collect_results in Hrun.
  unfold mbind at 1, M_bind at 1 in Hrun.
  destruct (for_loop _ _ _ w) as [w1 [[dd' n]|]]; [|done].
  simpl in Hcontent. destruct Hcontent as (col & Hcol & Hall).
  unfold mbind at 1, M_bind at 1, lift in Hrun.
  destruct (pd_DataFrame dd') as [df'|] eqn:Hdf'; [|done].
  apply pd_DataFrame_columns in Hdf' as Hcols'.
  unfold mbind, M_bind, call, mret, M_ret in Hrun.
  destruct (dump E df' path (ext w1)) as [x [[]|]]; simpl in Hrun; [|done].
  injection Hrun as _ ->. assert (dd' = dd) as -> by congruence.
  apply Forall2_length in Hall.
  destruct (proj2 (Hdom "time")) as [lt Hlt]; [left; right; by left|].
  pose proof (Hrows c col Hcol) as H1. pose proof (Hrows "time" lt Hlt) as H2.
  specialize (Hlen "time" (or_introl eq_refl)).
  unfold col_len in Hlen. rewrite Hlt in Hlen. simpl in Hlen.
  destruct iterator; [done|]. simpl in *. nia.
Qed.

Lemma several_seeds_never_return_witness :
  ∃ o e, (collect_results demo demo_train_data demo_val_data
            (enumerate [(demo_training, demo_model)]) true "cpu" ["lr"]
            "results.pkl" (Some [0; 1]) false None (demo_world [])).2 = Raise o e.
Proof.
  apply (several_seeds_never_return demo demo_train_data demo_val_data
           (enumerate [(demo_training, demo_model)]) true "cpu" ["lr"]
           "results.pkl" [0; 1] false None (demo_world []) "lr").
  - simpl. lia.
  - discriminate.
  - apply plain_lr.
  - apply NoDup_singleton.
  - by left.
Defined.

Lemma one_seed_rows {X} (E : collaborators X) train_data val_data iterator
    shuffle device keys path (ss : list Z) save wandb_params (w w' : world X)
    (df : DataFrame) :
  length ss = 1%nat → ¬ ("time" ∈ keys ∧ "seed" ∈ keys) →
  collect_results E train_data val_data iterator shuffle device keys path
    (Some ss) save wandb_params w = (w', Ok df) →
  nrows df = length iterator.
Proof.
  intros Hss Hkeys Hrun.
  pose proof (collect_results_spec E train_data val_data iterator shuffle
                device keys path ss save wandb_params w) as H.
  rewrite Hrun in H. destruct H as (dd & [Hdom Hlen] & Hdf).
  apply pd_DataFrame_spec in Hdf as [Hcols Hrows].
  assert (∃ c, (c = "time" ∨ c = "seed") ∧ c ∉ keys) as (c & Hc & Hin).
  { destruct (decide ("time" ∈ keys)); [exists "seed"|exists "time"]; tauto. }
  destruct (proj2 (Hdom c)) as [l Hl].
  { left. unfold base_col. destruct Hc; auto. }
  rewrite <-(Hrows c l Hl). specialize (Hlen c Hc).
  unfold col_len in Hlen. rewrite Hl in Hlen. simpl in Hlen.
  rewrite Hlen, occurrences_absent, Hss by done. lia.
Qed.

(** X10: a randomized search with one seed that returns a table returns one
    with [n_run] rows (none when [n_run] is negative), provided 'time' and
    'seed' are not both among the keys to save. *)
Theorem randomized_search_rows {X} (E : collaborators X) fuel train_data
    val_data shuffle ms ts keys (n_run : Z) device path (ss : list Z)
    save_loss_values wandb_params (w w' : world X) (df : DataFrame) :
  length ss = 1%nat → ¬ ("time" ∈ keys ∧ "seed" ∈ keys) →
  randomized_search_train_validation E fuel train_data val_data shuffle ms ts
    keys n_run device path (Some ss) save_loss_values wandb_params w
  = Some (w', Ok df) →
  nrows df = Z.to_nat n_run.
Proof.
  intros Hss Hkeys. unfold randomized_search_train_validation.
  destruct (sampling_loop E fuel ms ts n_run 0 [] [] w)
    as [[w1 [[Ms Ts]|]]|] eqn:Hloop; [|done..].
  intros [= Hrun]. apply (one_seed_rows E) in Hrun; [|done..].
  rewrite Hrun, enumerate_length, length_zip_with.
  destruct (Z.le_gt_cases 0 n_run) as [Hpos|Hneg].
  - destruct (sampling_loop_accepts E fuel ms ts n_run 0 [] [] w w1 Ms Ts)
      as [HM HT]; try done. lia.
  - assert ((0 <? n_run) = false) as Hlt by lia.
    destruct fuel; simpl in Hloop; rewrite Hlt in Hloop;
      injection Hloop as <- <- <-; simpl; lia.
Qed.

Lemma randomized_search_rows_witness :
  nrows {| columns := {["hidden" := [VInt 8; VInt 16];
                        "time" := [VFloat 6; VFloat 6];
                        "seed" := [VInt 7; VInt 7]]};
           nrows := 2 |} = Z.to_nat 2.
Proof.
  apply (randomized_search_rows demo 4 demo_train_data demo_val_data true
           [("model_class", VCallable "net"); ("hidden", VCallable "choose_hidden")]
           [("criterion", VCallable "choose_criterion");
            ("batch_size", VCallable "choose_batch_size")]
           ["hidden"] 2 "cpu" "results.pkl" [7] false None
           (demo_world [VCallable "Net"; VInt 8; VCriterion 1 "loss"; VInt 32;
                        VCallable "Net"; VInt 16; VCriterion 1 "loss"; VInt 32])
           (default (demo_world [], Raise Own TypeError)
              (randomized_search_train_validation demo 4 demo_train_data
                 demo_val_data true
                 [("model_class", VCallable "net"); ("hidden", VCallable "choose_hidden")]
                 [("criterion", VCallable "choose_criterion");
                  ("batch_size", VCallable "choose_batch_size")]
                 ["hidden"] 2 "cpu" "results.pkl" (Some [7]) false None
                 (demo_world [VCallable "Net"; VInt 8; VCriterion 1 "loss"; VInt 32;
                              VCallable "Net"; VInt 16; VCriterion 1 "loss"; VInt 32]))).1).
  - reflexivity.
  - intros [H _]. apply elem_of_cons in H as [?|?%elem_of_nil]; done.
  - vm_compute. reflexivity.
Defined.

(** * Further properties of wrappers.py *)

Lemma occurs_app (c : Ascii.ascii) (a b : string) :
  occurs c (a +:+ b) = occurs c a || occurs c b.
Proof.
  induction a as [|x a IH]; [done|].
  change (String x a +:+ b) with (String x (a +:+ b)). simpl.
  by rewrite IH, orb_assoc.
Qed.

Lemma split_on_absent (sep : Ascii.ascii) (s : string) :
  occurs sep s = false → split_on sep s = [s].
Proof.
  induction s as [|x s IH]; [done|]. simpl.
  intros [Hx Hs]%orb_false_iff. by rewrite Hx, IH.
Qed.

Lemma split_on_app (sep : Ascii.ascii) (a b : string) :
  occurs sep a = false →
  split_on sep (a +:+ String sep b) = a :: split_on sep b.
Proof.
  induction a as [|x a IH].
  - intros _. change ("" +:+ String sep b) with (String sep b). simpl.
    by rewrite Ascii.eqb_refl.
  - change (String x a +:+ String sep b) with (String x (a +:+ String sep b)).
    simpl. intros [Hx Ha]%orb_false_iff. by rewrite Hx, IH.
Qed.

Lemma split_on_present (sep : Ascii.ascii) (s : string) :
  occurs sep s = true → ∃ a b rest, split_on sep s = a :: b :: rest.
Proof.
  induction s as [|x s IH]; [done|]. simpl.
  destruct (Ascii.eqb x sep) eqn:Hx; simpl.
  - intros _. destruct s as [|y s]; simpl; [by eexists _, _, _|].
    destruct (Ascii.eqb y sep); [by eexists _, _, _|].
    destruct (split_on sep s); by eexists _, _, _.
  - intros (a & b & rest & ->)%IH. by eexists _, _, _.
Qed.

Lemma split_on_last (sep : Ascii.ascii) (a b : string) :
  occurs sep b = false →
  ∃ first rest, split_on sep (a +:+ String sep b) = first :: rest
                ∧ last rest = Some b.
Proof.
  intros Hb. induction a as [|x a (first & rest & IH & Hlast)].
  - change ("" +:+ String sep b) with (String sep b). simpl.
    rewrite Ascii.eqb_refl, split_on_absent by done. by eexists _, _.
  - change (String x a +:+ String sep b) with (String x (a +:+ String sep b)).
    simpl. rewrite IH. destruct (Ascii.eqb x sep).
    + exists "", (first :: rest). split; [done|].
      destruct rest; [done|]. done.
    + by exists (String x first), rest.
Qed.

Lemma py_index_lookup {A} (l : list A) (i : nat) (x : A) :
  l !! i = Some x → py_index l (Z.of_nat i) = Ok x.
Proof.
  intros Hx. unfold py_index. apply lookup_lt_Some in Hx as Hlt.
  assert ((Z.of_nat i <? 0) = false) as -> by lia.
  assert ((0 <=? Z.of_nat i) = true) as -> by lia.
  assert ((Z.of_nat i <? Z.of_nat (length l)) = true) as -> by lia.
  simpl. by rewrite Nat2Z.id, Hx.
Qed.

Lemma py_index_short {A} (l : list A) (i : nat) :
  (length l ≤ i)%nat → py_index l (Z.of_nat i) = Raise Own IndexError.
Proof.
  intros Hle. unfold py_index.
  assert ((Z.of_nat i <? 0) = false) as -> by lia.
  assert ((Z.of_nat i <? Z.of_nat (length l)) = false) as -> by lia.
  by rewrite andb_false_r.
Qed.

Lemma py_index_last {A} (l : list A) (x : A) :
  last l = Some x → py_index l (-1) = Ok x.
Proof.
  intros Hx. unfold py_index. rewrite last_lookup in Hx.
  apply lookup_lt_Some in Hx as Hlt. simpl.
  assert ((0 <=? -1 + Z.of_nat (length l)) = true) as -> by lia.
  assert ((-1 + Z.of_nat (length l) <? Z.of_nat (length l)) = true) as -> by lia.
  simpl. replace (Z.to_nat (-1 + Z.of_nat (length l))) with (pred (length l)) by lia.
  by rewrite Hx.
Qed.

(** X11: building an OptimizerWrapper succeeds exactly when [repr] of the
    constructor contains a single quote, as the [repr] of a class does; for
    a callable without one (a function, a lambda) it raises
    IndexError. *)
Theorem optimizer_wrapper_init_needs_quote {N Opt : Type}
    (C : OptimizerWrapper.constructor N Opt) (identifier : string)
    (P : option (gmap string pyval)) :
  (occurs "'" (OptimizerWrapper.repr C) = false →
   OptimizerWrapper.init C identifier P = Raise Own IndexError)
  ∧ (occurs "'" (OptimizerWrapper.repr C) = true →
     ∃ w, OptimizerWrapper.init C identifier P = Ok w).
Proof.
  unfold OptimizerWrapper.init. split.
  - intros Hq. rewrite split_on_absent by done.
    by rewrite (py_index_short _ 1%nat).
  - intros (a & quoted & rest & ->)%split_on_present.
    rewrite (py_index_lookup _ 1%nat quoted) by done. simpl.
    assert (∃ x, last (split_on "." quoted) = Some x) as [x Hx].
    { destruct (split_on "." quoted) as [|y l] eqn:Hs.
      - destruct quoted; simpl in Hs; repeat case_match; done.
      - destruct (last (y :: l)) eqn:Hl; [eauto|].
        by apply last_None in Hl. }
    rewrite (py_index_last _ x Hx). simpl. eauto.
Qed.

(** X12: for a class whose [repr] is [<class 'module.path.Name'>] the name of
    the wrapper is [Name], followed by a space and the identifier when the
    identifier is not empty. *)
Theorem optimizer_wrapper_name {N Opt : Type}
    (C : OptimizerWrapper.constructor N Opt) (identifier : string)
    (P : option (gmap string pyval)) (w : OptimizerWrapper.t N Opt)
    (before module name after : string) :
  OptimizerWrapper.repr C
    = before +:+ String "'" (module +:+ String "." (name +:+ String "'" after)) →
  occurs "'" before = false → occurs "'" module = false →
  occurs "'" name = false → occurs "." name = false →
  OptimizerWrapper.init C identifier P = Ok w →
  OptimizerWrapper.str w
    = if str_truthy identifier then name +:+ " " +:+ identifier else name.
Proof.
  intros Hrepr Hb Hm Hn Hd. unfold OptimizerWrapper.init.
  rewrite Hrepr, split_on_app by done.
  assert (module +:+ String "." (name +:+ String "'" after)
          = (module +:+ String "." name) +:+ String "'" after) as ->.
  { clear. induction module as [|x m IH]; simpl.
    - done.
    - change (String x m +:+ ?s) with (String x (m +:+ s)). by rewrite IH. }
  rewrite split_on_app.
  2: { rewrite occurs_app. simpl. by rewrite Hm, Hn. }
  rewrite (py_index_lookup _ 1%nat (module +:+ String "." name)) by done.
  simpl. destruct (split_on_last "." module name Hd) as (first & rest & -> & Hl).
  rewrite (py_index_last _ name).
  2: { destruct rest; [done|]. done. }
  simpl. by intros [= <-].
Qed.

Lemma optimizer_wrapper_name_witness :
  OptimizerWrapper.str
    {| OptimizerWrapper.name := "Adam fast";
       OptimizerWrapper.optimizer_constructor := adam;
       OptimizerWrapper.optimizer_partial_params := ∅ |}
  = if str_truthy "fast" then "Adam" +:+ " " +:+ "fast" else "Adam".
Proof.
  apply (optimizer_wrapper_name adam "fast" None _ "<class " "torch.optim.adam"
           "Adam" ">"); reflexivity.
Defined.

(** X13: the result of calling a MultyHeadCriterion depends only on the keys
    of [loss_functions]: the loss functions and [loss_weights] are never
    used; with an empty dictionary the result is what [torch.sum] gives on
    [torch.stack] of the empty list. *)
Theorem multy_head_ignores_losses_and_weights {V O : Type}
    (torch_stack : list O → reply O) (torch_sum : O → reply O)
    (weights_times weights_times' : list Z → O → reply O)
    (self self' : MultyHeadCriterion.t V O)
    (predicted_labels target_labels : string → reply V) :
  ((MultyHeadCriterion.loss_functions self).*1
     = (MultyHeadCriterion.loss_functions self').*1 →
   MultyHeadCriterion.call torch_stack torch_sum weights_times self
     predicted_labels target_labels
   = MultyHeadCriterion.call torch_stack torch_sum weights_times' self'
       predicted_labels target_labels)
  ∧ (MultyHeadCriterion.loss_functions self = [] →
     MultyHeadCriterion.call torch_stack torch_sum weights_times self
       predicted_labels target_labels
     = (stacked ← invoke Torch (torch_stack []); invoke Torch (torch_sum stacked))).
Proof.
  unfold MultyHeadCriterion.call. split.
  - intros ->. by destruct (for_each _ _ _).
  - intros ->. simpl. destruct (torch_stack []); simpl; [|done].
    by destruct (torch_sum a).
Qed.

(** * What a run calls *)

Lemma quiet_ret {X A} p (a : A) : quiet (X:=X) p (mret a).
Proof. intros w. done. Qed.

Lemma quiet_lift {X A} p (m : outcome A) : quiet (X:=X) p (lift m).
Proof. intros w. done. Qed.

Lemma quiet_print {X} p (text : list string) :
  p (EvPrint text) = false → quiet (X:=X) p (print text).
Proof.
  intros Hp w. unfold print. simpl. rewrite List.filter_app. simpl.
  by rewrite Hp, app_nil_r.
Qed.

Lemma quiet_call {X A} p (c : callee) (ev : event) (f : X → X * reply A) :
  p ev = false → quiet p (call c ev f).
Proof.
  intros Hp w. unfold call. destruct (f (ext w)) as [x r]. simpl.
  rewrite List.filter_app. simpl. by rewrite Hp, app_nil_r.
Qed.

Lemma quiet_bind {X A B} p (m : M X A) (f : A → M X B) :
  quiet p m → (∀ a, quiet p (f a)) → quiet p (m ≫= f).
Proof.
  intros Hm Hf w. specialize (Hm w). unfold mbind, M_bind.
  destruct (m w) as [w1 [a|]]; simpl in *; [|done].
  by rewrite (Hf a w1).
Qed.

Lemma quiet_for_loop {X A S} p (l : list A) (s : S) (body : A → S → M X S) :
  (∀ x s, quiet p (body x s)) → quiet p (for_loop l s body).
Proof.
  intros Hbody. revert s. induction l as [|x l IH]; intros s; simpl.
  - apply quiet_ret.
  - apply quiet_bind; [apply Hbody|intros s'; apply IH].
Qed.

(** Steps through a run that makes none of the calls selected. *)
Ltac quiet_steps :=
  repeat first
    [ apply quiet_ret | apply quiet_lift | by apply quiet_print
    | by apply quiet_call
    | apply quiet_bind; [|intros ?]
    | apply quiet_for_loop; intros ? ?
    | match goal with
      | |- quiet _ (match ?x with _ => _ end) => destruct x
      | |- quiet _ (let '(_, _) := ?x in _) => destruct x
      | |- quiet _ ((let '(_, _) := ?x in _) _) => destruct x
      | |- quiet _ (if ?b then _ else _) => destruct b
      end ].

Lemma combo_step_no_dump {X} (E : collaborators X) train_data val_data shuffle
    device keys seeds save wandb_params item vars :
  quiet is_dump (combo_step E train_data val_data shuffle device keys seeds save
                   wandb_params item vars).
Proof.
  destruct train_data as [train_input train_labels],
    val_data as [val_input val_labels], item as [n_run [th mh]], vars as [dd n].
  unfold combo_step, dataloader_params_of, seed_step, call_model_class.
  quiet_steps.
Qed.

(** X14: when [collect_results] raises before the dump, nothing has been
    dumped: a failure in any combination loses the results of all of them. *)
Theorem nothing_dumped_on_failure {X} (E : collaborators X) train_data val_data
    iterator shuffle device keys path seeds save_loss_values wandb_params
    (w w' : world X) (o : origin) (e : exn_class) :
  collect_results E train_data val_data iterator shuffle device keys path seeds
    save_loss_values wandb_params w = (w', Raise o e) →
  o ≠ From Joblib →
  List.filter is_dump (log w') = List.filter is_dump (log w).
Proof.
  unfold collect_results. intros Hrun Ho.
  assert (quiet is_dump
            (for_loop iterator (empty_columns keys save_loss_values, 0%nat)
               (combo_step E train_data val_data shuffle device keys seeds
                  save_loss_values wandb_params))) as Hloop.
  { apply quiet_for_loop. intros item vars. apply combo_step_no_dump. }
  specialize (Hloop w). unfold mbind at 1, M_bind at 1 in Hrun.
  destruct (for_loop _ _ _ w) as [w1 [[dd n]|]]; simpl in Hloop.
  - unfold mbind at 1, M_bind at 1, lift in Hrun.
    destruct (pd_DataFrame dd) as [df|]; [|by injection Hrun as <- _ _].
    unfold mbind, M_bind, call, mret, M_ret in Hrun.
    destruct (dump E df path (ext w1)) as [x [[]|]]; simpl in Hrun; [done|].
    by injection Hrun as _ <- _.
  - by injection Hrun as <- _ _.
Qed.

Lemma nothing_dumped_on_failure_witness :
  List.filter is_dump
    (log (demo_run demo_training demo_model ["lr"] (Some [0; 1])).1)
  = List.filter is_dump (log (demo_world [])).
Proof.
  apply (nothing_dumped_on_failure demo demo_train_data demo_val_data
           (enumerate [(demo_training, demo_model)]) true "cpu" ["lr"]
           "results.pkl" (Some [0; 1]) false None (demo_world [])
           (demo_run demo_training demo_model ["lr"] (Some [0; 1])).1
           (From Pandas) ValueError).
  - vm_compute. reflexivity.
  - discriminate.
Defined.

Lemma calls_quiet {X A} p (m : M X A) : quiet p m → calls p m 0.
Proof.
  intros Hm w. specialize (Hm w). destruct (m w) as [w' [a|]]; [|done].
  simpl in Hm. rewrite Hm. lia.
Qed.

Lemma calls_one {X A} p (c : callee) (ev : event) (f : X → X * reply A) :
  p ev = true → calls p (call c ev f) 1.
Proof.
  intros Hp w. unfold call. destruct (f (ext w)) as [x [a|e]]; simpl; [|done].
  rewrite List.filter_app, length_app. simpl. by rewrite Hp.
Qed.

Lemma calls_bind {X A B} p (m : M X A) (f : A → M X B) (k1 k2 : nat) :
  calls p m k1 → (∀ a, calls p (f a) k2) → calls p (m ≫= f) (k1 + k2).
Proof.
  intros Hm Hf w. specialize (Hm w). unfold mbind, M_bind.
  destruct (m w) as [w1 [a|]]; [|done].
  specialize (Hf a w1). destruct (f a w1) as [w2 [b|]]; [lia|done].
Qed.

Lemma calls_for_loop {X A S} p (l : list A) (s : S) (body : A → S → M X S)
    (k : nat) :
  (∀ x s, calls p (body x s) k) → calls p (for_loop l s body) (length l * k).
Proof.
  intros Hbody. revert s. induction l as [|x l IH]; intros s; simpl.
  - apply calls_quiet, quiet_ret.
  - apply calls_bind; [apply Hbody|intros s'; apply IH].
Qed.

Lemma calls_then {X A B} p (m : M X A) (f : A → M X B) (k : nat) :
  quiet p m → (∀ a, calls p (f a) k) → calls p (m ≫= f) k.
Proof. intros Hm Hf. by apply (calls_bind p m f 0 k); [apply calls_quiet|]. Qed.

(** A part of a run that makes none of the calls selected. *)
Ltac calls_none := apply calls_then; [quiet_steps|intros ?].

Lemma combo_step_creates {X} (E : collaborators X) train_data val_data shuffle
    device keys seeds save wandb_params item vars :
  calls is_create (combo_step E train_data val_data shuffle device keys seeds
                     save wandb_params item vars) 2.
Proof.
  destruct train_data as [train_input train_labels],
    val_data as [val_input val_labels], item as [n_run [th mh]], vars as [dd n].
  unfold combo_step, dataloader_params_of.
  do 4 calls_none.
  apply (calls_bind _ _ _ 1 1); [by apply calls_one|intros train_data_loader].
  apply (calls_bind _ _ _ 1 0); [by apply calls_one|intros val_data_loader].
  apply calls_quiet. unfold seed_step, call_model_class. quiet_steps.
Qed.

Lemma seed_step_models {X} (E : collaborators X) seeds device keys wandb_params
    th mh total new_th cn names hidx tl vl ti (v : seed_loop_vars) :
  calls is_model (seed_step E seeds device keys wandb_params th mh total new_th
                    cn names hidx tl vl ti v) 1.
Proof.
  unfold seed_step, call_model_class.
  do 4 calls_none.
  apply (calls_bind _ _ _ 1 0).
  - destruct a2; try (intros w; done). by apply calls_one.
  - intros net. apply calls_quiet. quiet_steps.
Qed.

Lemma combo_step_models {X} (E : collaborators X) train_data val_data shuffle
    device keys (ss : list Z) save wandb_params item vars :
  calls is_model (combo_step E train_data val_data shuffle device keys (Some ss)
                    save wandb_params item vars) (length ss).
Proof.
  destruct train_data as [train_input train_labels],
    val_data as [val_input val_labels], item as [n_run [th mh]], vars as [dd n].
  unfold combo_step, dataloader_params_of.
  do 9 calls_none.
  assert (length ss = length (enumerate ss) * 1 + 0)%nat as ->
    by (rewrite enumerate_length; lia).
  apply (calls_bind is_model _ _ (length (enumerate ss) * 1) 0);
    [|intros v; apply calls_quiet; quiet_steps].
  apply calls_for_loop. intros [idx ti] v. apply seed_step_models.
Qed.

(** X15: in a run of [collect_results] that returns, the dataloader builder
    was called twice for every combination, whatever the number of seeds, and
    a model was built and fitted once for every combination and seed. *)
Theorem builds_per_combination {X} (E : collaborators X) train_data val_data
    iterator shuffle device keys path (ss : list Z) save_loss_values
    wandb_params (w w' : world X) (df : DataFrame) :
  collect_results E train_data val_data iterator shuffle device keys path
    (Some ss) save_loss_values wandb_params w = (w', Ok df) →
  length (List.filter is_create (log w'))
    = (length (List.filter is_create (log w)) + 2 * length iterator)%nat
  ∧ length (List.filter is_model (log w'))
    = (length (List.filter is_model (log w)) + length iterator * length ss)%nat
  ∧ fits (log w') = (fits (log w) + length iterator * length ss)%nat.
Proof.
  intros Hrun.
  assert (calls is_create
            (collect_results E train_data val_data iterator shuffle device keys
               path (Some ss) save_loss_values wandb_params)
            (length iterator * 2 + 0)) as Hc.
  { unfold collect_results. apply calls_bind.
    - apply calls_for_loop. intros item vars. apply combo_step_creates.
    - intros [dd n]. apply calls_quiet. quiet_steps. }
  assert (calls is_model
            (collect_results E train_data val_data iterator shuffle device keys
               path (Some ss) save_loss_values wandb_params)
            (length iterator * length ss + 0)) as Hm.
  { unfold collect_results. apply calls_bind.
    - apply calls_for_loop. intros item vars. apply combo_step_models.
    - intros [dd n]. apply calls_quiet. quiet_steps. }
  pose proof (collect_results_fits E train_data val_data iterator shuffle
                device keys path ss save_loss_values wandb_params w) as Hf.
  specialize (Hc w). specialize (Hm w). rewrite Hrun in Hc, Hm, Hf.
  split_and!; [lia|lia|done].
Qed.

Lemma builds_per_combination_witness :
  length (List.filter is_create
            (log (demo_run demo_training demo_model ["lr"] (Some [7])).1))
    = (length (List.filter is_create (log (demo_world [])))
       + 2 * length (enumerate [(demo_training, demo_model)]))%nat
  ∧ length (List.filter is_model
              (log (demo_run demo_training demo_model ["lr"] (Some [7])).1))
    = (length (List.filter is_model (log (demo_world [])))
       + length (enumerate [(demo_training, demo_model)]) * length [7])%nat
  ∧ fits (log (demo_run demo_training demo_model ["lr"] (Some [7])).1)
    = (fits (log (demo_world []))
       + length (enumerate [(demo_training, demo_model)]) * length [7])%nat.
Proof.
  apply (builds_per_combination demo demo_train_data demo_val_data
           (enumerate [(demo_training, demo_model)]) true "cpu" ["lr"]
           "results.pkl" [7] false None (demo_world [])
           (demo_run demo_training demo_model ["lr"] (Some [7])).1
           {| columns := {["lr" := [VInt 1]; "time" := [VFloat 6];
                           "seed" := [VInt 7]]};
              nrows := 1 |}).
  vm_compute. reflexivity.
Defined.



(** X17: a combination whose training dictionary has no 'criterion' makes
    [collect_results] raise KeyError at once, before the dataloader builder
    or anything else is called for it. *)
Theorem missing_criterion_raises_first {X} (E : collaborators X) train_data
    val_data (n_run : nat) (th mh : gmap string pyval) rest shuffle device keys
    path seeds save_loss_values wandb_params (w : world X) :
  th !! "criterion" = None →
  collect_results E train_data val_data ((n_run, (th, mh)) :: rest) shuffle
    device keys path seeds save_loss_values wandb_params w
  = (w, Raise Own (KeyError "criterion")).
Proof.
  intros Hth. destruct train_data as [train_input train_labels],
    val_data as [val_input val_labels].
  unfold collect_results. simpl. unfold combo_step.
  unfold mbind, M_bind, lift, getitem. by rewrite Hth.
Qed.

Lemma missing_criterion_raises_first_witness :
  collect_results demo demo_train_data demo_val_data
    [(0%nat, ({["batch_size" := VInt 32]}, demo_model))] true "cpu" ["lr"]
    "results.pkl" (Some [7]) false None (demo_world [])
  = (demo_world [], Raise Own (KeyError "criterion")).
Proof.
  apply (missing_criterion_raises_first demo demo_train_data demo_val_data 0%nat
           {["batch_size" := VInt 32]} demo_model [] true "cpu" ["lr"]
           "results.pkl" (Some [7]) false None (demo_world [])).
  reflexivity.
Defined.

Lemma emits_quiet {X A} p (m : M X A) : quiet p m → emits p m [].
Proof.
  intros Hm w. specialize (Hm w). destruct (m w) as [w' [a|]]; [|done].
  simpl in Hm. by rewrite Hm, app_nil_r.
Qed.

Lemma emits_one {X A} p (c : callee) (ev : event) (f : X → X * reply A) :
  p ev = true → emits p (call c ev f) [ev].
Proof.
  intros Hp w. unfold call. destruct (f (ext w)) as [x [a|e]]; simpl; [|done].
  rewrite List.filter_app. simpl. by rewrite Hp.
Qed.

Lemma emits_bind {X A B} p (m : M X A) (f : A → M X B) (l1 l2 : list event) :
  emits p m l1 → (∀ a, emits p (f a) l2) → emits p (m ≫= f) (l1 ++ l2).
Proof.
  intros Hm Hf w. specialize (Hm w). unfold mbind, M_bind.
  destruct (m w) as [w1 [a|]]; [|done].
  specialize (Hf a w1). destruct (f a w1) as [w2 [b|]]; [|done].
  by rewrite Hf, Hm, app_assoc.
Qed.

Lemma emits_then {X A B} p (m : M X A) (f : A → M X B) (l : list event) :
  quiet p m → (∀ a, emits p (f a) l) → emits p (m ≫= f) l.
Proof. intros Hm Hf. by apply (emits_bind p m f [] l); [apply emits_quiet|]. Qed.

Lemma emits_for_loop {X A S} p (l : list A) (s : S) (body : A → S → M X S)
    (g : A → list event) :
  (∀ x s, emits p (body x s) (g x)) → emits p (for_loop l s body) (flat_map g l).
Proof.
  intros Hbody. revert s. induction l as [|x l IH]; intros s; simpl.
  - apply emits_quiet, quiet_ret.
  - apply emits_bind; [apply Hbody|intros s'; apply IH].
Qed.

Ltac emits_none := apply emits_then; [quiet_steps|intros ?].

Lemma seed_step_seeding {X} (E : collaborators X) (ss : list Z) device keys
    wandb_params th mh total new_th cn names hidx tl vl ti (v : seed_loop_vars) :
  emits is_seeding
    (seed_step E (Some ss) device keys wandb_params th mh total new_th cn names
       hidx tl vl ti v) [EvManualSeed ti; EvNumpySeed ti].
Proof.
  unfold seed_step, call_model_class.
  emits_none.
  apply (emits_bind _ _ _ [EvManualSeed ti; EvNumpySeed ti] []).
  - apply (emits_bind _ _ _ [EvManualSeed ti] [EvNumpySeed ti]);
      [by apply emits_one|intros _].
    apply (emits_bind _ _ _ [EvNumpySeed ti] []); [by apply emits_one|intros _].
    apply emits_quiet, quiet_ret.
  - intros config_params. apply emits_quiet. quiet_steps.
Qed.

Lemma flat_map_enumerate {A B} (g : A → list B) (l : list A) :
  flat_map (λ '(_, x), g x) (enumerate l) = flat_map g l.
Proof.
  unfold enumerate. generalize 0%nat.
  induction l as [|x l IH]; intros n; simpl; [done|]. by rewrite IH.
Qed.

Lemma combo_step_seeding {X} (E : collaborators X) train_data val_data shuffle
    device keys (ss : list Z) save wandb_params item vars :
  emits is_seeding
    (combo_step E train_data val_data shuffle device keys (Some ss) save
       wandb_params item vars) (seeding_of ss).
Proof.
  destruct train_data as [train_input train_labels],
    val_data as [val_input val_labels], item as [n_run [th mh]], vars as [dd n].
  unfold combo_step, dataloader_params_of.
  do 9 emits_none.
  rewrite <-(app_nil_r (seeding_of ss)). unfold seeding_of.
  rewrite <-(flat_map_enumerate (λ seed, [EvManualSeed seed; EvNumpySeed seed])).
  apply emits_bind; [|intros v; apply emits_quiet; quiet_steps].
  apply emits_for_loop. intros [idx ti] v. apply seed_step_seeding.
Qed.

(** X18: in a run of [collect_results] with a seeds list that returns, the
    seeding calls are, for every combination in turn, every seed of the list
    in order, given first to [torch.manual_seed] and then to
    [np.random.seed]. *)
Theorem seeding_per_combination {X} (E : collaborators X) train_data val_data
    iterator shuffle device keys path (ss : list Z) save_loss_values
    wandb_params (w w' : world X) (df : DataFrame) :
  collect_results E train_data val_data iterator shuffle device keys path
    (Some ss) save_loss_values wandb_params w = (w', Ok df) →
  List.filter is_seeding (log w')
  = List.filter is_seeding (log w) ++ flat_map (λ _, seeding_of ss) iterator.
Proof.
  intros Hrun.
  assert (emits is_seeding
            (collect_results E train_data val_data iterator shuffle device keys
               path (Some ss) save_loss_values wandb_params)
            (flat_map (λ _, seeding_of ss) iterator ++ [])) as H.
  { unfold collect_results. apply emits_bind.
    - apply emits_for_loop. intros item vars. apply combo_step_seeding.
    - intros [dd n]. apply emits_quiet. quiet_steps. }
  specialize (H w). rewrite Hrun, app_nil_r in H. done.
Qed.

Lemma seeding_per_combination_witness :
  List.filter is_seeding
    (log (demo_run demo_training demo_model ["lr"] (Some [7])).1)
  = List.filter is_seeding (log (demo_world []))
    ++ flat_map (λ _, seeding_of [7]) (enumerate [(demo_training, demo_model)]).
Proof.
  apply (seeding_per_combination demo demo_train_data demo_val_data
           (enumerate [(demo_training, demo_model)]) true "cpu" ["lr"]
           "results.pkl" [7] false None (demo_world [])
           (demo_run demo_training demo_model ["lr"] (Some [7])).1
           {| columns := {["lr" := [VInt 1]; "time" := [VFloat 6];
                           "seed" := [VInt 7]]};
              nrows := 1 |}).
  vm_compute. reflexivity.
Defined.

(** X19: without [wandb_params], [collect_results] makes no call of wandb and
    prints no warning, whether it returns or raises. *)
Theorem no_wandb_without_params {X} (E : collaborators X) train_data val_data
    iterator shuffle device keys path seeds save_loss_values (w : world X) :
  List.filter is_wandb
    (log (collect_results E train_data val_data iterator shuffle device keys
            path seeds save_loss_values None w).1)
  = List.filter is_wandb (log w).
Proof.
  assert (quiet is_wandb
            (collect_results E train_data val_data iterator shuffle device keys
               path seeds save_loss_values None)) as H; [|apply H].
  unfold collect_results. apply quiet_bind; [|intros [dd n]; quiet_steps].
  apply quiet_for_loop. intros item vars.
  destruct train_data as [train_input train_labels],
    val_data as [val_input val_labels], item as [n_run [th mh]], vars as [dd n].
  unfold combo_step, dataloader_params_of, seed_step, call_model_class.
  change (bool_decide (is_Some (None : option (gmap string string)))) with false.
  cbn [andb]. quiet_steps.
Qed.

(** * The grid search *)














(** * The equality test of the sampling loop *)

(** X20: the sampling loop compares dictionaries with [==], which holds
    [True], [1] and [1.0] for equal.  After the draw of hidden 1 with lr 5 the
    draw of hidden True with lr 5 is refused, so that the loop is still
    running after these two turns; a third draw of hidden 1.0 with lr 6 is
    accepted, its training dictionary being new. *)
Theorem sampling_equates_numbers :
  sampling_loop demo 2 model_samplers training_samplers 2 0 [] []
    (demo_world [VInt 1; VInt 5; VBool true; VInt 5]) = None
  ∧ snd <$> sampling_loop demo 3 model_samplers training_samplers 2 0 [] []
              (demo_world [VInt 1; VInt 5; VBool true; VInt 5; VFloat 1; VInt 6])
    = Some (Ok ([{["hidden" := VInt 1]}; {["hidden" := VFloat 1]}],
                [{["lr" := VInt 5]}; {["lr" := VInt 6]}])).
Proof. split; vm_compute; reflexivity. Qed.
